(** * realsense2Driver: the YARP device driver of the Intel RealSense camera

    A shallow embedding of [src/devices/realsense2/realsense2Driver.cpp].

    The driver is glue between two libraries: librealsense2 (pipeline,
    device, sensors, frames) and YARP (images, stamps, the feature
    enumeration).  Both are outside the repository, so they appear here as
    an interface, the class [Platform]; the driver's methods are written
    once for every implementation of it.  Every vendor call may throw
    [rs2::error]; the methods therefore live in a state monad whose results
    are either a returned value or a raised vendor error, with
    [try_catch] for the source's [try { } catch (const rs2::error&)].
    A ghost trace records each vendor call the driver performs. *)

From Stdlib Require Import ZArith List Bool Lia String.
From Stdlib Require Import Floats.SpecFloat.
Import ListNotations.
Local Open Scope Z_scope.

(** ** Enumerations of the two libraries *)

(** [rs2_format] of librealsense2.  The driver names ten enumerators; every
    other enumerator of the vendor header is [RS2_FORMAT_other n], [n] being
    its numeric value there. *)
Inductive rs2_format : Type :=
| RS2_FORMAT_RGB8
| RS2_FORMAT_BGR8
| RS2_FORMAT_Z16
| RS2_FORMAT_DISPARITY16
| RS2_FORMAT_RGBA8
| RS2_FORMAT_BGRA8
| RS2_FORMAT_Y8
| RS2_FORMAT_Y16
| RS2_FORMAT_RAW16
| RS2_FORMAT_RAW8
| RS2_FORMAT_other (n : Z).

(** The two streams the driver enables. *)
Inductive rs2_stream : Type :=
| RS2_STREAM_DEPTH
| RS2_STREAM_COLOR.

(** The sensor options the driver reads or writes. *)
Inductive rs2_option : Type :=
| RS2_OPTION_ACCURACY
| RS2_OPTION_MIN_DISTANCE
| RS2_OPTION_MAX_DISTANCE
| RS2_OPTION_EXPOSURE
| RS2_OPTION_GAIN
| RS2_OPTION_WHITE_BALANCE
| RS2_OPTION_SHARPNESS
| RS2_OPTION_HUE
| RS2_OPTION_SATURATION
| RS2_OPTION_ENABLE_AUTO_WHITE_BALANCE
| RS2_OPTION_ENABLE_AUTO_EXPOSURE.

(** YARP's pixel codes ([YarpVocabPixelTypesEnum]); [pixFormatToCode]
    returns the [int] value of one of these enumerators, and distinct
    enumerators have distinct values. *)
Inductive YarpVocabPixelTypesEnum : Type :=
| VOCAB_PIXEL_INVALID
| VOCAB_PIXEL_MONO
| VOCAB_PIXEL_MONO16
| VOCAB_PIXEL_RGB
| VOCAB_PIXEL_RGBA
| VOCAB_PIXEL_BGRA
| VOCAB_PIXEL_BGR.

(** YARP's [cameraFeature_id_t].  Its header is outside the repository;
    the enumerators are listed in the order YARP declares them, which
    gives them the consecutive values 0, 1, 2, ...  The driver relies on
    two facts only: the values are distinct, and they lie between
    [YARP_FEATURE_BRIGHTNESS] and [YARP_FEATURE_NUMBER_OF - 1]. *)
Inductive cameraFeature_id_t : Type :=
| YARP_FEATURE_BRIGHTNESS
| YARP_FEATURE_EXPOSURE
| YARP_FEATURE_SHARPNESS
| YARP_FEATURE_WHITE_BALANCE
| YARP_FEATURE_HUE
| YARP_FEATURE_SATURATION
| YARP_FEATURE_GAMMA
| YARP_FEATURE_SHUTTER
| YARP_FEATURE_GAIN
| YARP_FEATURE_IRIS
| YARP_FEATURE_FOCUS
| YARP_FEATURE_TEMPERATURE
| YARP_FEATURE_TRIGGER
| YARP_FEATURE_TRIGGER_DELAY
| YARP_FEATURE_WHITE_SHADING
| YARP_FEATURE_FRAME_RATE
| YARP_FEATURE_ZOOM
| YARP_FEATURE_PAN
| YARP_FEATURE_TILT
| YARP_FEATURE_OPTICAL_FILTER
| YARP_FEATURE_CAPTURE_SIZE
| YARP_FEATURE_CAPTURE_QUALITY
| YARP_FEATURE_MIRROR
| YARP_FEATURE_NUMBER_OF.

(** Every enumerator, in declaration order. *)
Definition cameraFeature_enumerators : list cameraFeature_id_t :=
  [ YARP_FEATURE_BRIGHTNESS; YARP_FEATURE_EXPOSURE; YARP_FEATURE_SHARPNESS;
    YARP_FEATURE_WHITE_BALANCE; YARP_FEATURE_HUE; YARP_FEATURE_SATURATION;
    YARP_FEATURE_GAMMA; YARP_FEATURE_SHUTTER; YARP_FEATURE_GAIN;
    YARP_FEATURE_IRIS; YARP_FEATURE_FOCUS; YARP_FEATURE_TEMPERATURE;
    YARP_FEATURE_TRIGGER; YARP_FEATURE_TRIGGER_DELAY;
    YARP_FEATURE_WHITE_SHADING; YARP_FEATURE_FRAME_RATE; YARP_FEATURE_ZOOM;
    YARP_FEATURE_PAN; YARP_FEATURE_TILT; YARP_FEATURE_OPTICAL_FILTER;
    YARP_FEATURE_CAPTURE_SIZE; YARP_FEATURE_CAPTURE_QUALITY;
    YARP_FEATURE_MIRROR; YARP_FEATURE_NUMBER_OF ].

(** The [int] value of an enumerator. *)
Definition feature_value (c : cameraFeature_id_t) : Z :=
  match c with
  | YARP_FEATURE_BRIGHTNESS => 0
  | YARP_FEATURE_EXPOSURE => 1
  | YARP_FEATURE_SHARPNESS => 2
  | YARP_FEATURE_WHITE_BALANCE => 3
  | YARP_FEATURE_HUE => 4
  | YARP_FEATURE_SATURATION => 5
  | YARP_FEATURE_GAMMA => 6
  | YARP_FEATURE_SHUTTER => 7
  | YARP_FEATURE_GAIN => 8
  | YARP_FEATURE_IRIS => 9
  | YARP_FEATURE_FOCUS => 10
  | YARP_FEATURE_TEMPERATURE => 11
  | YARP_FEATURE_TRIGGER => 12
  | YARP_FEATURE_TRIGGER_DELAY => 13
  | YARP_FEATURE_WHITE_SHADING => 14
  | YARP_FEATURE_FRAME_RATE => 15
  | YARP_FEATURE_ZOOM => 16
  | YARP_FEATURE_PAN => 17
  | YARP_FEATURE_TILT => 18
  | YARP_FEATURE_OPTICAL_FILTER => 19
  | YARP_FEATURE_CAPTURE_SIZE => 20
  | YARP_FEATURE_CAPTURE_QUALITY => 21
  | YARP_FEATURE_MIRROR => 22
  | YARP_FEATURE_NUMBER_OF => 23
  end.

(** [static_cast<cameraFeature_id_t>(feature)] keeps the integer; a
    [switch] or an [==] on the result selects the enumerator of that
    value, if there is one. *)
Definition enumerator_of (f : Z) : option cameraFeature_id_t :=
  find (fun c => feature_value c =? f) cameraFeature_enumerators.

(** YARP's [FeatureMode]. *)
Inductive FeatureMode : Type :=
| MODE_UNKNOWN
| MODE_MANUAL
| MODE_AUTO.

(** ** Single-precision values

    A C++ [float] is a binary32 number, here a [spec_float] in canonical
    form for precision 24 and maximal exponent 128.  The source compares a
    [float] with the [double] literals [0.0] and [1.0]; the promotion to
    [double] is exact, so the comparison is IEEE equality on the binary32
    value ([SFeqb]: the two zeros are equal, a NaN equals nothing). *)

Definition float32 : Type := spec_float.

Definition float_zero : float32 := S754_zero false.
Definition float_one : float32 := SFone 24 128.

(** [(float) onoff] for a [bool]. *)
Definition float_of_bool (b : bool) : float32 :=
  if b then float_one else float_zero.

(** The implicit narrowing of a [double] argument to the [float] parameter
    of [setOption]: rounding to nearest even, overflow to infinity. *)
Definition float_of_double (d : spec_float) : float32 :=
  match d with
  | S754_finite s m e => binary_round 24 128 s m e
  | _ => d
  end.

(** ** Pixel formats *)

(** [static int pixFormatToCode(const rs2_format p)] *)
Definition pixFormatToCode (p : rs2_format) : YarpVocabPixelTypesEnum :=
  match p with
  | RS2_FORMAT_RGB8 => VOCAB_PIXEL_RGB
  | RS2_FORMAT_BGR8 => VOCAB_PIXEL_BGR
  | RS2_FORMAT_Z16 => VOCAB_PIXEL_MONO16
  | RS2_FORMAT_DISPARITY16 => VOCAB_PIXEL_MONO16
  | RS2_FORMAT_RGBA8 => VOCAB_PIXEL_RGBA
  | RS2_FORMAT_BGRA8 => VOCAB_PIXEL_BGRA
  | RS2_FORMAT_Y8 => VOCAB_PIXEL_MONO
  | RS2_FORMAT_Y16 => VOCAB_PIXEL_MONO16
  | RS2_FORMAT_RAW16 => VOCAB_PIXEL_MONO16
  | RS2_FORMAT_RAW8 => VOCAB_PIXEL_MONO
  | RS2_FORMAT_other _ => VOCAB_PIXEL_INVALID
  end.

(** [static size_t bytesPerPixel(const rs2_format format)] *)
Definition bytesPerPixel (format : rs2_format) : Z :=
  match format with
  | RS2_FORMAT_RAW8 | RS2_FORMAT_Y8 => 1
  | RS2_FORMAT_Z16 | RS2_FORMAT_DISPARITY16
  | RS2_FORMAT_Y16 | RS2_FORMAT_RAW16 => 2
  | RS2_FORMAT_RGB8 | RS2_FORMAT_BGR8 => 3
  | RS2_FORMAT_RGBA8 | RS2_FORMAT_BGRA8 => 4
  | RS2_FORMAT_other _ => 0
  end.

(** [pixCode == VOCAB_PIXEL_INVALID] *)
Definition is_invalid_code (c : YarpVocabPixelTypesEnum) : bool :=
  match c with
  | VOCAB_PIXEL_INVALID => true
  | _ => false
  end.

(** ** Vendor data the driver stores or receives *)

(** [rs2_intrinsics] *)
Record rs2_intrinsics : Type := {
  width : Z;
  height : Z;
  ppx : float32;
  ppy : float32;
  fx : float32;
  fy : float32;
  model : Z;
  coeffs : list float32
}.

(** [rs2_extrinsics] *)
Record rs2_extrinsics : Type := {
  rotation : list float32;
  translation : list float32
}.

(** [rs2::error]: the message behind [what()]. *)
Record rs2_error : Type := { what : string }.

(** The result of a call that may throw the vendor error. *)
Inductive outcome (A : Type) : Type :=
| Returned (a : A)
| Raised (e : rs2_error).

Arguments Returned {A} a.
Arguments Raised {A} e.

(** A colour frame that holds a frame, as the driver reads it:
    [get_profile().format()], [get_width()], [get_height()] (two [int])
    and the bytes behind [get_data()]. *)
Record rs2_video_frame : Type := {
  frame_format : rs2_format;
  frame_width : Z;
  frame_height : Z;
  frame_data : list Byte.byte
}.

(** A depth frame that holds a frame: the same accessors and
    [get_distance(x, y)], which the driver calls inside the bounds it has
    just read from the frame. *)
Record rs2_depth_frame : Type := {
  depth_format : rs2_format;
  depth_width : Z;
  depth_height : Z;
  get_distance : Z -> Z -> float32
}.

(** [rs2::frameset].  Reading a frame of it, that is [get_color_frame()]
    or [get_depth_frame()] followed by the accessors of the frame, is a
    sequence of vendor calls outside any [try]: it gives the frame, or
    raises (an empty frame raises at its first accessor). *)
Record rs2_frameset : Type := {
  get_color_frame : outcome rs2_video_frame;
  get_depth_frame : outcome rs2_depth_frame
}.

(** ** Machine integers

    [int] is 32 bits wide and [size_t] 64.  A product of two [int] that
    leaves the range is taken with the two's-complement wrap-around of the
    machine (the language leaves it undefined); the conversion of an [int]
    to [size_t] and a product of [size_t] are modulo 2^64. *)

Definition wrap_int (z : Z) : Z := (z + 2 ^ 31) mod 2 ^ 32 - 2 ^ 31.

Definition wrap_size_t (z : Z) : Z := z mod 2 ^ 64.

(** [color_frm.get_width() * color_frm.get_height() * bytesPerPixel(format)]:
    the product of the two [int], converted to [size_t], times the
    [size_t] of [bytesPerPixel]. *)
Definition frame_bytes (w h : Z) (format : rs2_format) : Z :=
  wrap_size_t (wrap_size_t (wrap_int (w * h)) * bytesPerPixel format).

(** ** The two libraries as an interface

    [World] is everything behind the vendor objects the driver owns
    ([m_ctx], [m_pipeline], the device and its sensors) together with the
    host clock.  A vendor call takes the world, returns a value or raises,
    and leaves a new world.  The YARP image types are used through the few
    methods the driver calls on them. *)
Class Platform : Type := {
  World : Type;
  rs2_config : Type;
  rs2_device : Type;
  rs2_sensor : Type;
  rs2_pipeline_profile : Type;
  rs2_video_stream_profile : Type;

  (* rs2::config::enable_stream(stream, width, height, format, framerate):
     it records the request in the configuration and touches no device *)
  rs2_enable_stream :
    rs2_stream -> Z -> Z -> rs2_format -> Z -> rs2_config -> rs2_config;
  (* rs2::pipeline *)
  rs2_pipeline_start : rs2_config -> World -> outcome unit * World;
  rs2_pipeline_stop : World -> outcome unit * World;
  rs2_wait_for_frames : World -> outcome rs2_frameset * World;
  rs2_get_active_profile : World -> outcome rs2_pipeline_profile * World;
  (* rs2::pipeline_profile::get_stream, converted to a video profile *)
  rs2_get_stream :
    rs2_pipeline_profile -> rs2_stream -> outcome rs2_video_stream_profile;
  rs2_get_intrinsics : rs2_video_stream_profile -> outcome rs2_intrinsics;
  rs2_get_extrinsics_to :
    rs2_video_stream_profile -> rs2_video_stream_profile ->
    outcome rs2_extrinsics;
  (* rs2::align(RS2_STREAM_COLOR).process(frames) *)
  rs2_align_process : rs2_frameset -> World -> outcome rs2_frameset * World;
  (* rs2::context, rs2::device_hub, rs2::device *)
  rs2_query_devices : World -> outcome (list rs2_device) * World;
  rs2_wait_for_device : World -> outcome rs2_device * World;
  rs2_query_sensors : rs2_device -> World -> outcome (list rs2_sensor) * World;
  (* rs2::sensor *)
  rs2_is_depth_sensor : rs2_sensor -> World -> outcome bool * World;
  rs2_supports : rs2_sensor -> rs2_option -> World -> outcome bool * World;
  rs2_set_option :
    rs2_sensor -> rs2_option -> float32 -> World -> outcome unit * World;
  rs2_get_option :
    rs2_sensor -> rs2_option -> World -> outcome float32 * World;
  (* the two printing helpers of the driver, which only query and log *)
  rs2_device_information : rs2_device -> World -> outcome unit * World;
  rs2_print_options : rs2_sensor -> World -> outcome unit * World;

  (* yarp::sig::FlexImage *)
  FlexImage : Type;
  setPixelCode : YarpVocabPixelTypesEnum -> FlexImage -> FlexImage;
  resize : Z -> Z -> FlexImage -> FlexImage;
  getRawImageSize : FlexImage -> Z;
  (* memcpy of the given bytes over getRawImage() *)
  writeRawImage : list Byte.byte -> FlexImage -> FlexImage;
  (* yarp::sig::ImageOf<PixelFloat> *)
  depthImage : Type;
  depth_resize : Z -> Z -> depthImage -> depthImage;
  (* Frame.safePixel(x, y) = v *)
  setSafePixel : Z -> Z -> float32 -> depthImage -> depthImage;
  (* yarp::os::Stamp and its update(), which reads the clock *)
  Stamp : Type;
  stamp_update : World -> Stamp -> Stamp
}.

Section Driver.

Context {P : Platform}.

(** One entry of the ghost trace per vendor call. *)
Inductive sdk_call : Type :=
| call_enable_stream (s : rs2_stream) (w h : Z) (f : rs2_format) (fps : Z)
| call_pipeline_start (cfg : rs2_config)
| call_pipeline_stop
| call_wait_for_frames
| call_get_active_profile
| call_get_stream (s : rs2_stream)
| call_get_intrinsics (s : rs2_stream)
| call_get_extrinsics_to (from to : rs2_stream)
| call_align_process
| call_query_devices
| call_wait_for_device
| call_query_sensors
| call_is_depth_sensor (s : rs2_sensor)
| call_supports (s : rs2_sensor) (o : rs2_option)
| call_set_option (s : rs2_sensor) (o : rs2_option) (v : float32)
| call_get_option (s : rs2_sensor) (o : rs2_option)
| call_device_information
| call_print_options (s : rs2_sensor)
| call_color_frame
| call_depth_frame.

(** The members of [realsense2Driver] the modelled methods use.  A sensor
    pointer is [None] when null and otherwise the sensor it points to.
    [rgbRes] and [depthRes] are the values of [m_params_map] as the
    [int] arguments [enable_stream] receives.  [m_supportedFeatures] is
    not a field: only the constructor writes it (see below).
    [sdk_trace] is ghost, most recent call first. *)
Record realsense2Driver : Type := {
  world : World;
  sdk_trace : list sdk_call;
  m_cfg : rs2_config;
  m_device : option rs2_device;
  m_sensors : list rs2_sensor;
  m_depth_sensor : option rs2_sensor;
  m_color_sensor : option rs2_sensor;
  m_depth_intrin : rs2_intrinsics;
  m_color_intrin : rs2_intrinsics;
  m_depth_to_color : rs2_extrinsics;
  m_color_to_depth : rs2_extrinsics;
  m_rgb_stamp : Stamp;
  m_depth_stamp : Stamp;
  m_verbose : bool;
  rgbRes : Z * Z;
  depthRes : Z * Z
}.

Definition set_world (w : World) (d : realsense2Driver) : realsense2Driver :=
  {| world := w; sdk_trace := sdk_trace d; m_cfg := m_cfg d;
     m_device := m_device d; m_sensors := m_sensors d;
     m_depth_sensor := m_depth_sensor d; m_color_sensor := m_color_sensor d;
     m_depth_intrin := m_depth_intrin d; m_color_intrin := m_color_intrin d;
     m_depth_to_color := m_depth_to_color d;
     m_color_to_depth := m_color_to_depth d;
     m_rgb_stamp := m_rgb_stamp d; m_depth_stamp := m_depth_stamp d;
     m_verbose := m_verbose d; rgbRes := rgbRes d; depthRes := depthRes d |}.

Definition log_call (c : sdk_call) (d : realsense2Driver) : realsense2Driver :=
  {| world := world d; sdk_trace := c :: sdk_trace d; m_cfg := m_cfg d;
     m_device := m_device d; m_sensors := m_sensors d;
     m_depth_sensor := m_depth_sensor d; m_color_sensor := m_color_sensor d;
     m_depth_intrin := m_depth_intrin d; m_color_intrin := m_color_intrin d;
     m_depth_to_color := m_depth_to_color d;
     m_color_to_depth := m_color_to_depth d;
     m_rgb_stamp := m_rgb_stamp d; m_depth_stamp := m_depth_stamp d;
     m_verbose := m_verbose d; rgbRes := rgbRes d; depthRes := depthRes d |}.

Definition set_cfg (c : rs2_config) (d : realsense2Driver) : realsense2Driver :=
  {| world := world d; sdk_trace := sdk_trace d; m_cfg := c;
     m_device := m_device d; m_sensors := m_sensors d;
     m_depth_sensor := m_depth_sensor d; m_color_sensor := m_color_sensor d;
     m_depth_intrin := m_depth_intrin d; m_color_intrin := m_color_intrin d;
     m_depth_to_color := m_depth_to_color d;
     m_color_to_depth := m_color_to_depth d;
     m_rgb_stamp := m_rgb_stamp d; m_depth_stamp := m_depth_stamp d;
     m_verbose := m_verbose d; rgbRes := rgbRes d; depthRes := depthRes d |}.

Definition set_device (x : rs2_device) (d : realsense2Driver) : realsense2Driver :=
  {| world := world d; sdk_trace := sdk_trace d; m_cfg := m_cfg d;
     m_device := Some x; m_sensors := m_sensors d;
     m_depth_sensor := m_depth_sensor d; m_color_sensor := m_color_sensor d;
     m_depth_intrin := m_depth_intrin d; m_color_intrin := m_color_intrin d;
     m_depth_to_color := m_depth_to_color d;
     m_color_to_depth := m_color_to_depth d;
     m_rgb_stamp := m_rgb_stamp d; m_depth_stamp := m_depth_stamp d;
     m_verbose := m_verbose d; rgbRes := rgbRes d; depthRes := depthRes d |}.

Definition set_sensors (l : list rs2_sensor) (d : realsense2Driver) : realsense2Driver :=
  {| world := world d; sdk_trace := sdk_trace d; m_cfg := m_cfg d;
     m_device := m_device d; m_sensors := l;
     m_depth_sensor := m_depth_sensor d; m_color_sensor := m_color_sensor d;
     m_depth_intrin := m_depth_intrin d; m_color_intrin := m_color_intrin d;
     m_depth_to_color := m_depth_to_color d;
     m_color_to_depth := m_color_to_depth d;
     m_rgb_stamp := m_rgb_stamp d; m_depth_stamp := m_depth_stamp d;
     m_verbose := m_verbose d; rgbRes := rgbRes d; depthRes := depthRes d |}.

Definition set_depth_sensor (s : rs2_sensor) (d : realsense2Driver) : realsense2Driver :=
  {| world := world d; sdk_trace := sdk_trace d; m_cfg := m_cfg d;
     m_device := m_device d; m_sensors := m_sensors d;
     m_depth_sensor := Some s; m_color_sensor := m_color_sensor d;
     m_depth_intrin := m_depth_intrin d; m_color_intrin := m_color_intrin d;
     m_depth_to_color := m_depth_to_color d;
     m_color_to_depth := m_color_to_depth d;
     m_rgb_stamp := m_rgb_stamp d; m_depth_stamp := m_depth_stamp d;
     m_verbose := m_verbose d; rgbRes := rgbRes d; depthRes := depthRes d |}.

Definition set_color_sensor (s : rs2_sensor) (d : realsense2Driver) : realsense2Driver :=
  {| world := world d; sdk_trace := sdk_trace d; m_cfg := m_cfg d;
     m_device := m_device d; m_sensors := m_sensors d;
     m_depth_sensor := m_depth_sensor d; m_color_sensor := Some s;
     m_depth_intrin := m_depth_intrin d; m_color_intrin := m_color_intrin d;
     m_depth_to_color := m_depth_to_color d;
     m_color_to_depth := m_color_to_depth d;
     m_rgb_stamp := m_rgb_stamp d; m_depth_stamp := m_depth_stamp d;
     m_verbose := m_verbose d; rgbRes := rgbRes d; depthRes := depthRes d |}.

Definition set_depth_intrin (i : rs2_intrinsics) (d : realsense2Driver) : realsense2Driver :=
  {| world := world d; sdk_trace := sdk_trace d; m_cfg := m_cfg d;
     m_device := m_device d; m_sensors := m_sensors d;
     m_depth_sensor := m_depth_sensor d; m_color_sensor := m_color_sensor d;
     m_depth_intrin := i; m_color_intrin := m_color_intrin d;
     m_depth_to_color := m_depth_to_color d;
     m_color_to_depth := m_color_to_depth d;
     m_rgb_stamp := m_rgb_stamp d; m_depth_stamp := m_depth_stamp d;
     m_verbose := m_verbose d; rgbRes := rgbRes d; depthRes := depthRes d |}.

Definition set_color_intrin (i : rs2_intrinsics) (d : realsense2Driver) : realsense2Driver :=
  {| world := world d; sdk_trace := sdk_trace d; m_cfg := m_cfg d;
     m_device := m_device d; m_sensors := m_sensors d;
     m_depth_sensor := m_depth_sensor d; m_color_sensor := m_color_sensor d;
     m_depth_intrin := m_depth_intrin d; m_color_intrin := i;
     m_depth_to_color := m_depth_to_color d;
     m_color_to_depth := m_color_to_depth d;
     m_rgb_stamp := m_rgb_stamp d; m_depth_stamp := m_depth_stamp d;
     m_verbose := m_verbose d; rgbRes := rgbRes d; depthRes := depthRes d |}.

Definition set_depth_to_color (e : rs2_extrinsics) (d : realsense2Driver) : realsense2Driver :=
  {| world := world d; sdk_trace := sdk_trace d; m_cfg := m_cfg d;
     m_device := m_device d; m_sensors := m_sensors d;
     m_depth_sensor := m_depth_sensor d; m_color_sensor := m_color_sensor d;
     m_depth_intrin := m_depth_intrin d; m_color_intrin := m_color_intrin d;
     m_depth_to_color := e;
     m_color_to_depth := m_color_to_depth d;
     m_rgb_stamp := m_rgb_stamp d; m_depth_stamp := m_depth_stamp d;
     m_verbose := m_verbose d; rgbRes := rgbRes d; depthRes := depthRes d |}.

Definition set_color_to_depth (e : rs2_extrinsics) (d : realsense2Driver) : realsense2Driver :=
  {| world := world d; sdk_trace := sdk_trace d; m_cfg := m_cfg d;
     m_device := m_device d; m_sensors := m_sensors d;
     m_depth_sensor := m_depth_sensor d; m_color_sensor := m_color_sensor d;
     m_depth_intrin := m_depth_intrin d; m_color_intrin := m_color_intrin d;
     m_depth_to_color := m_depth_to_color d;
     m_color_to_depth := e;
     m_rgb_stamp := m_rgb_stamp d; m_depth_stamp := m_depth_stamp d;
     m_verbose := m_verbose d; rgbRes := rgbRes d; depthRes := depthRes d |}.

Definition set_rgb_stamp (t : Stamp) (d : realsense2Driver) : realsense2Driver :=
  {| world := world d; sdk_trace := sdk_trace d; m_cfg := m_cfg d;
     m_device := m_device d; m_sensors := m_sensors d;
     m_depth_sensor := m_depth_sensor d; m_color_sensor := m_color_sensor d;
     m_depth_intrin := m_depth_intrin d; m_color_intrin := m_color_intrin d;
     m_depth_to_color := m_depth_to_color d;
     m_color_to_depth := m_color_to_depth d;
     m_rgb_stamp := t; m_depth_stamp := m_depth_stamp d;
     m_verbose := m_verbose d; rgbRes := rgbRes d; depthRes := depthRes d |}.

Definition set_depth_stamp (t : Stamp) (d : realsense2Driver) : realsense2Driver :=
  {| world := world d; sdk_trace := sdk_trace d; m_cfg := m_cfg d;
     m_device := m_device d; m_sensors := m_sensors d;
     m_depth_sensor := m_depth_sensor d; m_color_sensor := m_color_sensor d;
     m_depth_intrin := m_depth_intrin d; m_color_intrin := m_color_intrin d;
     m_depth_to_color := m_depth_to_color d;
     m_color_to_depth := m_color_to_depth d;
     m_rgb_stamp := m_rgb_stamp d; m_depth_stamp := t;
     m_verbose := m_verbose d; rgbRes := rgbRes d; depthRes := depthRes d |}.

(** ** The monad of the driver's methods *)

Definition M (A : Type) : Type :=
  realsense2Driver -> outcome A * realsense2Driver.

Definition ret {A : Type} (a : A) : M A := fun d => (Returned a, d).

Definition bind {A B : Type} (m : M A) (k : A -> M B) : M B :=
  fun d =>
    match m d with
    | (Returned a, d') => k a d'
    | (Raised e, d') => (Raised e, d')
    end.

(** [try { body } catch (const rs2::error& e) { handler }] *)
Definition try_catch {A : Type} (body : M A) (handler : rs2_error -> M A) : M A :=
  fun d =>
    match body d with
    | (Returned a, d') => (Returned a, d')
    | (Raised e, d') => handler e d'
    end.

Definition modify (f : realsense2Driver -> realsense2Driver) : M unit :=
  fun d => (Returned tt, f d).

Definition gets {A : Type} (f : realsense2Driver -> A) : M A :=
  fun d => (Returned (f d), d).

(** A vendor call on the world: logged, then performed. *)
Definition vendor {A : Type} (c : sdk_call)
    (op : World -> outcome A * World) : M A :=
  fun d =>
    let (r, w) := op (world d) in (r, set_world w (log_call c d)).

(** A vendor call that only reads its receiver. *)
Definition vendor_pure {A : Type} (c : sdk_call) (r : outcome A) : M A :=
  fun d => (r, log_call c d).

End Driver.

Declare Scope driver_scope.
Delimit Scope driver_scope with driver.
Notation "x <- m ;; k" := (bind m (fun x => k))
  (at level 61, m at next level, right associativity) : driver_scope.
Notation "' pat <- m ;; k" := (bind m (fun x => match x with pat => k end))
  (at level 61, pat pattern, m at next level, right associativity) : driver_scope.
Notation "m ;; k" := (bind m (fun _ => k))
  (at level 61, right associativity) : driver_scope.
Local Open Scope driver_scope.

(** [for (int i = 0; i < n; i++) body] *)
Fixpoint repeatM {P : Platform} (n : nat) (body : M unit) : M unit :=
  match n with
  | O => ret tt
  | S n' => body ;; repeatM n' body
  end.

(** [for (size_t i = 0; i < l.size(); i++) body(l[i])] *)
Fixpoint forM {P : Platform} {A : Type} (l : list A) (body : A -> M unit) : M unit :=
  match l with
  | [] => ret tt
  | a :: l' => body a ;; forM l' body
  end.

(** The indices [0, 1, ..., n-1] of a loop [for (int i = 0; i < n; i++)]. *)
Definition indices (n : Z) : list Z := map Z.of_nat (seq 0 (Z.to_nat n)).

Section Methods.

Context {P : Platform}.

(** [m_cfg.enable_stream(...)] *)
Definition enable_stream (s : rs2_stream) (w h : Z) (f : rs2_format) (fps : Z)
  : M unit :=
  modify (fun d =>
    set_cfg (rs2_enable_stream s w h f fps (m_cfg d))
            (log_call (call_enable_stream s w h f fps) d)).

(** [static bool setOption(rs2_option, const rs2::sensor*, float)] *)
Definition setOption (opt : rs2_option) (sensor : option rs2_sensor)
    (value : float32) : M bool :=
  match sensor with
  | None => ret false
  | Some s =>
      sup <- vendor (call_supports s opt) (rs2_supports s opt) ;;
      if negb sup then ret false
      else
        try_catch
          (vendor (call_set_option s opt value)
                  (rs2_set_option s opt value) ;;
           ret true)
          (fun _ => ret false)
  end.

(** [static bool getOption(rs2_option, const rs2::sensor*, float&)]:
    [Some v] is [true] with [value = v]; [None] is [false], [value] as it
    was. *)
Definition getOption (opt : rs2_option) (sensor : option rs2_sensor)
  : M (option float32) :=
  match sensor with
  | None => ret None
  | Some s =>
      sup <- vendor (call_supports s opt) (rs2_supports s opt) ;;
      if negb sup then ret None
      else
        try_catch
          (v <- vendor (call_get_option s opt) (rs2_get_option s opt) ;;
           ret (Some v))
          (fun _ => ret None)
  end.

(** The list the constructor builds with seven [push_back]; no other
    method writes [m_supportedFeatures]. *)
Definition m_supportedFeatures : list cameraFeature_id_t :=
  [ YARP_FEATURE_EXPOSURE; YARP_FEATURE_WHITE_BALANCE; YARP_FEATURE_GAIN;
    YARP_FEATURE_FRAME_RATE; YARP_FEATURE_SHARPNESS; YARP_FEATURE_HUE;
    YARP_FEATURE_SATURATION ].

(** [bool pipelineStartup()] *)
Definition pipelineStartup : M bool :=
  try_catch
    (cfg <- gets m_cfg ;;
     vendor (call_pipeline_start cfg) (rs2_pipeline_start cfg) ;;
     ret true)
    (fun _ => ret false).

(** [bool pipelineShutdown()] *)
Definition pipelineShutdown : M bool :=
  try_catch
    (vendor call_pipeline_stop rs2_pipeline_stop ;;
     ret true)
    (fun _ => ret false).

(** [void updateTransformations()] *)
Definition updateTransformations : M unit :=
  pipeline_profile <- vendor call_get_active_profile rs2_get_active_profile ;;
  depth_stream_profile <-
    vendor_pure (call_get_stream RS2_STREAM_DEPTH)
                (rs2_get_stream pipeline_profile RS2_STREAM_DEPTH) ;;
  color_stream_profile <-
    vendor_pure (call_get_stream RS2_STREAM_COLOR)
                (rs2_get_stream pipeline_profile RS2_STREAM_COLOR) ;;
  di <- vendor_pure (call_get_intrinsics RS2_STREAM_DEPTH)
                    (rs2_get_intrinsics depth_stream_profile) ;;
  modify (set_depth_intrin di) ;;
  ci <- vendor_pure (call_get_intrinsics RS2_STREAM_COLOR)
                    (rs2_get_intrinsics color_stream_profile) ;;
  modify (set_color_intrin ci) ;;
  dc <- vendor_pure (call_get_extrinsics_to RS2_STREAM_DEPTH RS2_STREAM_COLOR)
          (rs2_get_extrinsics_to depth_stream_profile color_stream_profile) ;;
  modify (set_depth_to_color dc) ;;
  cd <- vendor_pure (call_get_extrinsics_to RS2_STREAM_COLOR RS2_STREAM_DEPTH)
          (rs2_get_extrinsics_to color_stream_profile depth_stream_profile) ;;
  modify (set_color_to_depth cd).

(** [bool initializeRealsenseDevice()] *)
Definition initializeRealsenseDevice : M bool :=
  '(colorW, colorH) <- gets rgbRes ;;
  '(depthW, depthH) <- gets depthRes ;;
  enable_stream RS2_STREAM_COLOR colorW colorH RS2_FORMAT_RGB8 0 ;;
  enable_stream RS2_STREAM_DEPTH depthW depthH RS2_FORMAT_Z16 0 ;;
  started <- pipelineStartup ;;
  if negb started then ret false
  else
    (* camera warm-up: thirty frames dropped *)
    repeatM 30 (vendor call_wait_for_frames rs2_wait_for_frames ;; ret tt) ;;
    devices <- vendor call_query_devices rs2_query_devices ;;
    dev <- match devices with
           | [] =>
               dev <- vendor call_wait_for_device rs2_wait_for_device ;;
               modify (set_device dev) ;;
               ret dev
           | dev :: _ =>
               modify (set_device dev) ;;
               verbose <- gets m_verbose ;;
               (if verbose
                then vendor call_device_information (rs2_device_information dev)
                else ret tt) ;;
               ret dev
           end ;;
    sensors <- vendor call_query_sensors (rs2_query_sensors dev) ;;
    modify (set_sensors sensors) ;;
    verbose <- gets m_verbose ;;
    (if verbose
     then forM sensors
            (fun s => vendor (call_print_options s) (rs2_print_options s))
     else ret tt) ;;
    forM sensors
      (fun s =>
         is_depth <- vendor (call_is_depth_sensor s) (rs2_is_depth_sensor s) ;;
         if is_depth then modify (set_depth_sensor s)
         else modify (set_color_sensor s)) ;;
    updateTransformations ;;
    ret true.

(** [bool close()] *)
Definition close : M bool :=
  pipelineShutdown ;;
  ret true.

(** [int getRgbHeight()], [int getRgbWidth()] *)
Definition getRgbHeight : M Z := gets (fun d => height (m_color_intrin d)).
Definition getRgbWidth : M Z := gets (fun d => width (m_color_intrin d)).

(** [bool getRgbResolution(int &width, int &height)]: the result and the
    two values written. *)
Definition getRgbResolution : M (bool * (Z * Z)) :=
  w <- gets (fun d => width (m_color_intrin d)) ;;
  h <- gets (fun d => height (m_color_intrin d)) ;;
  ret (true, (w, h)).

(** [int getDepthHeight()], [int getDepthWidth()] *)
Definition getDepthHeight : M Z := gets (fun d => height (m_depth_intrin d)).
Definition getDepthWidth : M Z := gets (fun d => width (m_depth_intrin d)).

(** [bool setDepthResolution(int width, int height)] *)
Definition setDepthResolution (w h : Z) : M bool :=
  cw <- gets (fun d => width (m_color_intrin d)) ;;
  ch <- gets (fun d => height (m_color_intrin d)) ;;
  enable_stream RS2_STREAM_COLOR cw ch RS2_FORMAT_RGB8 0 ;;
  enable_stream RS2_STREAM_DEPTH w h RS2_FORMAT_Z16 0 ;;
  stopped <- pipelineShutdown ;;
  if negb stopped then ret false
  else
    started <- pipelineStartup ;;
    if negb started then ret false
    else
      updateTransformations ;;
      ret true.

(** [bool setRgbResolution(int width, int height)] *)
Definition setRgbResolution (w h : Z) : M bool :=
  enable_stream RS2_STREAM_COLOR w h RS2_FORMAT_RGB8 0 ;;
  dw <- gets (fun d => width (m_depth_intrin d)) ;;
  dh <- gets (fun d => height (m_depth_intrin d)) ;;
  enable_stream RS2_STREAM_DEPTH dw dh RS2_FORMAT_Z16 0 ;;
  stopped <- pipelineShutdown ;;
  if negb stopped then ret false
  else
    started <- pipelineStartup ;;
    if negb started then ret false
    else
      updateTransformations ;;
      ret true.

(** ** Capture *)

(** [bool getImage(FlexImage& Frame, Stamp *timeStamp, rs2::frameset &sourceFrame)]:
    the result, [Frame] and [*timeStamp] as the call leaves them.
    [mem_to_wrt] and the comparison are in [size_t]. *)
Definition getImage (Frame : FlexImage) (timeStamp : Stamp)
    (sourceFrame : rs2_frameset) : M (bool * FlexImage * Stamp) :=
  color_frm <- vendor_pure call_color_frame (get_color_frame sourceFrame) ;;
  let format := frame_format color_frm in
  let pixCode := pixFormatToCode format in
  let mem_to_wrt :=
    frame_bytes (frame_width color_frm) (frame_height color_frm) format in
  if is_invalid_code pixCode then ret (false, Frame, timeStamp)
  else
    cw <- gets (fun d => width (m_color_intrin d)) ;;
    ch <- gets (fun d => height (m_color_intrin d)) ;;
    let Frame1 := resize cw ch (setPixelCode pixCode Frame) in
    if negb (wrap_size_t (getRawImageSize Frame1) =? mem_to_wrt)
    then ret (false, Frame1, timeStamp)
    else
      let Frame2 :=
        writeRawImage (firstn (Z.to_nat mem_to_wrt) (frame_data color_frm))
                      Frame1 in
      modify (fun d => set_rgb_stamp (stamp_update (world d) (m_rgb_stamp d)) d) ;;
      stamp <- gets m_rgb_stamp ;;
      ret (true, Frame2, stamp).

(** The two nested loops of the depth conversion: [x] outside, [y]
    inside, one [safePixel] write per pixel. *)
Definition write_distances (depth_frm : rs2_depth_frame) (w h : Z)
    (Frame : depthImage) : depthImage :=
  fold_left
    (fun img x =>
       fold_left
         (fun img' y => setSafePixel x y (get_distance depth_frm x y) img')
         (indices h) img)
    (indices w) Frame.

(** [bool getImage(depthImage& Frame, Stamp *timeStamp, const rs2::frameset &sourceFrame)] *)
Definition getImage_depth (Frame : depthImage) (timeStamp : Stamp)
    (sourceFrame : rs2_frameset) : M (bool * depthImage * Stamp) :=
  depth_frm <- vendor_pure call_depth_frame (get_depth_frame sourceFrame) ;;
  let format := depth_format depth_frm in
  let pixCode := pixFormatToCode format in
  let w := depth_width depth_frm in
  let h := depth_height depth_frm in
  if is_invalid_code pixCode then ret (false, Frame, timeStamp)
  else
    let Frame1 := write_distances depth_frm w h (depth_resize w h Frame) in
    modify (fun d => set_depth_stamp (stamp_update (world d) (m_depth_stamp d)) d) ;;
    stamp <- gets m_depth_stamp ;;
    ret (true, Frame1, stamp).

(** [bool getRgbImage(FlexImage& rgbImage, Stamp* timeStamp)] *)
Definition getRgbImage (rgbImage : FlexImage) (timeStamp : Stamp)
  : M (bool * FlexImage * Stamp) :=
  data <- vendor call_wait_for_frames rs2_wait_for_frames ;;
  getImage rgbImage timeStamp data.

(** [bool getDepthImage(ImageOf<PixelFloat>& depthImage, Stamp* timeStamp)] *)
Definition getDepthImage (depthImg : depthImage) (timeStamp : Stamp)
  : M (bool * depthImage * Stamp) :=
  data <- vendor call_wait_for_frames rs2_wait_for_frames ;;
  aligned_frames <- vendor call_align_process (rs2_align_process data) ;;
  getImage_depth depthImg timeStamp aligned_frames.

(** [bool getImages(FlexImage& colorFrame, ImageOf<PixelFloat>& depthFrame,
    Stamp* colorStamp, Stamp* depthStamp)]:
    both conversions run (the operator is [&]), here the colour one
    first. *)
Definition getImages (colorFrame : FlexImage) (depthFrame : depthImage)
    (colorStamp depthStamp : Stamp)
  : M (bool * (FlexImage * Stamp) * (depthImage * Stamp)) :=
  data <- vendor call_wait_for_frames rs2_wait_for_frames ;;
  aligned_frames <- vendor call_align_process (rs2_align_process data) ;;
  '(r1, colorFrame', colorStamp') <- getImage colorFrame colorStamp aligned_frames ;;
  '(r2, depthFrame', depthStamp') <- getImage_depth depthFrame depthStamp aligned_frames ;;
  ret (r1 && r2, (colorFrame', colorStamp'), (depthFrame', depthStamp')).

(** ** Camera features *)

(** [bool hasFeature(int feature, bool* hasFeature)]: [None] is [false]
    with the flag not written, [Some b] is [true] with the flag [b].
    [f] is the cast of [feature], which keeps its value. *)
Definition hasFeature (feature : Z) : option bool :=
  let f := feature in
  if (f <? feature_value YARP_FEATURE_BRIGHTNESS)
     || (f >? feature_value YARP_FEATURE_NUMBER_OF - 1)
  then None
  else if existsb (fun c => feature_value c =? f) m_supportedFeatures
  then Some true
  else Some false.

(** The guard every feature method starts with:
    [if (!hasFeature(feature, &b) || !b)]. *)
Definition feature_not_supported (feature : Z) : bool :=
  match hasFeature feature with
  | Some b => negb b
  | None => true
  end.

(** [bool setFeature(int feature, double value)] *)
Definition setFeature (feature : Z) (value : spec_float) : M bool :=
  if feature_not_supported feature then ret false
  else
    sensor <- gets m_color_sensor ;;
    match enumerator_of feature with
    | Some YARP_FEATURE_EXPOSURE =>
        setOption RS2_OPTION_EXPOSURE sensor (float_of_double value)
    | Some YARP_FEATURE_GAIN =>
        setOption RS2_OPTION_GAIN sensor (float_of_double value)
    | Some YARP_FEATURE_FRAME_RATE => ret false
    | Some YARP_FEATURE_WHITE_BALANCE =>
        setOption RS2_OPTION_WHITE_BALANCE sensor (float_of_double value)
    | Some YARP_FEATURE_SHARPNESS =>
        setOption RS2_OPTION_SHARPNESS sensor (float_of_double value)
    | Some YARP_FEATURE_HUE =>
        setOption RS2_OPTION_HUE sensor (float_of_double value)
    | Some YARP_FEATURE_SATURATION =>
        setOption RS2_OPTION_SATURATION sensor (float_of_double value)
    | _ => ret false
    end.

(** A [getOption] whose reference argument is [(float&) p] for a pointer
    parameter [p]: the value read lands in the parameter itself, never in
    what it points to, so only the result reaches the caller. *)
Definition getOption_discarded (opt : rs2_option) (sensor : option rs2_sensor)
  : M bool :=
  r <- getOption opt sensor ;;
  ret (match r with Some _ => true | None => false end).

(** [bool getFeature(int feature, double *value)] *)
Definition getFeature (feature : Z) : M bool :=
  if feature_not_supported feature then ret false
  else
    sensor <- gets m_color_sensor ;;
    match enumerator_of feature with
    | Some YARP_FEATURE_EXPOSURE =>
        getOption_discarded RS2_OPTION_EXPOSURE sensor
    | Some YARP_FEATURE_GAIN =>
        getOption_discarded RS2_OPTION_GAIN sensor
    | Some YARP_FEATURE_FRAME_RATE => ret false
    | Some YARP_FEATURE_WHITE_BALANCE =>
        getOption_discarded RS2_OPTION_WHITE_BALANCE sensor
    | Some YARP_FEATURE_SHARPNESS =>
        getOption_discarded RS2_OPTION_SHARPNESS sensor
    | Some YARP_FEATURE_HUE =>
        getOption_discarded RS2_OPTION_HUE sensor
    | Some YARP_FEATURE_SATURATION =>
        getOption_discarded RS2_OPTION_SATURATION sensor
    | _ => ret false
    end.

(** [bool hasOnOff(int feature, bool *HasOnOff)], encoded as [hasFeature] *)
Definition hasOnOff (feature : Z) : option bool :=
  if feature_not_supported feature then None
  else
    let f := feature in
    if (f =? feature_value YARP_FEATURE_WHITE_BALANCE)
       || (f =? feature_value YARP_FEATURE_MIRROR)
    then Some true
    else Some false.

(** [if (!hasOnOff(feature, &b) || !b)] *)
Definition no_OnOff (feature : Z) : bool :=
  match hasOnOff feature with
  | Some b => negb b
  | None => true
  end.

(** [bool setActive(int feature, bool onoff)] *)
Definition setActive (feature : Z) (onoff : bool) : M bool :=
  if feature_not_supported feature then ret false
  else if no_OnOff feature then ret false
  else
    sensor <- gets m_color_sensor ;;
    match enumerator_of feature with
    | Some YARP_FEATURE_WHITE_BALANCE =>
        setOption RS2_OPTION_ENABLE_AUTO_WHITE_BALANCE sensor
                  (float_of_bool onoff)
    | Some YARP_FEATURE_EXPOSURE =>
        setOption RS2_OPTION_ENABLE_AUTO_EXPOSURE sensor (float_of_bool onoff)
    | _ => ret false
    end.

(** [bool getActive(int feature, bool *isActive)] *)
Definition getActive (feature : Z) : M bool :=
  if feature_not_supported feature then ret false
  else if no_OnOff feature then ret false
  else
    sensor <- gets m_color_sensor ;;
    match enumerator_of feature with
    | Some YARP_FEATURE_WHITE_BALANCE =>
        getOption_discarded RS2_OPTION_ENABLE_AUTO_WHITE_BALANCE sensor
    | Some YARP_FEATURE_EXPOSURE =>
        getOption_discarded RS2_OPTION_ENABLE_AUTO_EXPOSURE sensor
    | _ => ret false
    end.

(** [bool hasAuto(int feature, bool *hasAuto)] *)
Definition hasAuto (feature : Z) : option bool :=
  if feature_not_supported feature then None
  else
    let f := feature in
    if (f =? feature_value YARP_FEATURE_EXPOSURE)
       || (f =? feature_value YARP_FEATURE_WHITE_BALANCE)
    then Some true
    else Some false.

(** [bool setMode(int feature, FeatureMode mode)] *)
Definition setMode (feature : Z) (mode : FeatureMode) : M bool :=
  if feature_not_supported feature then ret false
  else
    let one := float_one in
    let zero := float_zero in
    let f := feature in
    sensor <- gets m_color_sensor ;;
    if f =? feature_value YARP_FEATURE_WHITE_BALANCE then
      match mode with
      | MODE_AUTO => setOption RS2_OPTION_ENABLE_AUTO_WHITE_BALANCE sensor one
      | MODE_MANUAL => setOption RS2_OPTION_ENABLE_AUTO_WHITE_BALANCE sensor zero
      | MODE_UNKNOWN => ret false
      end
    else if f =? feature_value YARP_FEATURE_EXPOSURE then
      match mode with
      | MODE_AUTO => setOption RS2_OPTION_ENABLE_AUTO_EXPOSURE sensor one
      | MODE_MANUAL => setOption RS2_OPTION_ENABLE_AUTO_EXPOSURE sensor zero
      | MODE_UNKNOWN => ret false
      end
    else ret false.

(** The three-way test at the end of [getMode]. *)
Definition mode_of_readback (res : float32) : FeatureMode :=
  if SFeqb res float_zero then MODE_MANUAL
  else if SFeqb res float_one then MODE_AUTO
  else MODE_UNKNOWN.

(** [ret &= getOption(option, m_color_sensor, res)] on the pair
    [(res, ret)] *)
Definition read_into (opt : rs2_option) (sensor : option rs2_sensor)
    (res : float32) (ok : bool) : M (float32 * bool) :=
  r <- getOption opt sensor ;;
  match r with
  | Some v => ret (v, ok && true)
  | None => ret (res, ok && false)
  end.

(** [bool getMode(int feature, FeatureMode* mode)]: the result and, when
    the guard is passed, the mode written. *)
Definition getMode (feature : Z) : M (bool * option FeatureMode) :=
  if feature_not_supported feature then ret (false, None)
  else
    let res := float_zero in
    let ok := true in
    let f := feature in
    sensor <- gets m_color_sensor ;;
    '(res, ok) <-
      (if f =? feature_value YARP_FEATURE_WHITE_BALANCE
       then read_into RS2_OPTION_ENABLE_AUTO_WHITE_BALANCE sensor res ok
       else ret (res, ok)) ;;
    '(res, ok) <-
      (if f =? feature_value YARP_FEATURE_EXPOSURE
       then read_into RS2_OPTION_ENABLE_AUTO_EXPOSURE sensor res ok
       else ret (res, ok)) ;;
    ret (ok, Some (mode_of_readback res)).

End Methods.

(** ** What the vendor library is expected to do

    Two contracts of librealsense2 that some properties of the driver rest
    on.  They are hypotheses of the theorems that need them, and the
    simulated library below satisfies both. *)

(** A pipeline started on a configuration whose last two requests were a
    colour stream of [cw] x [ch] and a depth stream of [dw] x [dh] reports
    these sizes in the intrinsics of its active profile. *)
Definition honours_requests (P : Platform) : Prop :=
  forall cfg cw ch dw dh wld wld1 wld2 prof,
    rs2_pipeline_start
      (rs2_enable_stream RS2_STREAM_DEPTH dw dh RS2_FORMAT_Z16 0
         (rs2_enable_stream RS2_STREAM_COLOR cw ch RS2_FORMAT_RGB8 0 cfg))
      wld = (Returned tt, wld1) ->
    rs2_get_active_profile wld1 = (Returned prof, wld2) ->
    (forall sp i,
        rs2_get_stream prof RS2_STREAM_DEPTH = Returned sp ->
        rs2_get_intrinsics sp = Returned i ->
        width i = dw /\ height i = dh) /\
    (forall sp i,
        rs2_get_stream prof RS2_STREAM_COLOR = Returned sp ->
        rs2_get_intrinsics sp = Returned i ->
        width i = cw /\ height i = ch).

(** The same for one request only: a camera may honour some sizes and
    not others (the vendor library reads a width or height of 0 as "any"). *)
Definition honours_request (P : Platform) (cw ch dw dh : Z) : Prop :=
  forall cfg wld wld1 wld2 prof,
    rs2_pipeline_start
      (rs2_enable_stream RS2_STREAM_DEPTH dw dh RS2_FORMAT_Z16 0
         (rs2_enable_stream RS2_STREAM_COLOR cw ch RS2_FORMAT_RGB8 0 cfg))
      wld = (Returned tt, wld1) ->
    rs2_get_active_profile wld1 = (Returned prof, wld2) ->
    (forall sp i,
        rs2_get_stream prof RS2_STREAM_DEPTH = Returned sp ->
        rs2_get_intrinsics sp = Returned i ->
        width i = dw /\ height i = dh) /\
    (forall sp i,
        rs2_get_stream prof RS2_STREAM_COLOR = Returned sp ->
        rs2_get_intrinsics sp = Returned i ->
        width i = cw /\ height i = ch).

(** After [set_option] has returned, the sensor supports the option and
    [get_option] returns the value that was set. *)
Definition reads_back (P : Platform) : Prop :=
  forall s o v wld wld1,
    rs2_set_option s o v wld = (Returned tt, wld1) ->
    exists wld2 wld3,
      rs2_supports s o wld1 = (Returned true, wld2) /\
      rs2_get_option s o wld2 = (Returned v, wld3).

(** ** A simulated camera

    A small implementation of [Platform] on which the driver can be run:
    one device with a depth and a colour sensor, a pipeline that serves
    the same frameset at every wait and reports the requested sizes, an
    option store, and switches that make a vendor call raise. *)
Module Mock.

Inductive sensor : Type := Stereo_Module | RGB_Camera.

Definition sensor_eqb (a b : sensor) : bool :=
  match a, b with
  | Stereo_Module, Stereo_Module => true
  | RGB_Camera, RGB_Camera => true
  | _, _ => false
  end.

Definition option_index (o : rs2_option) : Z :=
  match o with
  | RS2_OPTION_ACCURACY => 0
  | RS2_OPTION_MIN_DISTANCE => 1
  | RS2_OPTION_MAX_DISTANCE => 2
  | RS2_OPTION_EXPOSURE => 3
  | RS2_OPTION_GAIN => 4
  | RS2_OPTION_WHITE_BALANCE => 5
  | RS2_OPTION_SHARPNESS => 6
  | RS2_OPTION_HUE => 7
  | RS2_OPTION_SATURATION => 8
  | RS2_OPTION_ENABLE_AUTO_WHITE_BALANCE => 9
  | RS2_OPTION_ENABLE_AUTO_EXPOSURE => 10
  end.

(** A stream request of a configuration. *)
Definition request : Type := (rs2_stream * (Z * Z))%type.

Definition is_stream (s : rs2_stream) (r : request) : bool :=
  match s, fst r with
  | RS2_STREAM_DEPTH, RS2_STREAM_DEPTH => true
  | RS2_STREAM_COLOR, RS2_STREAM_COLOR => true
  | _, _ => false
  end.

(** The configuration: its requests, the latest first. *)
Definition config : Type := list request.

Record camera : Type := {
  frames : rs2_frameset;        (* what every wait_for_frames returns *)
  no_frames : bool;             (* wait_for_frames raises *)
  start_fails : bool;           (* pipeline start raises *)
  stop_fails : bool;            (* pipeline stop raises *)
  sensor_fails : bool;          (* set_option and get_option raise *)
  active : config;              (* the configuration the pipeline runs *)
  options : list (sensor * Z * float32);  (* the option store, latest first *)
  clock : Z
}.

Definition error (msg : string) : rs2_error := {| what := msg |}.

Definition set_active (c : config) (w : camera) : camera :=
  {| frames := frames w; no_frames := no_frames w;
     start_fails := start_fails w; stop_fails := stop_fails w;
     sensor_fails := sensor_fails w; active := c; options := options w;
     clock := clock w |}.

Definition set_options (l : list (sensor * Z * float32)) (w : camera) : camera :=
  {| frames := frames w; no_frames := no_frames w;
     start_fails := start_fails w; stop_fails := stop_fails w;
     sensor_fails := sensor_fails w; active := active w; options := l;
     clock := clock w |}.

Definition is_entry (s : sensor) (o : rs2_option) (e : sensor * Z * float32) : bool :=
  sensor_eqb s (fst (fst e)) && (option_index o =? snd (fst e)).

Definition stored (s : sensor) (o : rs2_option) (w : camera) : float32 :=
  match find (is_entry s o) (options w) with
  | Some e => snd e
  | None => float_zero
  end.

Definition intrinsics_of (c : config) (s : rs2_stream) : rs2_intrinsics :=
  let size := match find (is_stream s) c with
              | Some r => snd r
              | None => (0, 0)
              end in
  {| width := fst size; height := snd size;
     ppx := float_zero; ppy := float_zero; fx := float_one; fy := float_one;
     model := 0; coeffs := [] |}.

Definition no_extrinsics : rs2_extrinsics :=
  {| rotation := []; translation := [] |}.

(** The flexible image: pixel code, size and raw bytes, rows unpadded. *)
Record image : Type := {
  pixelCode : YarpVocabPixelTypesEnum;
  columns : Z;
  rows : Z;
  raw : list Byte.byte
}.

Definition pixelSize (c : YarpVocabPixelTypesEnum) : Z :=
  match c with
  | VOCAB_PIXEL_INVALID => 0
  | VOCAB_PIXEL_MONO => 1
  | VOCAB_PIXEL_MONO16 => 2
  | VOCAB_PIXEL_RGB | VOCAB_PIXEL_BGR => 3
  | VOCAB_PIXEL_RGBA | VOCAB_PIXEL_BGRA => 4
  end.

Definition image_setPixelCode (c : YarpVocabPixelTypesEnum) (i : image) : image :=
  {| pixelCode := c; columns := columns i; rows := rows i; raw := raw i |}.

Definition image_resize (w h : Z) (i : image) : image :=
  {| pixelCode := pixelCode i; columns := w; rows := h;
     raw := repeat Byte.x00 (Z.to_nat (w * h * pixelSize (pixelCode i))) |}.

Definition image_getRawImageSize (i : image) : Z :=
  columns i * rows i * pixelSize (pixelCode i).

Definition image_write (bytes : list Byte.byte) (i : image) : image :=
  {| pixelCode := pixelCode i; columns := columns i; rows := rows i;
     raw := (bytes ++ skipn (List.length bytes) (raw i))%list |}.

(** The depth image: its size and the pixels written, the latest first. *)
Record depth_image : Type := {
  depth_columns : Z;
  depth_rows : Z;
  written : list (Z * Z * float32)
}.

#[export] Instance platform : Platform := {|
  World := camera;
  rs2_config := config;
  rs2_device := unit;
  rs2_sensor := sensor;
  rs2_pipeline_profile := config;
  rs2_video_stream_profile := rs2_intrinsics;
  rs2_enable_stream := fun s w h _ _ c => (s, (w, h)) :: c;
  rs2_pipeline_start := fun c w =>
    if start_fails w then (Raised (error "start"), w)
    else (Returned tt, set_active c w);
  rs2_pipeline_stop := fun w =>
    if stop_fails w then (Raised (error "stop"), w) else (Returned tt, w);
  rs2_wait_for_frames := fun w =>
    if no_frames w then (Raised (error "no frame"), w)
    else (Returned (frames w), w);
  rs2_get_active_profile := fun w => (Returned (active w), w);
  rs2_get_stream := fun c s => Returned (intrinsics_of c s);
  rs2_get_intrinsics := fun i => Returned i;
  rs2_get_extrinsics_to := fun _ _ => Returned no_extrinsics;
  rs2_align_process := fun f w => (Returned f, w);
  rs2_query_devices := fun w => (Returned [tt], w);
  rs2_wait_for_device := fun w => (Returned tt, w);
  rs2_query_sensors := fun _ w => (Returned [Stereo_Module; RGB_Camera], w);
  rs2_is_depth_sensor := fun s w => (Returned (sensor_eqb s Stereo_Module), w);
  rs2_supports := fun _ _ w => (Returned true, w);
  rs2_set_option := fun s o v w =>
    if sensor_fails w then (Raised (error "set_option"), w)
    else (Returned tt, set_options ((s, option_index o, v) :: options w) w);
  rs2_get_option := fun s o w =>
    if sensor_fails w then (Raised (error "get_option"), w)
    else (Returned (stored s o w), w);
  rs2_device_information := fun _ w => (Returned tt, w);
  rs2_print_options := fun _ w => (Returned tt, w);
  FlexImage := image;
  setPixelCode := image_setPixelCode;
  resize := image_resize;
  getRawImageSize := image_getRawImageSize;
  writeRawImage := image_write;
  depthImage := depth_image;
  depth_resize := fun w h _ =>
    {| depth_columns := w; depth_rows := h; written := [] |};
  setSafePixel := fun x y v i =>
    {| depth_columns := depth_columns i; depth_rows := depth_rows i;
       written := (x, y, v) :: written i |};
  Stamp := (Z * Z)%type;
  stamp_update := fun w t => (fst t + 1, clock w)
|}.

(** A 2 x 2 RGB8 colour frame and a 2 x 1 Z16 depth frame. *)
Definition small_depth : rs2_depth_frame :=
  {| depth_format := RS2_FORMAT_Z16; depth_width := 2; depth_height := 1;
     get_distance := fun _ _ => float_one |}.

Definition small_frames : rs2_frameset :=
  {| get_color_frame :=
       Returned
         {| frame_format := RS2_FORMAT_RGB8; frame_width := 2;
            frame_height := 2; frame_data := repeat Byte.x2a 12 |};
     get_depth_frame := Returned small_depth |}.





(** A frameset whose colour frame is missing. *)
Definition depth_only_frames : rs2_frameset :=
  {| get_color_frame := Raised {| what := "null frame" |};
     get_depth_frame := Returned small_depth |}.

Definition healthy : camera :=
  {| frames := small_frames; no_frames := false; start_fails := false;
     stop_fails := false; sensor_fails := false;
     active := [(RS2_STREAM_DEPTH, (4, 4)); (RS2_STREAM_COLOR, (4, 4))];
     options := []; clock := 100 |}.

Definition unplugged : camera :=
  {| frames := small_frames; no_frames := true; start_fails := false;
     stop_fails := true; sensor_fails := true;
     active := [(RS2_STREAM_DEPTH, (4, 4)); (RS2_STREAM_COLOR, (4, 4))];
     options := []; clock := 100 |}.



(** The driver after a successful [open] on the given camera: both
    sensors found, both streams at 4 x 4. *)
Definition opened (w : camera) : realsense2Driver :=
  {| world := w; sdk_trace := []; m_cfg := active w;
     m_device := Some tt; m_sensors := [Stereo_Module; RGB_Camera];
     m_depth_sensor := Some Stereo_Module; m_color_sensor := Some RGB_Camera;
     m_depth_intrin := intrinsics_of (active w) RS2_STREAM_DEPTH;
     m_color_intrin := intrinsics_of (active w) RS2_STREAM_COLOR;
     m_depth_to_color := no_extrinsics; m_color_to_depth := no_extrinsics;
     m_rgb_stamp := (0, 0); m_depth_stamp := (0, 0);
     m_verbose := false; rgbRes := (4, 4); depthRes := (4, 4) |}.

(** The caller's images before a capture. *)
Definition blank : @FlexImage platform :=
  {| pixelCode := VOCAB_PIXEL_INVALID; columns := 0; rows := 0; raw := [] |}.

Definition blank_depth : @depthImage platform :=
  {| depth_columns := 0; depth_rows := 0; written := [] |}.

End Mock.

(** ** A simulated camera with a native resolution

    The camera of [Mock], except that its pipeline takes a requested width
    or height of 0 as "any" and then streams at its native 640 x 480. *)
Module Wildcard.

Definition intrinsics_of (c : Mock.config) (s : rs2_stream) : rs2_intrinsics :=
  let i := Mock.intrinsics_of c s in
  {| width := if width i =? 0 then 640 else width i;
     height := if height i =? 0 then 480 else height i;
     ppx := ppx i; ppy := ppy i; fx := fx i; fy := fy i;
     model := model i; coeffs := coeffs i |}.

Definition platform : Platform := {|
  World := Mock.camera;
  rs2_config := Mock.config;
  rs2_device := unit;
  rs2_sensor := Mock.sensor;
  rs2_pipeline_profile := Mock.config;
  rs2_video_stream_profile := rs2_intrinsics;
  rs2_enable_stream := @rs2_enable_stream Mock.platform;
  rs2_pipeline_start := @rs2_pipeline_start Mock.platform;
  rs2_pipeline_stop := @rs2_pipeline_stop Mock.platform;
  rs2_wait_for_frames := @rs2_wait_for_frames Mock.platform;
  rs2_get_active_profile := @rs2_get_active_profile Mock.platform;
  rs2_get_stream := fun c s => Returned (intrinsics_of c s);
  rs2_get_intrinsics := @rs2_get_intrinsics Mock.platform;
  rs2_get_extrinsics_to := @rs2_get_extrinsics_to Mock.platform;
  rs2_align_process := @rs2_align_process Mock.platform;
  rs2_query_devices := @rs2_query_devices Mock.platform;
  rs2_wait_for_device := @rs2_wait_for_device Mock.platform;
  rs2_query_sensors := @rs2_query_sensors Mock.platform;
  rs2_is_depth_sensor := @rs2_is_depth_sensor Mock.platform;
  rs2_supports := @rs2_supports Mock.platform;
  rs2_set_option := @rs2_set_option Mock.platform;
  rs2_get_option := @rs2_get_option Mock.platform;
  rs2_device_information := @rs2_device_information Mock.platform;
  rs2_print_options := @rs2_print_options Mock.platform;
  FlexImage := Mock.image;
  setPixelCode := Mock.image_setPixelCode;
  resize := Mock.image_resize;
  getRawImageSize := Mock.image_getRawImageSize;
  writeRawImage := Mock.image_write;
  depthImage := Mock.depth_image;
  depth_resize := @depth_resize Mock.platform;
  setSafePixel := @setSafePixel Mock.platform;
  Stamp := (Z * Z)%type;
  stamp_update := @stamp_update Mock.platform
|}.

(** The driver opened on this camera, both streams at 4 x 4. *)
Definition opened : @realsense2Driver platform :=
  {| world := (Mock.healthy : @World platform); sdk_trace := [];
     m_cfg := (Mock.active Mock.healthy : @rs2_config platform);
     m_device := Some tt;
     m_sensors := [Mock.Stereo_Module; Mock.RGB_Camera];
     m_depth_sensor := Some Mock.Stereo_Module;
     m_color_sensor := Some Mock.RGB_Camera;
     m_depth_intrin := intrinsics_of (Mock.active Mock.healthy) RS2_STREAM_DEPTH;
     m_color_intrin := intrinsics_of (Mock.active Mock.healthy) RS2_STREAM_COLOR;
     m_depth_to_color := Mock.no_extrinsics;
     m_color_to_depth := Mock.no_extrinsics;
     m_rgb_stamp := (0, 0); m_depth_stamp := (0, 0);
     m_verbose := false; rgbRes := (4, 4); depthRes := (4, 4) |}.

End Wildcard.

(** ** Notions the properties are stated with *)

Section Notions.

Context {P : Platform}.

(** The method leaves an observation of the driver as it was. *)
Definition keeps {V A : Type} (view : realsense2Driver -> V) (m : M A) : Prop :=
  forall d, view (snd (m d)) = view d.

(** The method returns: no vendor error leaves it. *)
Definition never_raises {A : Type} (m : M A) : Prop :=
  forall d, exists a d', m d = (Returned a, d').

Definition is_enable_stream (c : sdk_call) : bool :=
  match c with
  | call_enable_stream _ _ _ _ _ => true
  | _ => false
  end.

(** The stream configuration and the [enable_stream] calls made so far,
    the latest first. *)
Definition requests (d : realsense2Driver) : rs2_config * list sdk_call :=
  (m_cfg d, filter is_enable_stream (sdk_trace d)).

(** The tail the two resolution setters have in common: stop, start,
    refresh the transformations. *)
Definition restart : M bool :=
  stopped <- pipelineShutdown ;;
  if negb stopped then ret false
  else
    started <- pipelineStartup ;;
    if negb started then ret false
    else
      updateTransformations ;;
      ret true.

(** The driver after the two [enable_stream] calls of a resolution
    setter. *)
Definition both_enabled (cw ch dw dh : Z) (d : realsense2Driver)
  : realsense2Driver :=
  set_cfg
    (rs2_enable_stream RS2_STREAM_DEPTH dw dh RS2_FORMAT_Z16 0
       (rs2_enable_stream RS2_STREAM_COLOR cw ch RS2_FORMAT_RGB8 0 (m_cfg d)))
    (log_call (call_enable_stream RS2_STREAM_DEPTH dw dh RS2_FORMAT_Z16 0)
       (set_cfg
          (rs2_enable_stream RS2_STREAM_COLOR cw ch RS2_FORMAT_RGB8 0 (m_cfg d))
          (log_call
             (call_enable_stream RS2_STREAM_COLOR cw ch RS2_FORMAT_RGB8 0) d))).

(** C1 as the specification words it, for one capture: when the size of
    the destination differs from that of the frame, [getRgbImage] returns
    [false] and the destination is the image the caller passed. *)
Definition mismatch_leaves_destination (rgbImage : FlexImage)
    (timeStamp : Stamp) (d : realsense2Driver) : Prop :=
  forall data w color_frm,
    rs2_wait_for_frames (world d) = (Returned data, w) ->
    get_color_frame data = Returned color_frm ->
    wrap_size_t
      (getRawImageSize
         (resize (width (m_color_intrin d)) (height (m_color_intrin d))
            (setPixelCode (pixFormatToCode (frame_format color_frm))
               rgbImage)))
    <> frame_bytes (frame_width color_frm) (frame_height color_frm)
         (frame_format color_frm) ->
    exists stamp, fst (getRgbImage rgbImage timeStamp d)
                  = Returned (false, rgbImage, stamp).

(** C6 as the specification words it, for one call: a
    [setDepthResolution w h] that returns [true] leaves the depth getters
    at [w] and [h] and the colour resolution as it was. *)
Definition resolution_is_the_one_asked (w h : Z) (d : realsense2Driver)
  : Prop :=
  forall d',
    setDepthResolution w h d = (Returned true, d') ->
    fst (getDepthWidth d') = Returned w /\
    fst (getDepthHeight d') = Returned h /\
    fst (getRgbResolution d') = fst (getRgbResolution d).


(** The driver once a capture has its frames: after the frame wait, and
    after the alignment. *)
Definition waited (w : World) (d : realsense2Driver) : realsense2Driver :=
  set_world w (log_call call_wait_for_frames d).

Definition aligned_in (w w' : World) (d : realsense2Driver)
  : realsense2Driver :=
  set_world w' (log_call call_align_process (waited w d)).

End Notions.

(** ** The other accessors of the driver *)

Section Accessors.

Context {P : Platform}.

(** [bool setDepthAccuracy(double accuracy)] *)
Definition setDepthAccuracy (accuracy : spec_float) : M bool :=
  sensor <- gets m_depth_sensor ;;
  setOption RS2_OPTION_ACCURACY sensor (float_of_double accuracy).

(** [double getDepthAccuracy()]: the [float] read, widened, or [0.0]. *)
Definition getDepthAccuracy : M spec_float :=
  let accuracy := float_zero in
  sensor <- gets m_depth_sensor ;;
  r <- getOption RS2_OPTION_ACCURACY sensor ;;
  match r with
  | Some accuracy => ret accuracy
  | None => ret float_zero
  end.

(** [bool setDepthClipPlanes(double nearPlane, double farPlane)]: the
    second write follows the first whatever its result ([ret &= ...]). *)
Definition setDepthClipPlanes (nearPlane farPlane : spec_float) : M bool :=
  sensor <- gets m_depth_sensor ;;
  r <- setOption RS2_OPTION_MIN_DISTANCE sensor (float_of_double nearPlane) ;;
  sensor <- gets m_depth_sensor ;;
  r' <- setOption RS2_OPTION_MAX_DISTANCE sensor (float_of_double farPlane) ;;
  ret (r && r').

(** [bool hasManual(int feature, bool* hasManual)], encoded as
    [hasFeature] *)
Definition hasManual (feature : Z) : option bool :=
  if feature_not_supported feature then None
  else
    let f := feature in
    if (f =? feature_value YARP_FEATURE_EXPOSURE)
       || (f =? feature_value YARP_FEATURE_FRAME_RATE)
       || (f =? feature_value YARP_FEATURE_GAIN)
       || (f =? feature_value YARP_FEATURE_HUE)
       || (f =? feature_value YARP_FEATURE_SATURATION)
       || (f =? feature_value YARP_FEATURE_SHARPNESS)
    then Some true
    else Some false.

(** [bool hasOnePush(int feature, bool* hasOnePush)] *)
Definition hasOnePush (feature : Z) : option bool :=
  if feature_not_supported feature then None
  else hasAuto feature.

(** [if (!hasOnePush(feature, &b) || !b)] *)
Definition no_OnePush (feature : Z) : bool :=
  match hasOnePush feature with
  | Some b => negb b
  | None => true
  end.

(** [bool setOnePush(int feature)]: the results of the two [setMode] are
    dropped. *)
Definition setOnePush (feature : Z) : M bool :=
  if feature_not_supported feature then ret false
  else if no_OnePush feature then ret false
  else
    setMode feature MODE_AUTO ;;
    setMode feature MODE_MANUAL ;;
    ret true.

(** The loop of [initializeRealsenseDevice] that sorts the sensors of the
    device into [m_depth_sensor] and [m_color_sensor]. *)
Definition classify_sensors (sensors : list rs2_sensor) : M unit :=
  forM sensors
    (fun s =>
       is_depth <- vendor (call_is_depth_sensor s) (rs2_is_depth_sensor s) ;;
       if is_depth then modify (set_depth_sensor s)
       else modify (set_color_sensor s)).

(** The pairs [(x, y)] in the order the depth conversion visits them. *)
Definition visited (w h : Z) : list (Z * Z) :=
  list_prod (indices w) (indices h).

End Accessors.

(** ** Applying the parameters of the configuration

    [setParams] reads [m_params_map], whose entries hold YARP values.  The
    four queries of [yarp::os::Value] it uses are parameters here. *)
Section Params.

Context {P : Platform}.

Variable Value : Type.
Variable isDouble : Value -> bool.
Variable asDouble : Value -> spec_float.
Variable isInt : Value -> bool.
Variable asInt : Value -> Z.

(** [RGBDSensorParamParser::RGBDParam]: the flag and the vector of values
    [setParams] reads; [val i] is [val[i]]. *)
Record RGBDParam : Type := {
  isSetting : bool;
  val : nat -> Value
}.

(** [m_params_map], by key. *)
Record params_map : Type := {
  param_accuracy : RGBDParam;
  param_clipPlanes : RGBDParam;
  param_depthRes : RGBDParam;
  param_rgbRes : RGBDParam
}.

(** [if (!ok) settingErrorMsg(..., ret)] on the flag [ret] *)
Definition check (ok : bool) (r : bool) : bool :=
  if negb ok then false else r.

(** [bool setParams()] *)
Definition setParams (m_params_map : params_map) : M bool :=
  let r := true in
  r <- (if isSetting (param_accuracy m_params_map) && r then
          let v := val (param_accuracy m_params_map) in
          let r := check (isDouble (v 0%nat)) r in
          ok <- setDepthAccuracy (asDouble (v 0%nat)) ;;
          ret (check ok r)
        else ret r) ;;
  r <- (if isSetting (param_clipPlanes m_params_map) && r then
          let v := val (param_clipPlanes m_params_map) in
          let r := check (isDouble (v 0%nat)) r in
          let r := check (isDouble (v 1%nat)) r in
          ok <- setDepthClipPlanes (asDouble (v 0%nat)) (asDouble (v 1%nat)) ;;
          ret (check ok r)
        else ret r) ;;
  r <- (if isSetting (param_depthRes m_params_map) && r then
          let p1 := val (param_depthRes m_params_map) 0%nat in
          let p2 := val (param_depthRes m_params_map) 1%nat in
          let r := check (isInt p1 && isInt p2) r in
          ok <- setDepthResolution (asInt p1) (asInt p2) ;;
          ret (check ok r)
        else ret r) ;;
  r <- (if isSetting (param_rgbRes m_params_map) && r then
          let p1 := val (param_rgbRes m_params_map) 0%nat in
          let p2 := val (param_rgbRes m_params_map) 1%nat in
          let r := check (isInt p1 && isInt p2) r in
          ok <- setRgbResolution (asInt p1) (asInt p2) ;;
          ret (check ok r)
        else ret r) ;;
  ret r.

End Params.

Arguments isSetting {Value} r.
Arguments val {Value} r i.
Arguments param_accuracy {Value} p.
Arguments param_clipPlanes {Value} p.
Arguments param_depthRes {Value} p.
Arguments param_rgbRes {Value} p.
Arguments setParams {P Value} isDouble asDouble isInt asInt m_params_map d.

(** ** Further notions *)

Section MoreNotions.

Context {P : Platform}.

(** Whenever the method returns, it returns [a]. *)
Definition only_returns {A : Type} (a : A) (m : M A) : Prop :=
  forall d r d', m d = (Returned r, d') -> r = a.

(** The capability query of every sensor returns. *)
Definition supports_returns : Prop :=
  forall s o w, exists b w', rs2_supports s o w = (Returned b, w').

(** The members that describe how the camera is set up: everything but
    the world, the trace and the two stamps. *)
Definition setup (d : realsense2Driver) :=
  (m_cfg d, m_device d, m_sensors d, m_depth_sensor d, m_color_sensor d,
   (m_depth_intrin d, m_color_intrin d, m_depth_to_color d, m_color_to_depth d),
   (m_verbose d, rgbRes d, depthRes d)).

(** The observation does not look at the world or at the trace. *)
Definition blind {V : Type} (view : realsense2Driver -> V) : Prop :=
  (forall c d, view (log_call c d) = view d) /\
  (forall w d, view (set_world w d) = view d).

(** Everything of the driver a feature call could disturb: the setup and
    the two stamps. *)
Definition setup_and_stamps (d : realsense2Driver) :=
  (setup d, m_rgb_stamp d, m_depth_stamp d).

(** Whenever the method returns from [d], the result and the driver it
    leaves satisfy [post]. *)
Definition ensures {A : Type} (m : M A) (d : realsense2Driver)
    (post : A -> realsense2Driver -> Prop) : Prop :=
  forall a d', m d = (Returned a, d') -> post a d'.

(** The two sensor pointers. *)
Definition pointers (d : realsense2Driver) :=
  (m_depth_sensor d, m_color_sensor d).

(** The driver as [initializeRealsenseDevice] finds the pipeline: both
    streams enabled with the sizes of the parameters. *)
Definition configured (d : realsense2Driver) : realsense2Driver :=
  both_enabled (fst (rgbRes d)) (snd (rgbRes d))
               (fst (depthRes d)) (snd (depthRes d)) d.

(** The sensor a list of sensors leaves in a pointer that takes every
    sensor of the wanted kind in turn, [p] being there before. *)
Definition last_of_kind (wanted : rs2_sensor -> bool)
    (sensors : list rs2_sensor) (p : option rs2_sensor) : option rs2_sensor :=
  fold_left (fun acc s => if wanted s then Some s else acc) sensors p.

End MoreNotions.

(** ** Values for the parameters of a simulated run

    A stand-in for [yarp::os::Value]: what the four queries answer. *)
Module Bench.

Record value : Type := {
  is_double : bool;
  as_double : spec_float;
  is_int : bool;
  as_int : Z
}.

(** The integer [n], as YARP would hold it. *)
Definition int (n : Z) : value :=
  {| is_double := false; as_double := float_zero; is_int := true;
     as_int := n |}.

(** The double [1.0]. *)
Definition one : value :=
  {| is_double := true; as_double := float_one; is_int := false;
     as_int := 1 |}.

Definition unset : RGBDParam value :=
  {| isSetting := false; val := fun _ => int 0 |}.

(** A configuration that asks for a depth stream of 8 x 6 and nothing
    else. *)
Definition depth_only : params_map value :=
  {| param_accuracy := unset; param_clipPlanes := unset;
     param_depthRes :=
       {| isSetting := true;
          val := fun i => match i with O => int 8 | _ => int 6 end |};
     param_rgbRes := unset |}.

(** A configuration whose accuracy is an integer instead of a double and
    that also asks for a depth stream. *)
Definition wrong_accuracy : params_map value :=
  {| param_accuracy := {| isSetting := true; val := fun _ => int 3 |};
     param_clipPlanes := unset;
     param_depthRes :=
       {| isSetting := true;
          val := fun i => match i with O => int 8 | _ => int 6 end |};
     param_rgbRes := unset |}.

(** The driver as the constructor leaves it, on the given camera: both
    sensor pointers null, nothing configured. *)
Definition unopened (w : Mock.camera) : @realsense2Driver Mock.platform :=
  {| world := (w : @World Mock.platform); sdk_trace := [];
     m_cfg := ([] : @rs2_config Mock.platform);
     m_device := None; m_sensors := [];
     m_depth_sensor := None; m_color_sensor := None;
     m_depth_intrin := Mock.intrinsics_of [] RS2_STREAM_DEPTH;
     m_color_intrin := Mock.intrinsics_of [] RS2_STREAM_COLOR;
     m_depth_to_color := Mock.no_extrinsics;
     m_color_to_depth := Mock.no_extrinsics;
     m_rgb_stamp := (0, 0); m_depth_stamp := (0, 0);
     m_verbose := false; rgbRes := (4, 4); depthRes := (4, 4) |}.

(** A camera whose pipeline does not start. *)
Definition jammed : Mock.camera :=
  {| Mock.frames := Mock.small_frames; Mock.no_frames := false;
     Mock.start_fails := true; Mock.stop_fails := false;
     Mock.sensor_fails := false; Mock.active := []; Mock.options := [];
     Mock.clock := 100 |}.

End Bench.

(** * Properties *)

(** ** Feature identifiers *)

(** The identifiers of the seven features the constructor registers. *)
Lemma supported_ids (f : Z) :
  existsb (fun c => feature_value c =? f) m_supportedFeatures = true <->
  In f (map feature_value m_supportedFeatures).
Proof.
  rewrite existsb_exists, in_map_iff.
  split; intros [c [H1 H2]]; exists c.
  - apply Z.eqb_eq in H2. auto.
  - rewrite H1, Z.eqb_refl. auto.
Qed.

Lemma supported_in_range (f : Z) :
  In f (map feature_value m_supportedFeatures) -> 0 <= f <= 22.
Proof.
  simpl. intros H. repeat destruct H as [H | H]; lia.
Qed.

Lemma hasFeature_true (f : Z) :
  hasFeature f = Some true <-> In f (map feature_value m_supportedFeatures).
Proof.
  unfold hasFeature. rewrite Z.gtb_ltb. split.
  - destruct ((f <? feature_value YARP_FEATURE_BRIGHTNESS)
               || (feature_value YARP_FEATURE_NUMBER_OF - 1 <? f));
      [discriminate |].
    destruct (existsb (fun c => feature_value c =? f) m_supportedFeatures)
      eqn:E; [| discriminate].
    intros _. now apply supported_ids.
  - intros H. pose proof (supported_in_range f H) as R.
    apply supported_ids in H. rewrite H.
    destruct (Z.ltb_spec f (feature_value YARP_FEATURE_BRIGHTNESS)) as [L | _];
      [simpl in L; lia |].
    destruct (Z.ltb_spec (feature_value YARP_FEATURE_NUMBER_OF - 1) f) as [L | _];
      [simpl in L; lia |].
    reflexivity.
Qed.

Lemma feature_not_supported_false (f : Z) :
  feature_not_supported f = false <->
  In f (map feature_value m_supportedFeatures).
Proof.
  rewrite <- hasFeature_true. unfold feature_not_supported.
  destruct (hasFeature f) as [[|]|]; simpl; split; congruence.
Qed.

Lemma feature_not_supported_true (f : Z) :
  ~ In f (map feature_value m_supportedFeatures) ->
  feature_not_supported f = true.
Proof.
  intros H. destruct (feature_not_supported f) eqn:E; auto.
  apply feature_not_supported_false in E. contradiction.
Qed.

Lemma enumerator_of_value (c : cameraFeature_id_t) :
  enumerator_of (feature_value c) = Some c.
Proof. destruct c; reflexivity. Qed.

Section Properties.

Context {P : Platform}.

(** ** Pixel formats and unknown formats *)


(** ** Shutdown *)

(** C8.  [close] returns [true] from every state of the driver and of the
    camera; in particular when the pipeline's [stop] raises, in which case
    [pipelineShutdown] has returned [false]. *)
Theorem close_always_succeeds (d : realsense2Driver) :
  fst (close d) = Returned true /\
  (forall e w,
      rs2_pipeline_stop (world d) = (Raised e, w) ->
      fst (pipelineShutdown d) = Returned false).
Proof.
  unfold close, pipelineShutdown, bind, try_catch, vendor, ret.
  destruct (rs2_pipeline_stop (world d)) as [[[] | e] w]; simpl.
  - split; [reflexivity | discriminate].
  - split; reflexivity.
Qed.

(** ** The feature table *)

(** C4.  [hasFeature] answers "present" exactly for the seven registered
    features, fails outside the range of the enumeration and answers
    "absent" for the other identifiers of the range; [setFeature] and
    [getFeature] on an identifier outside the seven return [false] and
    leave the driver, the camera and the trace of vendor calls as they
    were. *)
Theorem hasFeature_exactly_supported (feature : Z) :
  let seven :=
    map feature_value
      [ YARP_FEATURE_EXPOSURE; YARP_FEATURE_GAIN; YARP_FEATURE_FRAME_RATE;
        YARP_FEATURE_WHITE_BALANCE; YARP_FEATURE_SHARPNESS; YARP_FEATURE_HUE;
        YARP_FEATURE_SATURATION ] in
  (hasFeature feature = Some true <-> In feature seven) /\
  (feature < feature_value YARP_FEATURE_BRIGHTNESS \/
   feature > feature_value YARP_FEATURE_NUMBER_OF - 1 ->
   hasFeature feature = None) /\
  (feature_value YARP_FEATURE_BRIGHTNESS <= feature
     <= feature_value YARP_FEATURE_NUMBER_OF - 1 ->
   ~ In feature seven -> hasFeature feature = Some false) /\
  (~ In feature seven ->
   forall value d,
     setFeature feature value d = (Returned false, d) /\
     getFeature feature d = (Returned false, d)).
Proof.
  intros seven.
  assert (Hseven : In feature seven <->
                   In feature (map feature_value m_supportedFeatures)).
  { subst seven. simpl. tauto. }
  split; [| split; [| split]].
  - rewrite Hseven. apply hasFeature_true.
  - intros H. unfold hasFeature. rewrite Z.gtb_ltb.
    destruct (Z.ltb_spec feature (feature_value YARP_FEATURE_BRIGHTNESS));
      [reflexivity |].
    destruct (Z.ltb_spec (feature_value YARP_FEATURE_NUMBER_OF - 1) feature);
      [reflexivity | lia].
  - intros R H. rewrite Hseven, <- hasFeature_true in H.
    unfold hasFeature in *. rewrite Z.gtb_ltb in *.
    destruct (Z.ltb_spec feature (feature_value YARP_FEATURE_BRIGHTNESS));
      [lia |].
    destruct (Z.ltb_spec (feature_value YARP_FEATURE_NUMBER_OF - 1) feature);
      [lia |].
    cbn [orb] in *.
    destruct (existsb (fun c => feature_value c =? feature) m_supportedFeatures);
      congruence.
  - intros H value d. rewrite Hseven in H.
    unfold setFeature, getFeature.
    rewrite (feature_not_supported_true _ H). split; reflexivity.
Qed.

(** ** On/off *)

(** [setActive] on white balance is the write of the boolean to the
    option that enables automatic white balance. *)
Lemma setActive_white_balance (onoff : bool) (d : realsense2Driver) :
  setActive (feature_value YARP_FEATURE_WHITE_BALANCE) onoff d =
  setOption RS2_OPTION_ENABLE_AUTO_WHITE_BALANCE (m_color_sensor d)
            (float_of_bool onoff) d.
Proof. reflexivity. Qed.

(** C3.  For exposure the guard on [hasOnOff] answers first: [setActive]
    and [getActive] return [false] and make no vendor call, whatever the
    sensor supports; the [case YARP_FEATURE_EXPOSURE] of their [switch] is
    never reached. *)
Theorem setActive_exposure_is_refused (onoff : bool) (d : realsense2Driver) :
  hasOnOff (feature_value YARP_FEATURE_EXPOSURE) = Some false /\
  setActive (feature_value YARP_FEATURE_EXPOSURE) onoff d = (Returned false, d) /\
  getActive (feature_value YARP_FEATURE_EXPOSURE) d = (Returned false, d).
Proof. repeat split. Qed.

(** ** Modes *)

(** C10.  For gain, frame rate, sharpness, hue and saturation [getMode]
    returns [true] with the mode [MODE_MANUAL], and the driver, the camera
    and the trace of vendor calls are as before: no option is read. *)
Theorem getMode_manual_without_reading (c : cameraFeature_id_t)
    (d : realsense2Driver) :
  In c [ YARP_FEATURE_GAIN; YARP_FEATURE_FRAME_RATE; YARP_FEATURE_SHARPNESS;
         YARP_FEATURE_HUE; YARP_FEATURE_SATURATION ] ->
  getMode (feature_value c) d = (Returned (true, Some MODE_MANUAL), d).
Proof.
  simpl. intros H.
  repeat (destruct H as [<- | H]; [reflexivity |]). contradiction.
Qed.

(** ** Composing observations *)

Lemma keeps_ret {V A : Type} (view : realsense2Driver -> V) (a : A) :
  keeps view (ret a).
Proof. intros d. reflexivity. Qed.

Lemma keeps_gets {V A : Type} (view : realsense2Driver -> V)
    (f : realsense2Driver -> A) :
  keeps view (gets f).
Proof. intros d. reflexivity. Qed.

Lemma keeps_modify {V : Type} (view : realsense2Driver -> V)
    (f : realsense2Driver -> realsense2Driver) :
  (forall d, view (f d) = view d) -> keeps view (modify f).
Proof. intros H d. apply H. Qed.

Lemma keeps_bind {V A B : Type} (view : realsense2Driver -> V)
    (m : M A) (k : A -> M B) :
  keeps view m -> (forall a, keeps view (k a)) -> keeps view (bind m k).
Proof.
  intros Hm Hk d. unfold bind. specialize (Hm d).
  destruct (m d) as [[a | e] d']; simpl in *.
  - rewrite Hk. exact Hm.
  - exact Hm.
Qed.

Lemma keeps_try_catch {V A : Type} (view : realsense2Driver -> V)
    (body : M A) (handler : rs2_error -> M A) :
  keeps view body -> (forall e, keeps view (handler e)) ->
  keeps view (try_catch body handler).
Proof.
  intros Hm Hk d. unfold try_catch. specialize (Hm d).
  destruct (body d) as [[a | e] d']; simpl in *.
  - exact Hm.
  - rewrite Hk. exact Hm.
Qed.

Lemma keeps_vendor {V A : Type} (view : realsense2Driver -> V)
    (c : sdk_call) (op : World -> outcome A * World) :
  (forall d w, view (set_world w (log_call c d)) = view d) ->
  keeps view (vendor c op).
Proof.
  intros H d. unfold vendor. destruct (op (world d)) as [r w]. apply H.
Qed.

Lemma keeps_vendor_pure {V A : Type} (view : realsense2Driver -> V)
    (c : sdk_call) (r : outcome A) :
  (forall d, view (log_call c d) = view d) ->
  keeps view (vendor_pure c r).
Proof. intros H d. apply H. Qed.

Ltac keeps_step :=
  first
    [ apply keeps_ret
    | apply keeps_gets
    | apply keeps_bind; [| intros ?]
    | apply keeps_try_catch; [| intros ?]
    | apply keeps_vendor; intros; reflexivity
    | apply keeps_vendor_pure; intros; reflexivity
    | apply keeps_modify; intros; reflexivity
    | match goal with
      | |- keeps _ (if ?b then _ else _) => destruct b
      end ].

Lemma pipelineShutdown_keeps_requests : keeps requests pipelineShutdown.
Proof. unfold pipelineShutdown. repeat keeps_step. Qed.

Lemma pipelineStartup_keeps_requests : keeps requests pipelineStartup.
Proof. unfold pipelineStartup. repeat keeps_step. Qed.

Lemma updateTransformations_keeps_requests :
  keeps requests updateTransformations.
Proof. unfold updateTransformations. repeat keeps_step. Qed.

Lemma restart_keeps_requests : keeps requests restart.
Proof.
  unfold restart.
  apply keeps_bind; [apply pipelineShutdown_keeps_requests | intros []]; simpl.
  - apply keeps_bind; [apply pipelineStartup_keeps_requests | intros []]; simpl.
    + apply keeps_bind;
        [apply updateTransformations_keeps_requests | intros; apply keeps_ret].
    + apply keeps_ret.
  - apply keeps_ret.
Qed.

(** ** Resolution changes *)

Lemma setDepthResolution_restart (w h : Z) (d : realsense2Driver) :
  setDepthResolution w h d =
  restart (both_enabled (width (m_color_intrin d)) (height (m_color_intrin d))
                        w h d).
Proof. reflexivity. Qed.

Lemma setRgbResolution_restart (w h : Z) (d : realsense2Driver) :
  setRgbResolution w h d =
  restart (both_enabled w h (width (m_depth_intrin d))
                        (height (m_depth_intrin d)) d).
Proof. reflexivity. Qed.

(** C9.  Whatever its outcome, [setDepthResolution] has enabled the colour
    stream with the recorded colour size and then the depth stream with
    the requested size, and [setRgbResolution] the colour stream with the
    requested size and then the depth stream with the recorded depth
    size; these two are the only [enable_stream] calls either makes, and
    the configuration the driver is left with is their result. *)
Theorem resolution_change_enables_both_streams (w h : Z)
    (d : realsense2Driver) :
  requests (snd (setDepthResolution w h d)) =
    (rs2_enable_stream RS2_STREAM_DEPTH w h RS2_FORMAT_Z16 0
       (rs2_enable_stream RS2_STREAM_COLOR
          (width (m_color_intrin d)) (height (m_color_intrin d))
          RS2_FORMAT_RGB8 0 (m_cfg d)),
     call_enable_stream RS2_STREAM_DEPTH w h RS2_FORMAT_Z16 0
       :: call_enable_stream RS2_STREAM_COLOR
            (width (m_color_intrin d)) (height (m_color_intrin d))
            RS2_FORMAT_RGB8 0
       :: filter is_enable_stream (sdk_trace d)) /\
  requests (snd (setRgbResolution w h d)) =
    (rs2_enable_stream RS2_STREAM_DEPTH
       (width (m_depth_intrin d)) (height (m_depth_intrin d))
       RS2_FORMAT_Z16 0
       (rs2_enable_stream RS2_STREAM_COLOR w h RS2_FORMAT_RGB8 0 (m_cfg d)),
     call_enable_stream RS2_STREAM_DEPTH
       (width (m_depth_intrin d)) (height (m_depth_intrin d))
       RS2_FORMAT_Z16 0
       :: call_enable_stream RS2_STREAM_COLOR w h RS2_FORMAT_RGB8 0
       :: filter is_enable_stream (sdk_trace d)).
Proof.
  split.
  - rewrite setDepthResolution_restart, (restart_keeps_requests _).
    reflexivity.
  - rewrite setRgbResolution_restart, (restart_keeps_requests _).
    reflexivity.
Qed.

(** A successful restart, step by step. *)
Lemma restart_success (d0 d' : realsense2Driver) :
  restart d0 = (Returned true, d') ->
  exists w1 w2 w3 prof dsp csp,
    rs2_pipeline_stop (world d0) = (Returned tt, w1) /\
    rs2_pipeline_start (m_cfg d0) w1 = (Returned tt, w2) /\
    rs2_get_active_profile w2 = (Returned prof, w3) /\
    rs2_get_stream prof RS2_STREAM_DEPTH = Returned dsp /\
    rs2_get_stream prof RS2_STREAM_COLOR = Returned csp /\
    rs2_get_intrinsics dsp = Returned (m_depth_intrin d') /\
    rs2_get_intrinsics csp = Returned (m_color_intrin d').
Proof.
  unfold restart, pipelineShutdown, pipelineStartup, updateTransformations,
    bind, try_catch, vendor, vendor_pure, gets, modify, ret.
  destruct (rs2_pipeline_stop (world d0)) as [[[] | e1] w1] eqn:E1; simpl;
    [| discriminate].
  destruct (rs2_pipeline_start (m_cfg d0) w1) as [[[] | e2] w2] eqn:E2; simpl;
    [| discriminate].
  destruct (rs2_get_active_profile w2) as [[prof | e3] w3] eqn:E3; simpl;
    [| discriminate].
  destruct (rs2_get_stream prof RS2_STREAM_DEPTH) as [dsp | e4] eqn:E4; simpl;
    [| discriminate].
  destruct (rs2_get_stream prof RS2_STREAM_COLOR) as [csp | e5] eqn:E5; simpl;
    [| discriminate].
  destruct (rs2_get_intrinsics dsp) as [di | e6] eqn:E6; simpl; [| discriminate].
  destruct (rs2_get_intrinsics csp) as [ci | e7] eqn:E9; simpl; [| discriminate].
  destruct (rs2_get_extrinsics_to dsp csp) as [dc | e8] eqn:E7; simpl;
    [| discriminate].
  destruct (rs2_get_extrinsics_to csp dsp) as [cd | e9] eqn:E8; simpl;
    [| discriminate].
  intros H. injection H as <-. simpl.
  exists w1, w2, w3, prof, dsp, csp. repeat split; assumption.
Qed.

(** C6, amended.  When the camera, asked for a depth stream of [w] x [h]
    next to a colour stream of the recorded colour size, streams at these
    sizes, a [setDepthResolution w h] that returned [true] leaves
    [getDepthWidth] at [w], [getDepthHeight] at [h], and
    [getRgbResolution] answering what it answered before the call. *)
Theorem setDepthResolution_then_getters (w h : Z) (d d' : realsense2Driver) :
  honours_request P (width (m_color_intrin d)) (height (m_color_intrin d))
                  w h ->
  setDepthResolution w h d = (Returned true, d') ->
  fst (getDepthWidth d') = Returned w /\
  fst (getDepthHeight d') = Returned h /\
  fst (getRgbResolution d') = fst (getRgbResolution d).
Proof.
  intros Hsdk Hset. rewrite setDepthResolution_restart in Hset.
  apply restart_success in Hset.
  destruct Hset as (w1 & w2 & w3 & prof & dsp & csp &
                    _ & Hstart & Hprof & Hd & Hc & Hdi & Hci).
  destruct (Hsdk _ _ _ _ _ Hstart Hprof) as [Hdepth Hcolor].
  destruct (Hdepth _ _ Hd Hdi) as [Hw Hh].
  destruct (Hcolor _ _ Hc Hci) as [Hcw Hch].
  unfold getDepthWidth, getDepthHeight, getRgbResolution, bind, gets, ret.
  simpl. rewrite Hw, Hh, Hcw, Hch. auto.
Qed.

(** ** Options and modes *)

Lemma setOption_success (opt : rs2_option) (sensor : option rs2_sensor)
    (v : float32) (d d' : realsense2Driver) :
  setOption opt sensor v d = (Returned true, d') ->
  exists s w1 w2,
    sensor = Some s /\
    rs2_supports s opt (world d) = (Returned true, w1) /\
    rs2_set_option s opt v w1 = (Returned tt, w2) /\
    d' = set_world w2 (log_call (call_set_option s opt v)
           (set_world w1 (log_call (call_supports s opt) d))).
Proof.
  unfold setOption. destruct sensor as [s |]; [| discriminate].
  unfold bind, try_catch, vendor, ret.
  destruct (rs2_supports s opt (world d)) as [[[|] | e] w1] eqn:E1; simpl;
    try discriminate.
  destruct (rs2_set_option s opt v w1) as [[[] | e] w2] eqn:E2; simpl;
    try discriminate.
  intros H. injection H as <-. exists s, w1, w2. auto.
Qed.

Lemma getOption_reads (opt : rs2_option) (s : rs2_sensor) (v : float32)
    (d : realsense2Driver) (w1 w2 : World) :
  rs2_supports s opt (world d) = (Returned true, w1) ->
  rs2_get_option s opt w1 = (Returned v, w2) ->
  getOption opt (Some s) d =
  (Returned (Some v),
   set_world w2 (log_call (call_get_option s opt)
     (set_world w1 (log_call (call_supports s opt) d)))).
Proof.
  intros H1 H2. unfold getOption, bind, try_catch, vendor, ret.
  rewrite H1. simpl. rewrite H2. reflexivity.
Qed.

Lemma getMode_white_balance (d : realsense2Driver) :
  getMode (feature_value YARP_FEATURE_WHITE_BALANCE) d =
  ('(res, ok) <- read_into RS2_OPTION_ENABLE_AUTO_WHITE_BALANCE
                   (m_color_sensor d) float_zero true ;;
   ret (ok, Some (mode_of_readback res))) d.
Proof.
  unfold getMode, bind, gets, ret. simpl.
  destruct (read_into _ _ _ _ d) as [[[res ok] | e] d']; reflexivity.
Qed.

Lemma getMode_exposure (d : realsense2Driver) :
  getMode (feature_value YARP_FEATURE_EXPOSURE) d =
  ('(res, ok) <- read_into RS2_OPTION_ENABLE_AUTO_EXPOSURE
                   (m_color_sensor d) float_zero true ;;
   ret (ok, Some (mode_of_readback res))) d.
Proof.
  unfold getMode, bind, gets, ret. simpl.
  destruct (read_into _ _ _ _ d) as [[[res ok] | e] d']; reflexivity.
Qed.



(** ** Capture *)

(** The depth conversion never advances the colour stamp. *)
Lemma getImage_depth_keeps_rgb_stamp (Frame : depthImage) (timeStamp : Stamp)
    (sourceFrame : rs2_frameset) :
  keeps m_rgb_stamp (getImage_depth Frame timeStamp sourceFrame).
Proof. unfold getImage_depth. repeat keeps_step. Qed.

(** The byte count of a frame is the plain product as long as the number
    of pixels fits an [int]. *)
Lemma frame_bytes_exact (w h : Z) (format : rs2_format) :
  0 <= w * h < 2 ^ 31 ->
  frame_bytes w h format = w * h * bytesPerPixel format.
Proof.
  intros H. unfold frame_bytes, wrap_int, wrap_size_t.
  assert (Hb : 0 <= bytesPerPixel format <= 4) by (destruct format; simpl; lia).
  replace ((w * h + 2 ^ 31) mod 2 ^ 32 - 2 ^ 31) with (w * h)
    by (rewrite Z.mod_small; lia).
  rewrite (Z.mod_small (w * h)) by lia.
  apply Z.mod_small. nia.
Qed.

(** C1, amended.  When the colour frame has a known format and the
    destination, once given the frame's pixel code and the size of the
    colour intrinsics, has a raw size other than the frame's byte count
    (width x height x bytes per pixel as the code computes it, the plain
    product whenever the pixel count fits an [int]), the colour conversion
    returns [false], writes no byte of the frame into the destination,
    leaves the caller's stamp as it was and changes nothing of the driver
    ([m_rgb_stamp] included) but the record of the frame read; the
    destination it leaves is the caller's image with the new pixel code
    and the new size.  [getRgbImage] does the same once the frame has
    arrived.  [getImages] then still runs the depth conversion: it returns
    [false] with that colour image and the caller's colour stamp, the
    depth image and depth stamp are those of the depth conversion, the
    driver is left as the depth conversion leaves it, with [m_rgb_stamp]
    as it was; an error of the depth conversion leaves [getImages]. *)
Theorem size_mismatch_fails_without_copy (Frame : FlexImage)
    (timeStamp : Stamp) (sourceFrame : rs2_frameset)
    (color_frm : rs2_video_frame) (d : realsense2Driver) :
  let pixCode := pixFormatToCode (frame_format color_frm) in
  let resized :=
    resize (width (m_color_intrin d)) (height (m_color_intrin d))
           (setPixelCode pixCode Frame) in
  get_color_frame sourceFrame = Returned color_frm ->
  is_invalid_code pixCode = false ->
  wrap_size_t (getRawImageSize resized)
    <> frame_bytes (frame_width color_frm) (frame_height color_frm)
                   (frame_format color_frm) ->
  getImage Frame timeStamp sourceFrame d
    = (Returned (false, resized, timeStamp), log_call call_color_frame d) /\
  (0 <= frame_width color_frm * frame_height color_frm < 2 ^ 31 ->
   frame_bytes (frame_width color_frm) (frame_height color_frm)
               (frame_format color_frm)
     = frame_width color_frm * frame_height color_frm
       * bytesPerPixel (frame_format color_frm)) /\
  (forall d0 w,
      rs2_wait_for_frames (world d0) = (Returned sourceFrame, w) ->
      d = waited w d0 ->
      getRgbImage Frame timeStamp d0
        = (Returned (false, resized, timeStamp),
           log_call call_color_frame d)) /\
  (forall d0 data w w' depthFrame depthStamp,
      rs2_wait_for_frames (world d0) = (Returned data, w) ->
      rs2_align_process data w = (Returned sourceFrame, w') ->
      d = aligned_in w w' d0 ->
      (forall r depthFrame' depthStamp' d',
          getImage_depth depthFrame depthStamp sourceFrame
            (log_call call_color_frame d)
            = (Returned (r, depthFrame', depthStamp'), d') ->
          getImages Frame depthFrame timeStamp depthStamp d0
            = (Returned (false, (resized, timeStamp),
                         (depthFrame', depthStamp')), d') /\
          m_rgb_stamp d' = m_rgb_stamp d0) /\
      (forall e d',
          getImage_depth depthFrame depthStamp sourceFrame
            (log_call call_color_frame d) = (Raised e, d') ->
          getImages Frame depthFrame timeStamp depthStamp d0
            = (Raised e, d') /\
          m_rgb_stamp d' = m_rgb_stamp d0)).
Proof.
  intros pixCode resized Hf Hcode Hsize.
  assert (Hconv : getImage Frame timeStamp sourceFrame d
            = (Returned (false, resized, timeStamp),
               log_call call_color_frame d)).
  { unfold getImage, bind at 1, vendor_pure. rewrite Hf.
    fold pixCode. rewrite Hcode.
    unfold bind, gets. cbn [fst snd log_call m_color_intrin]. fold resized.
    apply Z.eqb_neq in Hsize. rewrite Hsize. reflexivity. }
  split; [exact Hconv | split; [apply frame_bytes_exact | split]].
  - intros d0 w Hw ->. unfold getRgbImage, bind at 1, vendor. rewrite Hw.
    exact Hconv.
  - intros d0 data w w' depthFrame depthStamp Hw Ha Hd.
    assert (Hrun : getImages Frame depthFrame timeStamp depthStamp d0
              = bind (getImage Frame timeStamp sourceFrame)
                  (fun '(r1, colorFrame', colorStamp') =>
                     '(r2, depthFrame', depthStamp') <-
                       getImage_depth depthFrame depthStamp sourceFrame ;;
                     ret (r1 && r2, (colorFrame', colorStamp'),
                          (depthFrame', depthStamp'))) d).
    { unfold getImages, bind at 1, vendor at 1. rewrite Hw.
      unfold bind at 1, vendor at 1. cbn [world set_world log_call].
      rewrite Ha, Hd. reflexivity. }
    assert (Hstamp : forall o d',
              getImage_depth depthFrame depthStamp sourceFrame
                (log_call call_color_frame d) = (o, d') ->
              m_rgb_stamp d' = m_rgb_stamp d0).
    { intros o d' E.
      pose proof (getImage_depth_keeps_rgb_stamp depthFrame depthStamp
                    sourceFrame (log_call call_color_frame d)) as K.
      rewrite E in K. simpl in K. rewrite K, Hd. reflexivity. }
    split.
    + intros r depthFrame' depthStamp' d' E.
      split; [| exact (Hstamp _ _ E)].
      rewrite Hrun. unfold bind at 1. rewrite Hconv.
      unfold bind. rewrite E. reflexivity.
    + intros e d' E.
      split; [| exact (Hstamp _ _ E)].
      rewrite Hrun. unfold bind at 1. rewrite Hconv.
      unfold bind. rewrite E. reflexivity.
Qed.

(** ** Vendor errors *)

Lemma try_catch_never_raises {A : Type} (body : M A)
    (handler : rs2_error -> M A) :
  (forall e, never_raises (handler e)) -> never_raises (try_catch body handler).
Proof.
  intros H d. unfold try_catch.
  destruct (body d) as [[a | e] d'].
  - exists a, d'. reflexivity.
  - apply H.
Qed.

Lemma ret_never_raises {A : Type} (a : A) : never_raises (ret a).
Proof. intros d. eexists. eexists. reflexivity. Qed.

Lemma pipelineStartup_never_raises : never_raises pipelineStartup.
Proof.
  apply try_catch_never_raises. intros e. apply ret_never_raises.
Qed.

Lemma pipelineShutdown_never_raises : never_raises pipelineShutdown.
Proof.
  apply try_catch_never_raises. intros e. apply ret_never_raises.
Qed.

(** C2.  Where the vendor error is caught and where it is not.  The
    driver wraps four calls in [try]: the pipeline's [start] and [stop]
    and a sensor's [set_option] and [get_option].  So [pipelineStartup],
    [pipelineShutdown] and [close] always return, and [setOption] and
    [getOption] return whenever the [supports] query before the [try]
    does.  The frame wait is not wrapped: an error raised by
    [wait_for_frames] leaves [getRgbImage], [getDepthImage] and
    [getImages], and the warm-up loop of [initializeRealsenseDevice], as
    that same error instead of a [false]. *)
Theorem vendor_errors_caught_where_wrapped (d : realsense2Driver) :
  (exists b d', pipelineStartup d = (Returned b, d')) /\
  (exists b d', pipelineShutdown d = (Returned b, d')) /\
  (exists d', close d = (Returned true, d')) /\
  (forall opt s v b w,
      rs2_supports s opt (world d) = (Returned b, w) ->
      (exists r d', setOption opt (Some s) v d = (Returned r, d')) /\
      (exists r d', getOption opt (Some s) d = (Returned r, d'))) /\
  (forall e w,
      rs2_wait_for_frames (world d) = (Raised e, w) ->
      (forall rgbImage timeStamp,
          fst (getRgbImage rgbImage timeStamp d) = Raised e) /\
      (forall depthImg timeStamp,
          fst (getDepthImage depthImg timeStamp d) = Raised e) /\
      (forall colorFrame depthFrame colorStamp depthStamp,
          fst (getImages colorFrame depthFrame colorStamp depthStamp d)
            = Raised e)) /\
  (forall w1 e w2,
      rs2_pipeline_start
        (m_cfg (both_enabled (fst (rgbRes d)) (snd (rgbRes d))
                             (fst (depthRes d)) (snd (depthRes d)) d))
        (world d) = (Returned tt, w1) ->
      rs2_wait_for_frames w1 = (Raised e, w2) ->
      fst (initializeRealsenseDevice d) = Raised e).
Proof.
  split; [apply pipelineStartup_never_raises |].
  split; [apply pipelineShutdown_never_raises |].
  split.
  { unfold close, bind.
    destruct (pipelineShutdown_never_raises d) as (b & d' & E).
    rewrite E. eexists. reflexivity. }
  split.
  { intros opt s v b w Hs.
    unfold setOption, getOption, bind, try_catch, vendor, ret.
    rewrite Hs. destruct b; simpl.
    - split.
      + destruct (rs2_set_option s opt v w) as [[[] | e] w']; eauto.
      + destruct (rs2_get_option s opt w) as [[x | e] w']; eauto.
    - split; eauto. }
  split.
  { intros e w Hw.
    unfold getRgbImage, getDepthImage, getImages, bind, vendor.
    rewrite Hw. repeat split. }
  intros w1 e w2 Hstart Hwait.
  unfold initializeRealsenseDevice.
  unfold bind at 1, gets at 1. destruct (rgbRes d) as [colorW colorH].
  unfold bind at 1, gets at 1. destruct (depthRes d) as [depthW depthH].
  unfold bind at 1, enable_stream at 1, modify at 1.
  unfold bind at 1, enable_stream at 1, modify at 1.
  unfold bind at 1, pipelineStartup, try_catch, bind at 1, gets at 1.
  unfold bind at 1, vendor at 1.
  cbn [fst snd both_enabled m_cfg world set_cfg log_call] in Hstart |- *.
  rewrite Hstart. cbn [negb ret].
  unfold bind at 1. cbn [repeatM]. unfold bind at 1, bind at 1, vendor at 1.
  cbn [world set_world log_call set_cfg]. rewrite Hwait. reflexivity.
Qed.

End Properties.

(** * The properties on the simulated camera *)

Lemma mock_sensor_eqb_refl (s : Mock.sensor) : Mock.sensor_eqb s s = true.
Proof. destruct s; reflexivity. Qed.

(** The simulated pipeline reports the sizes it was asked for. *)
Lemma mock_honours_requests : honours_requests Mock.platform.
Proof.
  intros cfg cw ch dw dh wld wld1 wld2 prof Hstart Hprof. simpl in *.
  destruct (Mock.start_fails wld); [discriminate |].
  injection Hstart as <-. injection Hprof as <- _.
  split; intros sp i Hsp Hi; injection Hsp as <-; injection Hi as <-;
    split; reflexivity.
Qed.

Lemma honours_requests_each (Q : Platform) :
  honours_requests Q -> forall cw ch dw dh, honours_request Q cw ch dw dh.
Proof. intros H cw ch dw dh cfg. apply H. Qed.

(** The camera of [Wildcard] streams at every size asked of it but 0. *)
Lemma wildcard_honours_nonzero (cw ch dw dh : Z) :
  cw <> 0 -> ch <> 0 -> dw <> 0 -> dh <> 0 ->
  honours_request Wildcard.platform cw ch dw dh.
Proof.
  intros Hcw Hch Hdw Hdh cfg wld wld1 wld2 prof Hstart Hprof. simpl in *.
  destruct (Mock.start_fails wld); [discriminate |].
  injection Hstart as <-. injection Hprof as <- _.
  apply Z.eqb_neq in Hcw, Hch, Hdw, Hdh.
  split; intros sp i Hsp Hi; injection Hsp as <-; injection Hi as <-;
    simpl; rewrite ?Hcw, ?Hch, ?Hdw, ?Hdh; split; reflexivity.
Qed.

(** The simulated sensor reads back what was set. *)
Lemma mock_reads_back : reads_back Mock.platform.
Proof.
  intros s o v wld wld1 Hset. simpl in *.
  destruct (Mock.sensor_fails wld) eqn:E; [discriminate |].
  injection Hset as <-. exists (Mock.set_options ((s, Mock.option_index o, v) :: Mock.options wld) wld).
  eexists. split; [reflexivity |].
  simpl. rewrite E. unfold Mock.stored. simpl.
  unfold Mock.is_entry. simpl.
  rewrite mock_sensor_eqb_refl, Z.eqb_refl. reflexivity.
Qed.



(** C8 on a camera whose pipeline refuses to stop. *)
Lemma close_always_succeeds_witness :
  rs2_pipeline_stop (world (Mock.opened Mock.unplugged))
    = (Raised (Mock.error "stop"), Mock.unplugged) /\
  fst (close (Mock.opened Mock.unplugged)) = Returned true /\
  fst (pipelineShutdown (Mock.opened Mock.unplugged)) = Returned false.
Proof.
  split; [reflexivity |].
  destruct (close_always_succeeds (Mock.opened Mock.unplugged)) as [H1 H2].
  split; [exact H1 |].
  apply (H2 (Mock.error "stop") Mock.unplugged). reflexivity.
Defined.

(** C4 at the identifier of [YARP_FEATURE_BRIGHTNESS], which is in range
    and not registered, and at 23, which is out of range. *)
Lemma hasFeature_exactly_supported_witness :
  hasFeature 0 = Some false /\
  hasFeature 23 = None /\
  setFeature 0 float_one (Mock.opened Mock.healthy)
    = (Returned false, Mock.opened Mock.healthy) /\
  getFeature 0 (Mock.opened Mock.healthy)
    = (Returned false, Mock.opened Mock.healthy).
Proof.
  destruct (hasFeature_exactly_supported (P := Mock.platform) 0)
    as (_ & _ & H3 & H4).
  destruct (hasFeature_exactly_supported (P := Mock.platform) 23)
    as (_ & H2 & _).
  assert (Hout : ~ In 0 (map feature_value
            [ YARP_FEATURE_EXPOSURE; YARP_FEATURE_GAIN; YARP_FEATURE_FRAME_RATE;
              YARP_FEATURE_WHITE_BALANCE; YARP_FEATURE_SHARPNESS;
              YARP_FEATURE_HUE; YARP_FEATURE_SATURATION ])).
  { simpl. intros H. repeat destruct H as [H | H]; lia. }
  split; [| split].
  - apply H3; [simpl; lia | exact Hout].
  - apply H2. right. simpl. lia.
  - apply (H4 Hout float_one (Mock.opened Mock.healthy)).
Defined.

(** C10 for the gain. *)
Lemma getMode_manual_without_reading_witness :
  getMode (feature_value YARP_FEATURE_GAIN) (Mock.opened Mock.healthy)
    = (Returned (true, Some MODE_MANUAL), Mock.opened Mock.healthy).
Proof.
  apply (getMode_manual_without_reading YARP_FEATURE_GAIN
           (Mock.opened Mock.healthy)).
  simpl. left. reflexivity.
Defined.

(** C6: the depth stream set to 8 x 6 while the colour stream is 4 x 4. *)
Lemma setDepthResolution_then_getters_witness :
  fst (setDepthResolution 8 6 (Mock.opened Mock.healthy)) = Returned true /\
  fst (getDepthWidth (snd (setDepthResolution 8 6 (Mock.opened Mock.healthy))))
    = Returned 8 /\
  fst (getDepthHeight (snd (setDepthResolution 8 6 (Mock.opened Mock.healthy))))
    = Returned 6 /\
  fst (getRgbResolution (snd (setDepthResolution 8 6 (Mock.opened Mock.healthy))))
    = Returned (true, (4, 4)).
Proof.
  split; [reflexivity |].
  apply (setDepthResolution_then_getters 8 6 (Mock.opened Mock.healthy)
           (snd (setDepthResolution 8 6 (Mock.opened Mock.healthy)))
           (honours_requests_each _ mock_honours_requests 4 4 8 6)).
  vm_compute. reflexivity.
Defined.

(** C6 as the specification words it fails on a camera that reads a
    size of 0 as "any": [setDepthResolution 0 0] returns [true] and the
    depth getters then answer the native 640 x 480. *)
Lemma zero_resolution_is_not_read_back :
  fst (setDepthResolution (P := Wildcard.platform) 0 0 Wildcard.opened)
    = Returned true /\
  fst (getDepthWidth (P := Wildcard.platform)
         (snd (setDepthResolution (P := Wildcard.platform) 0 0
                 Wildcard.opened)))
    = Returned 640 /\
  fst (getDepthHeight (P := Wildcard.platform)
         (snd (setDepthResolution (P := Wildcard.platform) 0 0
                 Wildcard.opened)))
    = Returned 480 /\
  ~ resolution_is_the_one_asked (P := Wildcard.platform) 0 0 Wildcard.opened.
Proof.
  assert (E : exists d',
    setDepthResolution (P := Wildcard.platform) 0 0 Wildcard.opened
      = (Returned true, d') /\
    fst (getDepthWidth (P := Wildcard.platform) d') = Returned 640 /\
    fst (getDepthHeight (P := Wildcard.platform) d') = Returned 480).
  { eexists. split; [vm_compute; reflexivity |].
    split; vm_compute; reflexivity. }
  destruct E as (d' & E & Hw & Hh).
  rewrite E. simpl.
  split; [reflexivity | split; [exact Hw | split; [exact Hh |]]].
  intros H. destruct (H d' E) as (Hw' & _).
  rewrite Hw in Hw'. discriminate Hw'.
Qed.


(** C1, amended: a 2 x 2 RGB8 frame, twelve bytes, for a colour stream
    recorded as 4 x 4, forty-eight bytes. *)
Lemma size_mismatch_fails_without_copy_witness :
  getImage Mock.blank (0, 0) Mock.small_frames (Mock.opened Mock.healthy)
    = (Returned (false,
                 resize 4 4 (setPixelCode VOCAB_PIXEL_RGB Mock.blank),
                 (0, 0)),
       log_call call_color_frame (Mock.opened Mock.healthy)) /\
  fst (getRgbImage Mock.blank (0, 0) (Mock.opened Mock.healthy))
    = Returned (false, resize 4 4 (setPixelCode VOCAB_PIXEL_RGB Mock.blank),
                (0, 0)) /\
  fst (getImages Mock.blank Mock.blank_depth (0, 0) (0, 0)
         (Mock.opened Mock.healthy))
    = Returned (false,
                (resize 4 4 (setPixelCode VOCAB_PIXEL_RGB Mock.blank), (0, 0)),
                (write_distances Mock.small_depth 2 1
                   (depth_resize 2 1 Mock.blank_depth), (1, 100))) /\
  m_rgb_stamp (snd (getImages Mock.blank Mock.blank_depth (0, 0) (0, 0)
                      (Mock.opened Mock.healthy))) = (0, 0) /\
  frame_bytes 2 2 RS2_FORMAT_RGB8 = 2 * 2 * bytesPerPixel RS2_FORMAT_RGB8.
Proof.
  assert (Hsize : forall d : @realsense2Driver Mock.platform,
    m_color_intrin d = m_color_intrin (Mock.opened Mock.healthy) ->
    wrap_size_t
      (getRawImageSize
         (resize (width (m_color_intrin d)) (height (m_color_intrin d))
            (setPixelCode VOCAB_PIXEL_RGB Mock.blank)))
    <> frame_bytes 2 2 RS2_FORMAT_RGB8).
  { intros d ->. vm_compute. discriminate. }
  split; [| split].
  - apply (size_mismatch_fails_without_copy Mock.blank (0, 0)
             Mock.small_frames _ (Mock.opened Mock.healthy) eq_refl eq_refl
             (Hsize _ eq_refl)).
  - destruct (size_mismatch_fails_without_copy Mock.blank (0, 0)
                Mock.small_frames _
                (waited (P := Mock.platform) Mock.healthy
                   (Mock.opened Mock.healthy))
                eq_refl eq_refl (Hsize _ eq_refl)) as (_ & _ & H & _).
    rewrite (H (Mock.opened Mock.healthy) Mock.healthy eq_refl eq_refl).
    reflexivity.
  - destruct (size_mismatch_fails_without_copy Mock.blank (0, 0)
                Mock.small_frames _
                (aligned_in (P := Mock.platform) Mock.healthy Mock.healthy
                   (Mock.opened Mock.healthy))
                eq_refl eq_refl (Hsize _ eq_refl)) as (_ & _ & _ & H).
    destruct (H (Mock.opened Mock.healthy) Mock.small_frames Mock.healthy
                Mock.healthy Mock.blank_depth (0, 0) eq_refl eq_refl eq_refl)
      as [Hret _].
    assert (E : exists d',
      getImage_depth Mock.blank_depth (0, 0) Mock.small_frames
        (log_call call_color_frame
           (aligned_in (P := Mock.platform) Mock.healthy Mock.healthy
              (Mock.opened Mock.healthy)))
      = (Returned (true,
                   write_distances Mock.small_depth 2 1
                     (depth_resize 2 1 Mock.blank_depth),
                   (1, 100)), d')).
    { eexists. vm_compute. reflexivity. }
    destruct E as [d' E].
    destruct (Hret _ _ _ _ E) as [E1 E2].
    rewrite E1. split; [reflexivity | split; [exact E2 |]].
    destruct (size_mismatch_fails_without_copy Mock.blank (0, 0)
                Mock.small_frames _ (Mock.opened Mock.healthy) eq_refl eq_refl
                (Hsize _ eq_refl)) as (_ & Hbytes & _).
    apply Hbytes. simpl. lia.
Defined.

(** C1 as the specification words it fails on that capture: the call
    returns [false] and the caller's empty image without a pixel code is
    now a 4 x 4 RGB image. *)
Lemma size_mismatch_alters_destination :
  fst (getRgbImage Mock.blank (0, 0) (Mock.opened Mock.healthy))
    = Returned (false,
                {| Mock.pixelCode := VOCAB_PIXEL_RGB; Mock.columns := 4;
                   Mock.rows := 4; Mock.raw := repeat Byte.x00 48 |},
                (0, 0)) /\
  ~ mismatch_leaves_destination Mock.blank (0, 0) (Mock.opened Mock.healthy).
Proof.
  split; [reflexivity |].
  intros H.
  destruct (H Mock.small_frames Mock.healthy _ eq_refl eq_refl)
    as [stamp E].
  - vm_compute. discriminate.
  - vm_compute in E. discriminate E.
Qed.

(** C2 on the unplugged camera: the sensor calls return, the depth
    capture and the warm-up raise. *)
Lemma vendor_errors_caught_where_wrapped_witness :
  rs2_wait_for_frames (world (Mock.opened Mock.unplugged))
    = (Raised (Mock.error "no frame"), Mock.unplugged) /\
  (exists r d',
      setOption (P := Mock.platform) RS2_OPTION_GAIN (Some Mock.RGB_Camera)
        float_one (Mock.opened Mock.unplugged) = (Returned r, d')) /\
  fst (getDepthImage Mock.blank_depth (0, 0) (Mock.opened Mock.unplugged))
    = Raised (Mock.error "no frame") /\
  fst (initializeRealsenseDevice (Mock.opened Mock.unplugged))
    = Raised (Mock.error "no frame").
Proof.
  split; [reflexivity |].
  destruct (vendor_errors_caught_where_wrapped (Mock.opened Mock.unplugged))
    as (_ & _ & _ & H4 & H5 & H6).
  split; [| split].
  - apply (H4 RS2_OPTION_GAIN Mock.RGB_Camera float_one true Mock.unplugged).
    reflexivity.
  - destruct (H5 (Mock.error "no frame") Mock.unplugged eq_refl)
      as (_ & H & _).
    apply H.
  - eapply H6; reflexivity.
Defined.

(** On the unplugged camera the vendor error of the frame wait leaves
    [getRgbImage]: the method does not return. *)
Lemma getRgbImage_lets_the_error_out :
  fst (getRgbImage Mock.blank (0, 0) (Mock.opened Mock.unplugged))
    = Raised (Mock.error "no frame") /\
  ~ never_raises (getRgbImage (P := Mock.platform) Mock.blank (0, 0)).
Proof.
  split; [reflexivity |].
  intros H. destruct (H (Mock.opened Mock.unplugged)) as (a & d' & E).
  discriminate E.
Qed.


(** * Further properties *)

(** ** The loops of the depth conversion *)

Lemma in_indices (n x : Z) : In x (indices n) <-> 0 <= x < n.
Proof.
  unfold indices. rewrite in_map_iff. split.
  - intros [k [<- H]]. apply in_seq in H. lia.
  - intros H. exists (Z.to_nat x). split; [lia |]. apply in_seq. lia.
Qed.

Lemma NoDup_indices (n : Z) : NoDup (indices n).
Proof.
  unfold indices. generalize (seq_NoDup (Z.to_nat n) 0).
  generalize (seq 0 (Z.to_nat n)). intros l H.
  induction H as [| k l Hk Hl IH]; simpl; constructor; auto.
  rewrite in_map_iff. intros [j [Hj Hin]].
  apply Nat2Z.inj in Hj. subst. contradiction.
Qed.

Lemma NoDup_list_prod {A B : Type} (l : list A) (l' : list B) :
  NoDup l -> NoDup l' -> NoDup (list_prod l l').
Proof.
  intros Hl Hl'. induction Hl as [| a l Ha Hl IH]; simpl; [constructor |].
  apply NoDup_app.
  - clear - Hl'. induction Hl' as [| b l' Hb Hl' IH]; simpl; constructor; auto.
    rewrite in_map_iff. intros [b' [E Hin]]. injection E as ->. contradiction.
  - exact IH.
  - intros [x y] H1 H2. apply in_map_iff in H1. destruct H1 as [b [E _]].
    injection E as -> _. apply in_prod_iff in H2. destruct H2. contradiction.
Qed.

Section DepthLoops.

Context {P : Platform}.

Lemma fold_rows (depth_frm : rs2_depth_frame) (cols rows : list Z)
    (img : depthImage) :
  fold_left
    (fun img x =>
       fold_left
         (fun img' y => setSafePixel x y (get_distance depth_frm x y) img')
         rows img)
    cols img
  = fold_left
      (fun i p =>
         setSafePixel (fst p) (snd p)
                      (get_distance depth_frm (fst p) (snd p)) i)
      (list_prod cols rows) img.
Proof.
  revert img. induction cols as [| x cols IH]; intros img; simpl; [reflexivity |].
  rewrite fold_left_app, IH. f_equal.
  clear IH. revert img.
  induction rows as [| y rows IHr]; intros img; simpl; [reflexivity |].
  apply IHr.
Qed.

(** X1.  The two loops of the depth conversion write each pixel of the
    frame once, column after column, with the distance the frame gives
    for it, and write nothing outside the frame: the pairs visited have
    no repetition, are exactly those with [0 <= x < w] and [0 <= y < h],
    and are [w * h] in number (none for an empty frame). *)
Theorem depth_conversion_visits_each_pixel_once
    (depth_frm : rs2_depth_frame) (w h : Z) (Frame : depthImage) :
  write_distances depth_frm w h Frame
  = fold_left
      (fun i p =>
         setSafePixel (fst p) (snd p)
                      (get_distance depth_frm (fst p) (snd p)) i)
      (visited w h) Frame /\
  NoDup (visited w h) /\
  (forall x y, In (x, y) (visited w h) <-> 0 <= x < w /\ 0 <= y < h) /\
  List.length (visited w h) = (Z.to_nat w * Z.to_nat h)%nat.
Proof.
  split; [apply fold_rows |]. split; [| split].
  - apply NoDup_list_prod; apply NoDup_indices.
  - intros x y. unfold visited. rewrite in_prod_iff, !in_indices. tauto.
  - unfold visited, indices. rewrite length_prod, !length_map, !length_seq.
    reflexivity.
Qed.
End DepthLoops.

(** ** The two format tables *)

(** X2.  The two format tables agree: formats with the same pixel code
    have the same number of bytes per pixel, that number is 0 exactly
    for the formats without a pixel code, and it is never above 4. *)
Theorem bytes_follow_the_pixel_code (p q : rs2_format) :
  (pixFormatToCode p = pixFormatToCode q -> bytesPerPixel p = bytesPerPixel q) /\
  (bytesPerPixel p = 0 <-> pixFormatToCode p = VOCAB_PIXEL_INVALID) /\
  0 <= bytesPerPixel p <= 4.
Proof.
  split; [| split].
  - destruct p, q; simpl; intros H; try reflexivity; discriminate H.
  - destruct p; simpl; split; intros H; try reflexivity; discriminate H.
  - destruct p; simpl; lia.
Qed.

Lemma supported_cases (f : Z) :
  feature_not_supported f = false ->
  f = 1 \/ f = 3 \/ f = 8 \/ f = 15 \/ f = 2 \/ f = 4 \/ f = 5.
Proof.
  intros H. apply feature_not_supported_false in H. simpl in H.
  intuition.
Qed.

Section Tables.

Context {P : Platform}.

(** X3.  The capability queries agree with each other.  [hasOnOff],
    [hasAuto], [hasManual] and [hasOnePush] answer for exactly the
    identifiers [hasFeature] reports present and fail for all others;
    [hasOnePush] is [hasAuto]; a feature with on/off has an auto mode;
    every present feature has an auto or a manual mode; and [setMode]
    returns [true] only on a feature whose [hasAuto] is true and never
    for [MODE_UNKNOWN]. *)
Theorem capability_tables_agree (feature : Z) :
  (hasFeature feature = Some true ->
   (exists a, hasOnOff feature = Some a) /\
   (exists a, hasAuto feature = Some a) /\
   (exists a, hasManual feature = Some a) /\
   (exists a, hasOnePush feature = Some a)) /\
  (hasFeature feature <> Some true ->
   hasOnOff feature = None /\ hasAuto feature = None /\
   hasManual feature = None /\ hasOnePush feature = None) /\
  hasOnePush feature = hasAuto feature /\
  (hasOnOff feature = Some true -> hasAuto feature = Some true) /\
  (hasFeature feature = Some true ->
   hasAuto feature = Some true \/ hasManual feature = Some true) /\
  (forall mode d d',
      setMode feature mode d = (Returned true, d') ->
      hasAuto feature = Some true /\ mode <> MODE_UNKNOWN).
Proof.
  unfold hasOnOff, hasAuto, hasManual, hasOnePush, hasAuto, setMode.
  destruct (feature_not_supported feature) eqn:E.
  - assert (H : hasFeature feature <> Some true).
    { intros H. apply hasFeature_true, feature_not_supported_false in H.
      congruence. }
    repeat split; try congruence; try contradiction; try discriminate.
    all: intros; discriminate.
  - assert (H : hasFeature feature = Some true).
    { apply hasFeature_true, feature_not_supported_false, E. }
    apply supported_cases in E.
    destruct E as [-> | [-> | [-> | [-> | [-> | [-> | ->]]]]]]; simpl;
      repeat split; eauto; try congruence; try discriminate;
      try (destruct mode; simpl; intros; discriminate).
Qed.
End Tables.

Section MoreProperties.
Context {P : Platform}.

(** ** Reasoning on the monad *)

Lemma bind_returned {A B : Type} (m : M A) (k : A -> M B)
    (d d' : realsense2Driver) (b : B) :
  bind m k d = (Returned b, d') ->
  exists a d1, m d = (Returned a, d1) /\ k a d1 = (Returned b, d').
Proof.
  unfold bind. destruct (m d) as [[a | e] d1]; [eauto | discriminate].
Qed.

Lemma never_raises_bind {A B : Type} (m : M A) (k : A -> M B) :
  never_raises m -> (forall a, never_raises (k a)) -> never_raises (bind m k).
Proof.
  intros Hm Hk d. unfold bind. destruct (Hm d) as (a & d1 & ->). apply Hk.
Qed.

Lemma never_raises_gets {A : Type} (f : realsense2Driver -> A) :
  never_raises (gets f).
Proof. intros d. eexists. eexists. reflexivity. Qed.

Lemma never_raises_modify (f : realsense2Driver -> realsense2Driver) :
  never_raises (modify f).
Proof. intros d. eexists. eexists. reflexivity. Qed.

Lemma only_returns_ret {A : Type} (a : A) : only_returns a (ret a).
Proof. intros d r d' H. injection H as <- _. reflexivity. Qed.

Lemma only_returns_bind {A B : Type} (b : B) (m : M A) (k : A -> M B) :
  (forall a, only_returns b (k a)) -> only_returns b (bind m k).
Proof.
  intros Hk d r d' H. apply bind_returned in H.
  destruct H as (a & d1 & _ & H). exact (Hk a d1 r d' H).
Qed.

Lemma keeps_blind_vendor {V A : Type} (view : realsense2Driver -> V)
    (c : sdk_call) (op : World -> outcome A * World) :
  blind view -> keeps view (vendor c op).
Proof.
  intros [H1 H2]. apply keeps_vendor. intros d w. rewrite H2. apply H1.
Qed.

Lemma setOption_keeps {V : Type} (view : realsense2Driver -> V)
    (opt : rs2_option) (sensor : option rs2_sensor) (v : float32) :
  blind view -> keeps view (setOption opt sensor v).
Proof.
  intros Hb. unfold setOption. destruct sensor as [s |]; [| apply keeps_ret].
  apply keeps_bind; [apply keeps_blind_vendor, Hb | intros []]; simpl.
  - apply keeps_try_catch; [| intros; apply keeps_ret].
    apply keeps_bind; [apply keeps_blind_vendor, Hb | intros; apply keeps_ret].
  - apply keeps_ret.
Qed.

Lemma getOption_keeps {V : Type} (view : realsense2Driver -> V)
    (opt : rs2_option) (sensor : option rs2_sensor) :
  blind view -> keeps view (getOption opt sensor).
Proof.
  intros Hb. unfold getOption. destruct sensor as [s |]; [| apply keeps_ret].
  apply keeps_bind; [apply keeps_blind_vendor, Hb | intros []]; simpl.
  - apply keeps_try_catch; [| intros; apply keeps_ret].
    apply keeps_bind; [apply keeps_blind_vendor, Hb | intros; apply keeps_ret].
  - apply keeps_ret.
Qed.

Lemma setOption_never_raises (opt : rs2_option) (sensor : option rs2_sensor)
    (v : float32) :
  supports_returns -> never_raises (setOption opt sensor v).
Proof.
  intros Hs d. unfold setOption. destruct sensor as [s |]; [| apply ret_never_raises].
  unfold bind, vendor. destruct (Hs s opt (world d)) as (b & w & ->).
  destruct b; simpl; [| apply ret_never_raises].
  apply try_catch_never_raises. intros e. apply ret_never_raises.
Qed.

Lemma getOption_never_raises (opt : rs2_option) (sensor : option rs2_sensor) :
  supports_returns -> never_raises (getOption opt sensor).
Proof.
  intros Hs d. unfold getOption. destruct sensor as [s |]; [| apply ret_never_raises].
  unfold bind, vendor. destruct (Hs s opt (world d)) as (b & w & ->).
  destruct b; simpl; [| apply ret_never_raises].
  apply try_catch_never_raises. intros e. apply ret_never_raises.
Qed.

Lemma blind_setup_and_stamps : blind setup_and_stamps.
Proof. split; reflexivity. Qed.

Lemma blind_setup : blind setup.
Proof. split; reflexivity. Qed.


Ltac keeps_all Hb :=
  repeat first
    [ apply keeps_ret
    | apply keeps_gets
    | apply (setOption_keeps _ _ _ _ Hb)
    | apply (getOption_keeps _ _ _ Hb)
    | apply (keeps_blind_vendor _ _ _ Hb)
    | apply keeps_modify; intros; reflexivity
    | apply keeps_bind; [| intros ?]
    | apply keeps_try_catch; [| intros ?]
    | match goal with
      | |- keeps _ (match ?x with _ => _ end) => destruct x
      end ].

Ltac returns_all Hs :=
  repeat first
    [ apply ret_never_raises
    | apply never_raises_gets
    | apply never_raises_modify
    | apply (setOption_never_raises _ _ _ Hs)
    | apply (getOption_never_raises _ _ Hs)
    | apply never_raises_bind; [| intros ?]
    | match goal with
      | |- never_raises (match ?x with _ => _ end) => destruct x
      end ].

(** ** What a feature call leaves alone *)

(** X4.  The feature and depth-option methods, and [close], change
    nothing of the driver but the world and the trace: the stream
    configuration, the device and sensor handles, the intrinsics and
    extrinsics, the parameters and both stamps are as before, whatever
    the outcome of the call. *)
Theorem feature_calls_keep_setup_and_stamps :
  (forall feature value, keeps setup_and_stamps (setFeature feature value)) /\
  (forall feature, keeps setup_and_stamps (getFeature feature)) /\
  (forall feature onoff, keeps setup_and_stamps (setActive feature onoff)) /\
  (forall feature, keeps setup_and_stamps (getActive feature)) /\
  (forall feature mode, keeps setup_and_stamps (setMode feature mode)) /\
  (forall feature, keeps setup_and_stamps (getMode feature)) /\
  (forall feature, keeps setup_and_stamps (setOnePush feature)) /\
  (forall accuracy, keeps setup_and_stamps (setDepthAccuracy accuracy)) /\
  keeps setup_and_stamps getDepthAccuracy /\
  (forall nearPlane farPlane,
      keeps setup_and_stamps (setDepthClipPlanes nearPlane farPlane)) /\
  keeps setup_and_stamps close.
Proof.
  pose proof blind_setup_and_stamps as Hb.
  assert (HsetMode : forall feature mode,
             keeps setup_and_stamps (setMode feature mode)).
  { intros. unfold setMode. keeps_all Hb. }
  repeat split; intros.
  - unfold setFeature. keeps_all Hb.
  - unfold getFeature, getOption_discarded. keeps_all Hb.
  - unfold setActive. keeps_all Hb.
  - unfold getActive, getOption_discarded. keeps_all Hb.
  - apply HsetMode.
  - unfold getMode, read_into. keeps_all Hb.
  - unfold setOnePush.
    destruct (feature_not_supported feature); [apply keeps_ret |].
    destruct (no_OnePush feature); [apply keeps_ret |].
    apply keeps_bind; [apply HsetMode | intros ?].
    apply keeps_bind; [apply HsetMode | intros ?]. apply keeps_ret.
  - unfold setDepthAccuracy. keeps_all Hb.
  - unfold getDepthAccuracy. keeps_all Hb.
  - unfold setDepthClipPlanes. keeps_all Hb.
  - unfold close, pipelineShutdown. keeps_all Hb.
Qed.

(** X5.  A capture changes nothing of the setup; the colour capture
    leaves the depth stamp and the depth capture the colour stamp. *)
Theorem captures_keep_setup :
  (forall rgbImage timeStamp, keeps setup (getRgbImage rgbImage timeStamp)) /\
  (forall depthImg timeStamp, keeps setup (getDepthImage depthImg timeStamp)) /\
  (forall colorFrame depthFrame colorStamp depthStamp,
      keeps setup (getImages colorFrame depthFrame colorStamp depthStamp)) /\
  (forall rgbImage timeStamp,
      keeps m_depth_stamp (getRgbImage rgbImage timeStamp)) /\
  (forall depthImg timeStamp,
      keeps m_rgb_stamp (getDepthImage depthImg timeStamp)).
Proof.
  assert (Hd : blind m_depth_stamp) by (split; reflexivity).
  assert (Hr : blind m_rgb_stamp) by (split; reflexivity).
  pose proof blind_setup as Hb.
  repeat split; intros.
  - unfold getRgbImage, getImage. keeps_all Hb.
  - unfold getDepthImage, getImage_depth. keeps_all Hb.
  - unfold getImages, getImage, getImage_depth. keeps_all Hb.
  - unfold getRgbImage, getImage. keeps_all Hd.
  - unfold getDepthImage, getImage_depth. keeps_all Hr.
Qed.

(** X6.  On a camera whose capability query returns, no vendor error
    leaves a feature or depth-option method: each returns. *)
Theorem feature_calls_never_raise :
  supports_returns ->
  (forall feature value, never_raises (setFeature feature value)) /\
  (forall feature, never_raises (getFeature feature)) /\
  (forall feature onoff, never_raises (setActive feature onoff)) /\
  (forall feature, never_raises (getActive feature)) /\
  (forall feature mode, never_raises (setMode feature mode)) /\
  (forall feature, never_raises (getMode feature)) /\
  (forall feature, never_raises (setOnePush feature)) /\
  (forall accuracy, never_raises (setDepthAccuracy accuracy)) /\
  never_raises getDepthAccuracy /\
  (forall nearPlane farPlane,
      never_raises (setDepthClipPlanes nearPlane farPlane)).
Proof.
  intros Hs.
  assert (HsetMode : forall feature mode, never_raises (setMode feature mode)).
  { intros. unfold setMode. returns_all Hs. }
  repeat split; intros.
  - unfold setFeature. returns_all Hs.
  - unfold getFeature, getOption_discarded. returns_all Hs.
  - unfold setActive. returns_all Hs.
  - unfold getActive, getOption_discarded. returns_all Hs.
  - apply HsetMode.
  - unfold getMode, read_into. returns_all Hs.
  - unfold setOnePush.
    destruct (feature_not_supported feature); [apply ret_never_raises |].
    destruct (no_OnePush feature); [apply ret_never_raises |].
    apply never_raises_bind; [apply HsetMode | intros ?].
    apply never_raises_bind; [apply HsetMode | intros ?].
    apply ret_never_raises.
  - unfold setDepthAccuracy. returns_all Hs.
  - unfold getDepthAccuracy. returns_all Hs.
  - unfold setDepthClipPlanes. returns_all Hs.
Qed.

(** ** The two option helpers, exactly *)

(** X7.  [setOption] returns [true] exactly when the pointer is not
    null, the sensor reports the option supported and [set_option]
    returned; [getOption] hands a value out exactly when the pointer is
    not null, the option is supported and [get_option] returned that
    value.  In both cases the vendor calls made are the capability query
    and the one access. *)
Theorem option_helpers_succeed_exactly (opt : rs2_option)
    (sensor : option rs2_sensor) (d d' : realsense2Driver) :
  (forall v,
      setOption opt sensor v d = (Returned true, d') <->
      exists s w1 w2,
        sensor = Some s /\
        rs2_supports s opt (world d) = (Returned true, w1) /\
        rs2_set_option s opt v w1 = (Returned tt, w2) /\
        d' = set_world w2 (log_call (call_set_option s opt v)
               (set_world w1 (log_call (call_supports s opt) d)))) /\
  (forall v,
      getOption opt sensor d = (Returned (Some v), d') <->
      exists s w1 w2,
        sensor = Some s /\
        rs2_supports s opt (world d) = (Returned true, w1) /\
        rs2_get_option s opt w1 = (Returned v, w2) /\
        d' = set_world w2 (log_call (call_get_option s opt)
               (set_world w1 (log_call (call_supports s opt) d)))).
Proof.
  split; intros v; split.
  - apply setOption_success.
  - intros (s & w1 & w2 & -> & H1 & H2 & ->).
    unfold setOption, bind, try_catch, vendor, ret.
    rewrite H1. simpl. rewrite H2. reflexivity.
  - unfold getOption. destruct sensor as [s |]; [| discriminate].
    unfold bind, try_catch, vendor, ret.
    destruct (rs2_supports s opt (world d)) as [[[|] | e] w1] eqn:E1; simpl;
      try discriminate.
    destruct (rs2_get_option s opt w1) as [[x | e] w2] eqn:E2; simpl;
      try discriminate.
    intros H. injection H as <- <-. exists s, w1, w2. auto.
  - intros (s & w1 & w2 & -> & H1 & H2 & ->).
    apply getOption_reads; assumption.
Qed.

(** ** Before the sensors are found *)

Lemma getMode_reads (c : cameraFeature_id_t) (opt : rs2_option)
    (r : option float32) (d d' : realsense2Driver) :
  (c = YARP_FEATURE_WHITE_BALANCE /\
   opt = RS2_OPTION_ENABLE_AUTO_WHITE_BALANCE) \/
  (c = YARP_FEATURE_EXPOSURE /\ opt = RS2_OPTION_ENABLE_AUTO_EXPOSURE) ->
  getOption opt (m_color_sensor d) d = (Returned r, d') ->
  getMode (feature_value c) d =
  (Returned (match r with
             | Some v => (true, Some (mode_of_readback v))
             | None => (false, Some MODE_MANUAL)
             end), d').
Proof.
  intros [[-> ->] | [-> ->]] H.
  - rewrite getMode_white_balance. unfold bind, read_into at 1, bind.
    rewrite H. destruct r; reflexivity.
  - rewrite getMode_exposure. unfold bind, read_into at 1, bind.
    rewrite H. destruct r; reflexivity.
Qed.

(** X8.  While the colour sensor pointer is null (no device opened yet,
    or a device without such a sensor), every feature method answers
    without a vendor call and leaves the driver as it is: the setters and
    getters return [false]; [getMode] on white balance or exposure
    returns [false] but writes [MODE_MANUAL]; [setOnePush] on these two
    returns [true] although nothing was written. *)
Theorem feature_calls_without_colour_sensor (d : realsense2Driver) :
  m_color_sensor d = None ->
  (forall feature value, setFeature feature value d = (Returned false, d)) /\
  (forall feature, getFeature feature d = (Returned false, d)) /\
  (forall feature onoff, setActive feature onoff d = (Returned false, d)) /\
  (forall feature, getActive feature d = (Returned false, d)) /\
  (forall feature mode, setMode feature mode d = (Returned false, d)) /\
  (forall c,
      c = YARP_FEATURE_WHITE_BALANCE \/ c = YARP_FEATURE_EXPOSURE ->
      getMode (feature_value c) d = (Returned (false, Some MODE_MANUAL), d) /\
      setOnePush (feature_value c) d = (Returned true, d)).
Proof.
  intros Hs.
  assert (HsetMode : forall feature mode,
             setMode feature mode d = (Returned false, d)).
  { intros. unfold setMode.
    destruct (feature_not_supported feature); [reflexivity |].
    unfold bind, gets. rewrite Hs.
    destruct (feature =? _); [destruct mode; reflexivity |].
    destruct (feature =? _); [destruct mode; reflexivity | reflexivity]. }
  repeat split; intros.
  - unfold setFeature.
    destruct (feature_not_supported feature); [reflexivity |].
    unfold bind, gets. rewrite Hs.
    destruct (enumerator_of feature) as [[] |]; reflexivity.
  - unfold getFeature.
    destruct (feature_not_supported feature); [reflexivity |].
    unfold bind, gets. rewrite Hs.
    destruct (enumerator_of feature) as [[] |]; reflexivity.
  - unfold setActive.
    destruct (feature_not_supported feature); [reflexivity |].
    destruct (no_OnOff feature); [reflexivity |].
    unfold bind, gets. rewrite Hs.
    destruct (enumerator_of feature) as [[] |]; reflexivity.
  - unfold getActive.
    destruct (feature_not_supported feature); [reflexivity |].
    destruct (no_OnOff feature); [reflexivity |].
    unfold bind, gets. rewrite Hs.
    destruct (enumerator_of feature) as [[] |]; reflexivity.
  - apply HsetMode.
  - destruct H as [-> | ->].
    + apply (getMode_reads YARP_FEATURE_WHITE_BALANCE
               RS2_OPTION_ENABLE_AUTO_WHITE_BALANCE None); [tauto |].
      rewrite Hs. reflexivity.
    + apply (getMode_reads YARP_FEATURE_EXPOSURE
               RS2_OPTION_ENABLE_AUTO_EXPOSURE None); [tauto |].
      rewrite Hs. reflexivity.
  - destruct H as [-> | ->]; unfold setOnePush; simpl;
      unfold bind; rewrite !HsetMode; reflexivity.
Qed.

(** X9.  When the read of the auto option fails (null pointer, option
    not supported, or [get_option] raised), [getMode] on white balance or
    exposure returns [false] and the mode it writes is [MODE_MANUAL]: a
    caller that ignores the result sees a manual mode. *)
Theorem getMode_failed_read_reports_manual (c : cameraFeature_id_t)
    (opt : rs2_option) (d d' : realsense2Driver) :
  (c = YARP_FEATURE_WHITE_BALANCE /\
   opt = RS2_OPTION_ENABLE_AUTO_WHITE_BALANCE) \/
  (c = YARP_FEATURE_EXPOSURE /\ opt = RS2_OPTION_ENABLE_AUTO_EXPOSURE) ->
  getOption opt (m_color_sensor d) d = (Returned None, d') ->
  getMode (feature_value c) d = (Returned (false, Some MODE_MANUAL), d').
Proof. intros Hc H. apply (getMode_reads c opt None d d' Hc H). Qed.

(** ** Round trips through the auto option *)

Lemma write_then_getMode (c : cameraFeature_id_t) (opt : rs2_option)
    (v : float32) (d d' : realsense2Driver) :
  reads_back P ->
  (c = YARP_FEATURE_WHITE_BALANCE /\
   opt = RS2_OPTION_ENABLE_AUTO_WHITE_BALANCE) \/
  (c = YARP_FEATURE_EXPOSURE /\ opt = RS2_OPTION_ENABLE_AUTO_EXPOSURE) ->
  setOption opt (m_color_sensor d) v d = (Returned true, d') ->
  fst (getMode (feature_value c) d')
  = Returned (true, Some (mode_of_readback v)).
Proof.
  intros Hsdk Hc Hset. apply setOption_success in Hset.
  destruct Hset as (s & w1 & w2 & Hs & _ & Hw & ->).
  destruct (Hsdk _ _ _ _ _ Hw) as (w3 & w4 & H3 & H4).
  match goal with
  | |- fst (getMode _ ?dx) = _ =>
      pose proof (getOption_reads opt s v dx w3 w4 H3 H4) as G
  end.
  rewrite <- Hs in G.
  rewrite (getMode_reads c opt (Some v) _ _ Hc G). reflexivity.
Qed.

Lemma setMode_is_a_write (feature : Z) (mode : FeatureMode)
    (d d' : realsense2Driver) :
  setMode feature mode d = (Returned true, d') ->
  exists c opt,
    feature = feature_value c /\
    ((c = YARP_FEATURE_WHITE_BALANCE /\
      opt = RS2_OPTION_ENABLE_AUTO_WHITE_BALANCE) \/
     (c = YARP_FEATURE_EXPOSURE /\ opt = RS2_OPTION_ENABLE_AUTO_EXPOSURE)) /\
    mode <> MODE_UNKNOWN /\
    setOption opt (m_color_sensor d)
      (match mode with MODE_AUTO => float_one | _ => float_zero end) d
    = (Returned true, d').
Proof.
  unfold setMode. destruct (feature_not_supported feature) eqn:E;
    [discriminate |].
  apply supported_cases in E.
  destruct E as [-> | [-> | [-> | [-> | [-> | [-> | ->]]]]]];
    destruct mode; simpl; try discriminate; intros H.
  - exists YARP_FEATURE_EXPOSURE, RS2_OPTION_ENABLE_AUTO_EXPOSURE.
    repeat split; auto; discriminate.
  - exists YARP_FEATURE_EXPOSURE, RS2_OPTION_ENABLE_AUTO_EXPOSURE.
    repeat split; auto; discriminate.
  - exists YARP_FEATURE_WHITE_BALANCE, RS2_OPTION_ENABLE_AUTO_WHITE_BALANCE.
    repeat split; auto; discriminate.
  - exists YARP_FEATURE_WHITE_BALANCE, RS2_OPTION_ENABLE_AUTO_WHITE_BALANCE.
    repeat split; auto; discriminate.
Qed.

Lemma setMode_then_getMode (feature : Z) (mode : FeatureMode)
    (d d' : realsense2Driver) :
  reads_back P ->
  setMode feature mode d = (Returned true, d') ->
  fst (getMode feature d') = Returned (true, Some mode).
Proof.
  intros Hsdk Hset. apply setMode_is_a_write in Hset.
  destruct Hset as (c & opt & -> & Hc & Hm & Hset).
  rewrite (write_then_getMode c opt _ d d' Hsdk Hc Hset).
  destruct mode; [contradiction | reflexivity | reflexivity].
Qed.

(** X10.  On a sensor that reads back what was set, a [setMode] that
    returned [true] is read back by [getMode]: the mode set is the mode
    got, for [MODE_MANUAL] as for [MODE_AUTO]; and [setMode] returns
    [true] only for white balance or exposure and never for
    [MODE_UNKNOWN]. *)
Theorem setMode_getMode_round_trip (feature : Z) (mode : FeatureMode)
    (d d' : realsense2Driver) :
  reads_back P ->
  setMode feature mode d = (Returned true, d') ->
  fst (getMode feature d') = Returned (true, Some mode) /\
  (feature = feature_value YARP_FEATURE_WHITE_BALANCE \/
   feature = feature_value YARP_FEATURE_EXPOSURE) /\
  mode <> MODE_UNKNOWN.
Proof.
  intros Hsdk Hset. split; [exact (setMode_then_getMode _ _ _ _ Hsdk Hset) |].
  apply setMode_is_a_write in Hset.
  destruct Hset as (c & opt & -> & [[-> _] | [-> _]] & Hm & _); auto.
Qed.

(** X11.  For white balance the on/off switch and the mode are the same
    vendor option: after a [setActive] that returned [true], [getMode]
    gives [MODE_AUTO] when the switch was set on and [MODE_MANUAL] when
    it was set off. *)
Theorem setActive_is_the_mode_switch (onoff : bool) (d d' : realsense2Driver) :
  reads_back P ->
  setActive (feature_value YARP_FEATURE_WHITE_BALANCE) onoff d
    = (Returned true, d') ->
  fst (getMode (feature_value YARP_FEATURE_WHITE_BALANCE) d')
    = Returned (true, Some (if onoff then MODE_AUTO else MODE_MANUAL)).
Proof.
  intros Hsdk Hset. rewrite setActive_white_balance in Hset.
  rewrite (write_then_getMode YARP_FEATURE_WHITE_BALANCE
             RS2_OPTION_ENABLE_AUTO_WHITE_BALANCE (float_of_bool onoff)
             d d' Hsdk (or_introl (conj eq_refl eq_refl)) Hset).
  destruct onoff; reflexivity.
Qed.

(** X12.  [setOnePush] returns [true] for every feature that has an auto
    mode as soon as its two [setMode] calls return, whatever they
    returned, and [false] with nothing done for the others; when the
    second write went through on a sensor that reads back, the feature
    is left in [MODE_MANUAL]. *)
Theorem setOnePush_ignores_the_writes (feature : Z) (d : realsense2Driver) :
  (hasAuto feature <> Some true -> setOnePush feature d = (Returned false, d)) /\
  (forall r1 d1 r2 d2,
      hasAuto feature = Some true ->
      setMode feature MODE_AUTO d = (Returned r1, d1) ->
      setMode feature MODE_MANUAL d1 = (Returned r2, d2) ->
      setOnePush feature d = (Returned true, d2) /\
      (reads_back P -> r2 = true ->
       fst (getMode feature d2) = Returned (true, Some MODE_MANUAL))).
Proof.
  split.
  - intros Ha. unfold setOnePush.
    destruct (feature_not_supported feature) eqn:E; [reflexivity |].
    unfold no_OnePush, hasOnePush. rewrite E.
    destruct (hasAuto feature) as [[|] |]; [congruence | reflexivity | reflexivity].
  - intros r1 d1 r2 d2 Ha H1 H2. split.
    + assert (E : feature_not_supported feature = false).
      { unfold hasAuto in Ha.
        destruct (feature_not_supported feature); [discriminate | reflexivity]. }
      unfold setOnePush, no_OnePush, hasOnePush. rewrite E, Ha. simpl.
      unfold bind. rewrite H1, H2. reflexivity.
    + intros Hsdk ->. exact (setMode_then_getMode _ _ _ _ Hsdk H2).
Qed.

(** ** What a capture hands back *)

(** X13.  Each conversion first reads its frame from the frameset; an
    error of that read leaves the conversion, the driver unchanged but
    for the record of the read.  With the frame in hand, the colour
    conversion returns [true] exactly for a frame of a known format whose
    byte count (computed as the code does, the product of the two [int]
    taken to [size_t] and multiplied by the bytes per pixel) is the raw
    size of the resized destination; then the destination holds the
    frame's bytes, the stamp handed to the caller is [m_rgb_stamp],
    advanced once, and nothing else of the driver has changed.  For an
    unknown format it returns [false] with the caller's image and stamp;
    for a size that differs it returns [false] with the resized image and
    the caller's stamp; the driver's stamps are then as before.  The
    depth conversion, with its frame in hand, returns [true] exactly for
    a frame of a known format, whatever the format and the size; the
    destination is then written at each pixel of the frame and the stamp
    handed out is [m_depth_stamp], advanced once; otherwise it returns
    [false] with the caller's image and stamp. *)
Theorem conversions_hand_back (timeStamp : Stamp) (sourceFrame : rs2_frameset)
    (d : realsense2Driver) :
  (forall Frame,
      match get_color_frame sourceFrame with
      | Raised e =>
          getImage Frame timeStamp sourceFrame d
          = (Raised e, log_call call_color_frame d)
      | Returned color_frm =>
          let pixCode := pixFormatToCode (frame_format color_frm) in
          let mem_to_wrt :=
            frame_bytes (frame_width color_frm) (frame_height color_frm)
                        (frame_format color_frm) in
          let resized :=
            resize (width (m_color_intrin d)) (height (m_color_intrin d))
                   (setPixelCode pixCode Frame) in
          (is_invalid_code pixCode = false /\
           wrap_size_t (getRawImageSize resized) = mem_to_wrt /\
           getImage Frame timeStamp sourceFrame d
           = (Returned
                (true,
                 writeRawImage
                   (firstn (Z.to_nat mem_to_wrt) (frame_data color_frm))
                   resized,
                 stamp_update (world d) (m_rgb_stamp d)),
              set_rgb_stamp (stamp_update (world d) (m_rgb_stamp d))
                (log_call call_color_frame d))) \/
          (is_invalid_code pixCode = true /\
           getImage Frame timeStamp sourceFrame d
           = (Returned (false, Frame, timeStamp),
              log_call call_color_frame d)) \/
          (is_invalid_code pixCode = false /\
           wrap_size_t (getRawImageSize resized) <> mem_to_wrt /\
           getImage Frame timeStamp sourceFrame d
           = (Returned (false, resized, timeStamp),
              log_call call_color_frame d))
      end) /\
  (forall Frame,
      match get_depth_frame sourceFrame with
      | Raised e =>
          getImage_depth Frame timeStamp sourceFrame d
          = (Raised e, log_call call_depth_frame d)
      | Returned depth_frm =>
          let w := depth_width depth_frm in
          let h := depth_height depth_frm in
          (is_invalid_code (pixFormatToCode (depth_format depth_frm)) = false /\
           getImage_depth Frame timeStamp sourceFrame d
           = (Returned
                (true,
                 fold_left
                   (fun i p =>
                      setSafePixel (fst p) (snd p)
                        (get_distance depth_frm (fst p) (snd p)) i)
                   (visited w h) (depth_resize w h Frame),
                 stamp_update (world d) (m_depth_stamp d)),
              set_depth_stamp (stamp_update (world d) (m_depth_stamp d))
                (log_call call_depth_frame d))) \/
          (is_invalid_code (pixFormatToCode (depth_format depth_frm)) = true /\
           getImage_depth Frame timeStamp sourceFrame d
           = (Returned (false, Frame, timeStamp),
              log_call call_depth_frame d))
      end).
Proof.
  split; intros Frame.
  - destruct (get_color_frame sourceFrame) as [color_frm | e] eqn:Ef.
    2:{ unfold getImage, bind, vendor_pure. rewrite Ef. reflexivity. }
    cbv zeta.
    assert (Hrun : getImage Frame timeStamp sourceFrame d
      = (if is_invalid_code (pixFormatToCode (frame_format color_frm))
         then ret (false, Frame, timeStamp)
         else
           cw <- gets (fun d => width (m_color_intrin d)) ;;
           ch <- gets (fun d => height (m_color_intrin d)) ;;
           let Frame1 :=
             resize cw ch
               (setPixelCode (pixFormatToCode (frame_format color_frm)) Frame) in
           if negb (wrap_size_t (getRawImageSize Frame1)
                    =? frame_bytes (frame_width color_frm)
                         (frame_height color_frm) (frame_format color_frm))
           then ret (false, Frame1, timeStamp)
           else
             let Frame2 :=
               writeRawImage
                 (firstn
                    (Z.to_nat
                       (frame_bytes (frame_width color_frm)
                          (frame_height color_frm) (frame_format color_frm)))
                    (frame_data color_frm)) Frame1 in
             modify (fun d =>
               set_rgb_stamp (stamp_update (world d) (m_rgb_stamp d)) d) ;;
             stamp <- gets m_rgb_stamp ;;
             ret (true, Frame2, stamp))
          (log_call call_color_frame d)).
    { unfold getImage, bind at 1, vendor_pure. rewrite Ef. reflexivity. }
    rewrite Hrun. clear Hrun.
    destruct (is_invalid_code _) eqn:E.
    + right. left. split; reflexivity.
    + unfold bind, gets. cbn [fst snd log_call m_color_intrin].
      destruct (Z.eqb_spec
                  (wrap_size_t
                     (getRawImageSize
                        (resize (width (m_color_intrin d))
                           (height (m_color_intrin d))
                           (setPixelCode
                              (pixFormatToCode (frame_format color_frm))
                              Frame))))
                  (frame_bytes (frame_width color_frm)
                     (frame_height color_frm) (frame_format color_frm)))
        as [Heq | Hne]; cbn [negb].
      * left. repeat split; auto.
      * right. right. repeat split; auto.
  - destruct (get_depth_frame sourceFrame) as [depth_frm | e] eqn:Ef.
    2:{ unfold getImage_depth, bind, vendor_pure. rewrite Ef. reflexivity. }
    cbv zeta.
    unfold getImage_depth, bind, vendor_pure. rewrite Ef.
    destruct (is_invalid_code _) eqn:E.
    + right. split; reflexivity.
    + left. split; [reflexivity |].
      unfold write_distances. rewrite fold_rows. reflexivity.
Qed.

(** ** Resolution changes that fail, and the colour one that succeeds *)

Lemma restart_failure (d0 d' : realsense2Driver) :
  restart d0 = (Returned false, d') ->
  (exists e w,
      rs2_pipeline_stop (world d0) = (Raised e, w) /\
      d' = set_world w (log_call call_pipeline_stop d0)) \/
  (exists w1 e w2,
      rs2_pipeline_stop (world d0) = (Returned tt, w1) /\
      rs2_pipeline_start (m_cfg d0) w1 = (Raised e, w2) /\
      d' = set_world w2 (log_call (call_pipeline_start (m_cfg d0))
             (set_world w1 (log_call call_pipeline_stop d0)))).
Proof.
  unfold restart, pipelineShutdown, pipelineStartup, updateTransformations,
    bind, try_catch, vendor, vendor_pure, gets, modify, ret.
  destruct (rs2_pipeline_stop (world d0)) as [[[] | e1] w1] eqn:E1; simpl.
  2:{ intros H. injection H as <-. left. eauto. }
  destruct (rs2_pipeline_start (m_cfg d0) w1) as [[[] | e2] w2] eqn:E2; simpl.
  2:{ intros H. injection H as <-. right. exists w1, e2, w2. auto. }
  destruct (rs2_get_active_profile w2) as [[prof | e3] w3]; simpl;
    [| discriminate].
  destruct (rs2_get_stream prof RS2_STREAM_DEPTH) as [dsp | e4]; simpl;
    [| discriminate].
  destruct (rs2_get_stream prof RS2_STREAM_COLOR) as [csp | e5]; simpl;
    [| discriminate].
  destruct (rs2_get_intrinsics dsp) as [di | e6]; simpl; [| discriminate].
  destruct (rs2_get_intrinsics csp) as [ci | e7]; simpl; [| discriminate].
  destruct (rs2_get_extrinsics_to dsp csp) as [dc | e8]; simpl;
    [| discriminate].
  destruct (rs2_get_extrinsics_to csp dsp) as [cd | e9]; simpl;
    discriminate.
Qed.

(** X14.  A resolution setter returns [false] only because the pipeline
    did not stop, or stopped and did not start again; the recorded
    intrinsics and extrinsics are then as before the call; in the second
    case the world is the one the failed start left, the pipeline
    stopped. *)
Theorem failed_resolution_change (w h : Z) (d d' : realsense2Driver) :
  setDepthResolution w h d = (Returned false, d') \/
  setRgbResolution w h d = (Returned false, d') ->
  (m_depth_intrin d' = m_depth_intrin d /\
   m_color_intrin d' = m_color_intrin d /\
   m_depth_to_color d' = m_depth_to_color d /\
   m_color_to_depth d' = m_color_to_depth d) /\
  ((exists e w0,
       rs2_pipeline_stop (world d) = (Raised e, w0) /\ world d' = w0) \/
   (exists w1 e w2,
       rs2_pipeline_stop (world d) = (Returned tt, w1) /\
       rs2_pipeline_start (m_cfg d') w1 = (Raised e, w2) /\
       world d' = w2)).
Proof.
  intros [H | H];
    [rewrite setDepthResolution_restart in H
    | rewrite setRgbResolution_restart in H];
    apply restart_failure in H;
    destruct H as [(e & w0 & Hstop & ->) | (w1 & e & w2 & Hstop & Hstart & ->)];
    (split; [repeat split |]).
  - left. exists e, w0. split; [exact Hstop | reflexivity].
  - right. exists w1, e, w2. repeat split; assumption.
  - left. exists e, w0. split; [exact Hstop | reflexivity].
  - right. exists w1, e, w2. repeat split; assumption.
Qed.

(** X15.  On a camera that reports the sizes it was asked for, a
    [setRgbResolution w h] that returned [true] leaves [getRgbWidth] at
    [w], [getRgbHeight] at [h] and the depth size as it was. *)
Theorem setRgbResolution_then_getters (w h : Z) (d d' : realsense2Driver) :
  honours_requests P ->
  setRgbResolution w h d = (Returned true, d') ->
  fst (getRgbWidth d') = Returned w /\
  fst (getRgbHeight d') = Returned h /\
  fst (getRgbResolution d') = Returned (true, (w, h)) /\
  fst (getDepthWidth d') = fst (getDepthWidth d) /\
  fst (getDepthHeight d') = fst (getDepthHeight d).
Proof.
  intros Hsdk Hset. rewrite setRgbResolution_restart in Hset.
  apply restart_success in Hset.
  destruct Hset as (w1 & w2 & w3 & prof & dsp & csp &
                    _ & Hstart & Hprof & Hd & Hc & Hdi & Hci).
  destruct (Hsdk _ _ _ _ _ _ _ _ _ Hstart Hprof) as [Hdepth Hcolor].
  destruct (Hdepth _ _ Hd Hdi) as [Hw Hh].
  destruct (Hcolor _ _ Hc Hci) as [Hcw Hch].
  unfold getRgbWidth, getRgbHeight, getDepthWidth, getDepthHeight,
    getRgbResolution, bind, gets, ret.
  simpl. rewrite Hw, Hh, Hcw, Hch. auto.
Qed.

(** ** Depth options *)

(** X16.  [setDepthClipPlanes] writes the far plane whatever became of
    the near plane: its result is the conjunction of the two writes, and
    on a camera whose capability query returns, with a depth sensor, the
    query for the far plane is always among the vendor calls made. *)
Theorem clip_planes_are_written_independently (nearPlane farPlane : spec_float)
    (d : realsense2Driver) :
  (forall r1 d1 r2 d2,
      setOption RS2_OPTION_MIN_DISTANCE (m_depth_sensor d)
        (float_of_double nearPlane) d = (Returned r1, d1) ->
      setOption RS2_OPTION_MAX_DISTANCE (m_depth_sensor d)
        (float_of_double farPlane) d1 = (Returned r2, d2) ->
      setDepthClipPlanes nearPlane farPlane d = (Returned (r1 && r2), d2)) /\
  (supports_returns ->
   forall s,
     m_depth_sensor d = Some s ->
     In (call_supports s RS2_OPTION_MAX_DISTANCE)
        (sdk_trace (snd (setDepthClipPlanes nearPlane farPlane d)))).
Proof.
  assert (Hk : keeps m_depth_sensor
                 (setOption RS2_OPTION_MIN_DISTANCE (m_depth_sensor d)
                    (float_of_double nearPlane))).
  { apply setOption_keeps. split; reflexivity. }
  split.
  - intros r1 d1 r2 d2 H1 H2.
    unfold setDepthClipPlanes, bind, gets. rewrite H1.
    pose proof (Hk d) as E. rewrite H1 in E. simpl in E. rewrite E, H2.
    reflexivity.
  - intros Hs s Hsensor.
    unfold setDepthClipPlanes, bind at 1, gets at 1. unfold bind at 1.
    destruct (setOption_never_raises RS2_OPTION_MIN_DISTANCE (m_depth_sensor d)
                (float_of_double nearPlane) Hs d) as (r1 & d1 & E1).
    pose proof (Hk d) as E. rewrite E1 in E. simpl in E.
    rewrite E1. unfold bind at 1, gets at 1. rewrite E, Hsensor.
    unfold bind, setOption, bind, try_catch, vendor, ret.
    destruct (Hs s RS2_OPTION_MAX_DISTANCE (world d1)) as (b & w1 & ->).
    destruct b; simpl.
    + destruct (rs2_set_option s RS2_OPTION_MAX_DISTANCE
                  (float_of_double farPlane) w1) as [[[] | e] w2]; simpl; auto.
    + auto.
Qed.

(** X17.  While the depth sensor pointer is null the depth-option
    methods make no vendor call: the two setters return [false],
    [getDepthAccuracy] returns [0.0], and the driver is as it was. *)
Theorem depth_calls_without_depth_sensor (d : realsense2Driver) :
  m_depth_sensor d = None ->
  (forall accuracy, setDepthAccuracy accuracy d = (Returned false, d)) /\
  getDepthAccuracy d = (Returned float_zero, d) /\
  (forall nearPlane farPlane,
      setDepthClipPlanes nearPlane farPlane d = (Returned false, d)).
Proof.
  intros Hs. repeat split; intros.
  - unfold setDepthAccuracy, bind, gets. rewrite Hs. reflexivity.
  - unfold getDepthAccuracy, bind, gets. rewrite Hs. reflexivity.
  - unfold setDepthClipPlanes, bind, gets. rewrite Hs. simpl. rewrite Hs.
    reflexivity.
Qed.

(** ** Reasoning on returned results *)

Lemma ensures_bind {A B : Type} (m : M A) (k : A -> M B)
    (d : realsense2Driver) (mid : A -> realsense2Driver -> Prop)
    (post : B -> realsense2Driver -> Prop) :
  ensures m d mid ->
  (forall a d1, mid a d1 -> ensures (k a) d1 post) ->
  ensures (bind m k) d post.
Proof.
  intros Hm Hk b d' H. apply bind_returned in H.
  destruct H as (a & d1 & H1 & H2). exact (Hk a d1 (Hm a d1 H1) b d' H2).
Qed.

Lemma ensures_ret {A : Type} (a : A) (d : realsense2Driver)
    (post : A -> realsense2Driver -> Prop) :
  post a d -> ensures (ret a) d post.
Proof. intros H b d' E. injection E as <- <-. exact H. Qed.

Lemma ensures_keeps {V A : Type} (view : realsense2Driver -> V) (m : M A)
    (d : realsense2Driver) (v : V) :
  keeps view m -> view d = v -> ensures m d (fun _ d' => view d' = v).
Proof.
  intros Hk Hv a d' E. specialize (Hk d). rewrite E in Hk. simpl in Hk.
  congruence.
Qed.

Lemma keeps_forM {V A : Type} (view : realsense2Driver -> V) (l : list A)
    (body : A -> M unit) :
  (forall a, keeps view (body a)) -> keeps view (forM l body).
Proof.
  intros H. induction l as [| a l IH]; simpl; [apply keeps_ret |].
  apply keeps_bind; [apply H | intros _; exact IH].
Qed.

Lemma keeps_repeatM {V : Type} (view : realsense2Driver -> V) (n : nat)
    (body : M unit) :
  keeps view body -> keeps view (repeatM n body).
Proof.
  intros H. induction n as [| n IH]; simpl; [apply keeps_ret |].
  apply keeps_bind; [exact H | intros _; exact IH].
Qed.

Ltac keeps_more Hb :=
  unfold enable_stream, pipelineStartup, pipelineShutdown,
    updateTransformations;
  repeat first
    [ apply keeps_ret
    | apply keeps_gets
    | apply (keeps_blind_vendor _ _ _ Hb)
    | apply keeps_vendor_pure; intros; apply Hb
    | apply keeps_modify; intros; reflexivity
    | apply keeps_bind; [| intros ?]
    | apply keeps_try_catch; [| intros ?]
    | apply keeps_forM; intros ?
    | apply keeps_repeatM
    | match goal with
      | |- keeps _ (match ?x with _ => _ end) => destruct x
      end ].

(** ** Opening the device *)

Lemma classify_sensors_ensures (isd : rs2_sensor -> bool)
    (sensors : list rs2_sensor) :
  (forall s w r w', rs2_is_depth_sensor s w = (Returned r, w') -> r = isd s) ->
  forall d,
    ensures (classify_sensors sensors) d
      (fun _ d' =>
         m_depth_sensor d' = last_of_kind isd sensors (m_depth_sensor d) /\
         m_color_sensor d'
         = last_of_kind (fun s => negb (isd s)) sensors (m_color_sensor d) /\
         m_sensors d' = m_sensors d /\
         m_device d' = m_device d).
Proof.
  intros Hisd. unfold classify_sensors.
  induction sensors as [| s sensors IH]; intros d; simpl.
  - apply ensures_ret. auto.
  - eapply ensures_bind.
    + intros a d1 H. unfold bind, vendor in H.
      destruct (rs2_is_depth_sensor s (world d)) as [[r | e] w] eqn:E;
        [| discriminate].
      apply Hisd in E. subst r.
      instantiate (1 := fun _ d1 =>
        m_depth_sensor d1 = (if isd s then Some s else m_depth_sensor d) /\
        m_color_sensor d1
        = (if negb (isd s) then Some s else m_color_sensor d) /\
        m_sensors d1 = m_sensors d /\
        m_device d1 = m_device d).
      destruct (isd s); simpl in H; injection H as _ <-; simpl; auto.
    + intros ? d1 (H1 & H2 & H3 & H4). intros b d' E.
      destruct (IH d1 b d' E) as (G1 & G2 & G3 & G4).
      unfold last_of_kind in *. simpl. rewrite <- H1, <- H2, <- H3, <- H4.
      auto.
Qed.

Lemma initialize_ensures_sorted (isd : rs2_sensor -> bool)
    (d : realsense2Driver) :
  (forall s w r w', rs2_is_depth_sensor s w = (Returned r, w') -> r = isd s) ->
  ensures initializeRealsenseDevice d
    (fun r d' =>
       r = true ->
       (exists dev devices w0 w1 w w',
           m_device d' = Some dev /\
           rs2_query_devices w0 = (Returned devices, w1) /\
           match devices with
           | [] => exists w2, rs2_wait_for_device w1 = (Returned dev, w2)
           | first :: _ => dev = first
           end /\
           rs2_query_sensors dev w = (Returned (m_sensors d'), w')) /\
       m_depth_sensor d' = last_of_kind isd (m_sensors d') (m_depth_sensor d) /\
       m_color_sensor d'
       = last_of_kind (fun s => negb (isd s)) (m_sensors d')
           (m_color_sensor d)).
Proof.
  intros Hisd.
  assert (Hb : blind pointers) by (split; reflexivity).
  assert (Hb3 : blind (fun x => (pointers x, m_sensors x, m_device x)))
    by (split; reflexivity).
  unfold initializeRealsenseDevice.
  eapply ensures_bind;
    [apply (ensures_keeps pointers _ _ (pointers d)); [keeps_more Hb | reflexivity] |].
  intros [colorW colorH] d1 Hp. cbv beta iota.
  eapply ensures_bind;
    [apply (ensures_keeps pointers _ _ (pointers d)); [keeps_more Hb | exact Hp] |].
  clear Hp d1. intros [depthW depthH] d1 Hp. cbv beta iota.
  eapply ensures_bind;
    [apply (ensures_keeps pointers _ _ (pointers d)); [keeps_more Hb | exact Hp] |].
  clear Hp d1. intros ? d1 Hp. cbv beta in Hp.
  eapply ensures_bind;
    [apply (ensures_keeps pointers _ _ (pointers d)); [keeps_more Hb | exact Hp] |].
  clear Hp d1. intros ? d1 Hp. cbv beta in Hp.
  eapply ensures_bind;
    [apply (ensures_keeps pointers _ _ (pointers d)); [keeps_more Hb | exact Hp] |].
  clear Hp d1. intros [|] d1 Hp; simpl;
    [| apply ensures_ret; discriminate].
  eapply ensures_bind;
    [apply (ensures_keeps pointers _ _ (pointers d)); [keeps_more Hb | exact Hp] |].
  clear Hp d1. intros ? d1 Hp. cbv beta in Hp.
  (* the list of devices *)
  eapply ensures_bind with
    (mid := fun devices x =>
              pointers x = pointers d /\
              exists w0, rs2_query_devices w0 = (Returned devices, world x)).
  { intros devices x E. unfold vendor in E.
    destruct (rs2_query_devices (world d1)) as [[l | e] w1] eqn:Eq;
      [| discriminate].
    injection E as <- <-. split; [exact Hp | exists (world d1); exact Eq]. }
  clear Hp d1. intros devices d1 [Hp (w0 & Hq0)].
  (* the device selected and recorded *)
  eapply ensures_bind with
    (mid := fun dev x =>
              pointers x = pointers d /\
              m_device x = Some dev /\
              match devices with
              | [] =>
                  exists w2, rs2_wait_for_device (world d1) = (Returned dev, w2)
              | first :: _ => dev = first
              end).
  { intros dev x E. destruct devices as [| first rest].
    - unfold bind, vendor, modify, ret in E.
      destruct (rs2_wait_for_device (world d1)) as [[dv | e] w2] eqn:Ew;
        [| discriminate].
      injection E as <- <-.
      split; [exact Hp | split; [reflexivity | exists w2; reflexivity]].
    - unfold bind, vendor, modify, gets, ret in E. cbn [m_verbose set_device] in E.
      destruct (m_verbose d1).
      + cbn [world set_device] in E.
        destruct (rs2_device_information first (world d1)) as [[[] | e] w2];
          [| discriminate].
        injection E as <- <-.
        split; [exact Hp | split; reflexivity].
      + injection E as <- <-.
        split; [exact Hp | split; reflexivity]. }
  clear Hp. intros dev d2 (Hp & Hdev & Hsel).
  (* its sensors *)
  eapply ensures_bind with
    (mid := fun sensors x =>
              pointers x = pointers d /\
              m_device x = Some dev /\
              exists w w', rs2_query_sensors dev w = (Returned sensors, w')).
  { intros sensors x E. unfold vendor in E.
    destruct (rs2_query_sensors dev (world d2)) as [[l | e] w'] eqn:Eq;
      [| discriminate].
    injection E as <- <-. split; [exact Hp | split; [exact Hdev | eauto]]. }
  clear Hp Hdev d2. intros sensors d2 (Hp & Hdev & Hq).
  eapply ensures_bind with
    (mid := fun _ x =>
              (pointers x, m_sensors x, m_device x)
              = (pointers d, sensors, Some dev)).
  { intros u x E. injection E as _ <-.
    cbn [m_sensors m_device set_sensors]. unfold pointers in *.
    cbn [m_depth_sensor m_color_sensor set_sensors].
    rewrite Hp, Hdev. reflexivity. }
  clear Hp Hdev d2. intros ? d2 Hv.
  eapply ensures_bind;
    [apply (ensures_keeps (fun x => (pointers x, m_sensors x, m_device x)) _ _
              (pointers d, sensors, Some dev)); [keeps_more Hb3 | exact Hv] |].
  clear Hv d2. intros verbose d2 Hv. cbv beta in Hv.
  eapply ensures_bind;
    [apply (ensures_keeps (fun x => (pointers x, m_sensors x, m_device x)) _ _
              (pointers d, sensors, Some dev)); [keeps_more Hb3 | exact Hv] |].
  clear Hv d2. intros ? d2 Hv. cbv beta in Hv.
  eapply ensures_bind; [apply (classify_sensors_ensures isd sensors Hisd) |].
  intros ? d3 (H1 & H2 & H3 & H4).
  injection Hv as Hd Hc Hl Hm. rewrite Hd in H1. rewrite Hc in H2.
  rewrite Hl in H3. rewrite Hm in H4. clear d2 Hd Hc Hl Hm.
  assert (Hv : (pointers d3, m_sensors d3, m_device d3)
               = ((last_of_kind isd sensors (m_depth_sensor d),
                   last_of_kind (fun s => negb (isd s)) sensors
                     (m_color_sensor d)), sensors, Some dev)).
  { unfold pointers. rewrite H1, H2, H3, H4. reflexivity. }
  clear H1 H2 H3 H4.
  eapply ensures_bind;
    [eapply (ensures_keeps (fun x => (pointers x, m_sensors x, m_device x)));
       [keeps_more Hb3 | exact Hv] |].
  clear Hv d3. intros ? d3 Hv. cbv beta in Hv.
  apply ensures_ret. intros _. injection Hv as Hd Hc Hl Hm.
  rewrite Hl. repeat split; auto.
  destruct Hq as (w & w' & Hq).
  exists dev, devices, w0, (world d1), w, w'. auto.
Qed.

(** X18.  When [initializeRealsenseDevice] returns [true], [m_device] is
    the first device of the list [query_devices] returned or, when that
    list was empty, the device [wait_for_device] then returned; the list
    in [m_sensors] is the one this device reported, [m_depth_sensor] is
    the last sensor of that list that is a depth sensor and
    [m_color_sensor] the last one that is not, whatever kind of sensor
    that is; a pointer for which the list has no sensor keeps the value
    it had. *)
Theorem open_sorts_the_sensors (isd : rs2_sensor -> bool)
    (d d' : realsense2Driver) :
  (forall s w r w', rs2_is_depth_sensor s w = (Returned r, w') -> r = isd s) ->
  initializeRealsenseDevice d = (Returned true, d') ->
  (exists dev devices w0 w1 w w',
      m_device d' = Some dev /\
      rs2_query_devices w0 = (Returned devices, w1) /\
      match devices with
      | [] => exists w2, rs2_wait_for_device w1 = (Returned dev, w2)
      | first :: _ => dev = first
      end /\
      rs2_query_sensors dev w = (Returned (m_sensors d'), w')) /\
  m_depth_sensor d' = last_of_kind isd (m_sensors d') (m_depth_sensor d) /\
  m_color_sensor d'
  = last_of_kind (fun s => negb (isd s)) (m_sensors d') (m_color_sensor d).
Proof.
  intros Hisd H.
  exact (initialize_ensures_sorted isd d Hisd true d' H eq_refl).
Qed.

Lemma pipelineStartup_result (d : realsense2Driver) :
  pipelineStartup d =
  match rs2_pipeline_start (m_cfg d) (world d) with
  | (Returned _, w) =>
      (Returned true, set_world w (log_call (call_pipeline_start (m_cfg d)) d))
  | (Raised _, w) =>
      (Returned false, set_world w (log_call (call_pipeline_start (m_cfg d)) d))
  end.
Proof.
  unfold pipelineStartup, try_catch, bind, gets, vendor, ret.
  destruct (rs2_pipeline_start (m_cfg d) (world d)) as [[[] | e] w]; reflexivity.
Qed.

Lemma initialize_shape (d : realsense2Driver) :
  exists tail : M bool,
    initializeRealsenseDevice d =
    bind pipelineStartup
         (fun started => if negb started then ret false else tail)
         (configured d) /\
    only_returns true tail.
Proof.
  eexists. split.
  - unfold initializeRealsenseDevice, configured.
    unfold bind at 1, gets at 1. destruct (rgbRes d) as [colorW colorH].
    unfold bind at 1, gets at 1. destruct (depthRes d) as [depthW depthH].
    reflexivity.
  - repeat (apply only_returns_bind; intros ?). apply only_returns_ret.
Qed.

(** X19.  [initializeRealsenseDevice] returns [false] exactly when the
    pipeline does not start on the configuration it has just built; the
    driver is then left with that configuration and no warm-up, device
    query or sensor query has been made.  Every later vendor error is
    raised, not reported. *)
Theorem open_fails_only_at_start (d d' : realsense2Driver) :
  initializeRealsenseDevice d = (Returned false, d') <->
  exists e w,
    rs2_pipeline_start (m_cfg (configured d)) (world d) = (Raised e, w) /\
    d' = set_world w (log_call (call_pipeline_start (m_cfg (configured d)))
           (configured d)).
Proof.
  destruct (initialize_shape d) as (tail & -> & Htail).
  unfold bind. rewrite pipelineStartup_result.
  change (world (configured d)) with (world d).
  destruct (rs2_pipeline_start (m_cfg (configured d)) (world d))
    as [[[] | e] w]; cbn [negb].
  - split.
    + intros H. apply Htail in H. discriminate H.
    + intros (e & w' & H & _). discriminate H.
  - split.
    + intros H. injection H as <-. exists e, w. auto.
    + intros (e' & w' & H & ->). injection H as _ <-. reflexivity.
Qed.

End MoreProperties.

(** ** Applying the parameters *)

Section ParamsProperties.

Context {P : Platform}.

Variable Value : Type.
Variable isDouble : Value -> bool.
Variable asDouble : Value -> spec_float.
Variable isInt : Value -> bool.
Variable asInt : Value -> Z.

Lemma stage_returns_true (isS r r0 : bool) (m : M bool)
    (d d' : realsense2Driver) :
  (if isS && r then (ok <- m ;; ret (check ok r0)) else ret r) d
  = (Returned true, d') ->
  r = true /\ (isS = true -> r0 = true /\ m d = (Returned true, d')).
Proof.
  destruct isS, r; simpl; intros H.
  - apply bind_returned in H. destruct H as (ok & d1 & Hm & H).
    injection H as H <-. split; [reflexivity | intros _].
    destruct ok, r0; try discriminate H. auto.
  - discriminate H.
  - split; [reflexivity | discriminate].
  - discriminate H.
Qed.

Lemma bind_eq {A B : Type} (m : M A) (k : A -> M B) (d d1 : realsense2Driver)
    (a : A) :
  m d = (Returned a, d1) -> bind m k d = k a d1.
Proof. intros H. unfold bind. rewrite H. reflexivity. Qed.

Lemma check_true (ok r : bool) : check ok r = true -> ok = true /\ r = true.
Proof. destruct ok, r; simpl; auto; discriminate. Qed.

(** X20.  [setParams] returns [true] only if every parameter the
    configuration sets has values of the type asked for (a double for the
    accuracy and for each clip plane, integers for the resolutions) and
    the accuracy, when set, was accepted by the sensor. *)
Theorem setParams_true_is_sound (m_params_map : params_map Value)
    (d d' : realsense2Driver) :
  setParams isDouble asDouble isInt asInt m_params_map d = (Returned true, d') ->
  (isSetting (param_accuracy m_params_map) = true ->
   isDouble (val (param_accuracy m_params_map) 0%nat) = true /\
   exists d1,
     setDepthAccuracy
       (asDouble (val (param_accuracy m_params_map) 0%nat)) d
     = (Returned true, d1)) /\
  (isSetting (param_clipPlanes m_params_map) = true ->
   isDouble (val (param_clipPlanes m_params_map) 0%nat) = true /\
   isDouble (val (param_clipPlanes m_params_map) 1%nat) = true) /\
  (isSetting (param_depthRes m_params_map) = true ->
   isInt (val (param_depthRes m_params_map) 0%nat) = true /\
   isInt (val (param_depthRes m_params_map) 1%nat) = true) /\
  (isSetting (param_rgbRes m_params_map) = true ->
   isInt (val (param_rgbRes m_params_map) 0%nat) = true /\
   isInt (val (param_rgbRes m_params_map) 1%nat) = true).
Proof.
  unfold setParams. intros H.
  apply bind_returned in H. destruct H as (r1 & d1 & H1 & H).
  apply bind_returned in H. destruct H as (r2 & d2 & H2 & H).
  apply bind_returned in H. destruct H as (r3 & d3 & H3 & H).
  apply bind_returned in H. destruct H as (r4 & d4 & H4 & H).
  injection H as -> <-.
  apply stage_returns_true in H4. destruct H4 as [-> H4].
  apply stage_returns_true in H3. destruct H3 as [-> H3].
  apply stage_returns_true in H2. destruct H2 as [-> H2].
  apply stage_returns_true in H1. destruct H1 as [_ H1].
  repeat split.
  - destruct (H1 H) as [E _]. apply check_true in E. tauto.
  - destruct (H1 H) as [_ E]. eauto.
  - destruct (H2 H) as [E _]. apply check_true in E. destruct E as [_ E].
    apply check_true in E. tauto.
  - destruct (H2 H) as [E _]. apply check_true in E. tauto.
  - destruct (H3 H) as [E _]. apply check_true in E. destruct E as [E _].
    apply andb_true_iff in E. tauto.
  - destruct (H3 H) as [E _]. apply check_true in E. destruct E as [E _].
    apply andb_true_iff in E. tauto.
  - destruct (H4 H) as [E _]. apply check_true in E. destruct E as [E _].
    apply andb_true_iff in E. tauto.
  - destruct (H4 H) as [E _]. apply check_true in E. destruct E as [E _].
    apply andb_true_iff in E. tauto.
Qed.

(** X21.  [setParams] with nothing to set returns [true] and does
    nothing.  When the accuracy is set, its value is handed to the sensor
    even if it is not a double; and if it is not a double, or the sensor
    refuses it, [setParams] returns [false] at once: the clip planes and
    the resolutions are not applied. *)
Theorem setParams_stops_at_the_accuracy (m_params_map : params_map Value)
    (d : realsense2Driver) :
  (isSetting (param_accuracy m_params_map) = false ->
   isSetting (param_clipPlanes m_params_map) = false ->
   isSetting (param_depthRes m_params_map) = false ->
   isSetting (param_rgbRes m_params_map) = false ->
   setParams isDouble asDouble isInt asInt m_params_map d = (Returned true, d)) /\
  (forall ok d1,
      isSetting (param_accuracy m_params_map) = true ->
      setDepthAccuracy (asDouble (val (param_accuracy m_params_map) 0%nat)) d
      = (Returned ok, d1) ->
      isDouble (val (param_accuracy m_params_map) 0%nat) && ok = false ->
      setParams isDouble asDouble isInt asInt m_params_map d
      = (Returned false, d1)).
Proof.
  split.
  - intros H1 H2 H3 H4. unfold setParams, bind.
    rewrite H1, H2, H3, H4. reflexivity.
  - intros ok d1 Hs Hset Hbad. unfold setParams.
    assert (E : check ok
                  (check (isDouble (val (param_accuracy m_params_map) 0%nat))
                     true) = false).
    { clear Hset. revert Hbad.
      destruct (isDouble (val (param_accuracy m_params_map) 0%nat)), ok;
        simpl; intros Hbad; try reflexivity; discriminate Hbad. }
    erewrite bind_eq;
      [| rewrite Hs; cbn [andb]; erewrite bind_eq; [reflexivity | exact Hset]].
    rewrite E.
    erewrite bind_eq; [| rewrite andb_false_r; reflexivity].
    erewrite bind_eq; [| rewrite andb_false_r; reflexivity].
    erewrite bind_eq; [| rewrite andb_false_r; reflexivity].
    reflexivity.
Qed.

End ParamsProperties.

(** * The further properties on the simulated camera *)

Lemma mock_supports_returns : supports_returns (P := Mock.platform).
Proof. intros s o w. exists true, w. reflexivity. Qed.

Lemma mock_is_depth (s : Mock.sensor) (w : Mock.camera) (r : bool)
    (w' : Mock.camera) :
  @rs2_is_depth_sensor Mock.platform s w = (Returned r, w') ->
  r = Mock.sensor_eqb s Mock.Stereo_Module.
Proof. intros H. injection H as <- _. reflexivity. Qed.

(** X1 on the simulated camera. *)
Lemma depth_conversion_visits_each_pixel_once_witness :
  visited 2 1 = [(0, 0); (1, 0)] /\ In (1, 0) (visited 2 1).
Proof.
  split; [reflexivity |].
  destruct (depth_conversion_visits_each_pixel_once (P := Mock.platform)
              Mock.small_depth 2 1 Mock.blank_depth)
    as (_ & _ & H & _).
  apply (H 1 0). lia.
Defined.

(** X2 on the simulated camera. *)
Lemma bytes_follow_the_pixel_code_witness :
  pixFormatToCode RS2_FORMAT_Z16 = pixFormatToCode RS2_FORMAT_Y16 /\
  bytesPerPixel RS2_FORMAT_Z16 = bytesPerPixel RS2_FORMAT_Y16.
Proof.
  split; [reflexivity |].
  destruct (bytes_follow_the_pixel_code RS2_FORMAT_Z16 RS2_FORMAT_Y16)
    as (H & _).
  apply H. reflexivity.
Defined.

(** X3 on the simulated camera. *)
Lemma capability_tables_agree_witness :
  hasFeature 3 = Some true /\
  (exists a, hasManual 3 = Some a) /\
  hasAuto 3 = Some true.
Proof.
  split; [reflexivity |].
  destruct (capability_tables_agree (P := Mock.platform) 3)
    as (H1 & _ & _ & H4 & _).
  destruct (H1 eq_refl) as (_ & _ & Hm & _).
  split; [exact Hm | apply H4; reflexivity].
Defined.

(** X6 on the simulated camera. *)
Lemma feature_calls_never_raise_witness :
  exists r d',
    setFeature (P := Mock.platform) (feature_value YARP_FEATURE_GAIN) float_one
      (Mock.opened Mock.unplugged) = (Returned r, d').
Proof.
  destruct (feature_calls_never_raise (P := Mock.platform)
              mock_supports_returns) as (H & _).
  apply (H (feature_value YARP_FEATURE_GAIN) float_one
           (Mock.opened Mock.unplugged)).
Defined.

(** X7 on the simulated camera. *)
Lemma option_helpers_succeed_exactly_witness :
  fst (setOption (P := Mock.platform) RS2_OPTION_GAIN (Some Mock.RGB_Camera)
         float_one (Mock.opened Mock.healthy)) = Returned true.
Proof.
  destruct (option_helpers_succeed_exactly (P := Mock.platform)
              RS2_OPTION_GAIN (Some Mock.RGB_Camera)
              (Mock.opened Mock.healthy)
              (snd (setOption (P := Mock.platform) RS2_OPTION_GAIN
                      (Some Mock.RGB_Camera) float_one
                      (Mock.opened Mock.healthy)))) as (H & _).
  destruct (H float_one) as (_ & Hback).
  rewrite (surjective_pairing (setOption _ _ _ _)).
  rewrite Hback; [reflexivity |].
  exists Mock.RGB_Camera, Mock.healthy.
  eexists. repeat split; reflexivity.
Defined.

(** X8 on the simulated camera. *)
Lemma feature_calls_without_colour_sensor_witness :
  m_color_sensor (Bench.unopened Mock.healthy) = None /\
  setFeature (feature_value YARP_FEATURE_GAIN) float_one
    (Bench.unopened Mock.healthy)
  = (Returned false, Bench.unopened Mock.healthy) /\
  setOnePush (feature_value YARP_FEATURE_EXPOSURE) (Bench.unopened Mock.healthy)
  = (Returned true, Bench.unopened Mock.healthy).
Proof.
  split; [reflexivity |].
  destruct (feature_calls_without_colour_sensor (Bench.unopened Mock.healthy)
              eq_refl) as (H1 & _ & _ & _ & _ & H6).
  split; [apply H1 |].
  apply (H6 YARP_FEATURE_EXPOSURE). right. reflexivity.
Defined.

(** X9 on the simulated camera. *)
Lemma getMode_failed_read_reports_manual_witness :
  fst (getMode (feature_value YARP_FEATURE_EXPOSURE)
         (Mock.opened Mock.unplugged))
  = Returned (false, Some MODE_MANUAL).
Proof.
  rewrite (getMode_failed_read_reports_manual YARP_FEATURE_EXPOSURE
             RS2_OPTION_ENABLE_AUTO_EXPOSURE (Mock.opened Mock.unplugged)
             (snd (getOption RS2_OPTION_ENABLE_AUTO_EXPOSURE
                     (m_color_sensor (Mock.opened Mock.unplugged))
                     (Mock.opened Mock.unplugged)))).
  - reflexivity.
  - right. split; reflexivity.
  - reflexivity.
Defined.

(** X10 on the simulated camera. *)
Lemma setMode_getMode_round_trip_witness :
  fst (setMode (feature_value YARP_FEATURE_EXPOSURE) MODE_MANUAL
         (Mock.opened Mock.healthy)) = Returned true /\
  fst (getMode (feature_value YARP_FEATURE_EXPOSURE)
         (snd (setMode (feature_value YARP_FEATURE_EXPOSURE) MODE_MANUAL
                 (Mock.opened Mock.healthy))))
  = Returned (true, Some MODE_MANUAL).
Proof.
  split; [reflexivity |].
  apply (setMode_getMode_round_trip (feature_value YARP_FEATURE_EXPOSURE)
           MODE_MANUAL (Mock.opened Mock.healthy)
           (snd (setMode (feature_value YARP_FEATURE_EXPOSURE) MODE_MANUAL
                   (Mock.opened Mock.healthy)))
           mock_reads_back).
  reflexivity.
Defined.

(** X11 on the simulated camera. *)
Lemma setActive_is_the_mode_switch_witness :
  fst (setActive (feature_value YARP_FEATURE_WHITE_BALANCE) true
         (Mock.opened Mock.healthy)) = Returned true /\
  fst (getMode (feature_value YARP_FEATURE_WHITE_BALANCE)
         (snd (setActive (feature_value YARP_FEATURE_WHITE_BALANCE) true
                 (Mock.opened Mock.healthy))))
  = Returned (true, Some MODE_AUTO).
Proof.
  split; [reflexivity |].
  apply (setActive_is_the_mode_switch true (Mock.opened Mock.healthy)
           (snd (setActive (feature_value YARP_FEATURE_WHITE_BALANCE) true
                   (Mock.opened Mock.healthy)))
           mock_reads_back).
  reflexivity.
Defined.

(** X12 on the simulated camera. *)
Lemma setOnePush_ignores_the_writes_witness :
  fst (setMode (feature_value YARP_FEATURE_EXPOSURE) MODE_AUTO
         (Mock.opened Mock.unplugged)) = Returned false /\
  fst (setOnePush (feature_value YARP_FEATURE_EXPOSURE)
         (Mock.opened Mock.unplugged)) = Returned true.
Proof.
  split; [reflexivity |].
  destruct (setOnePush_ignores_the_writes
              (feature_value YARP_FEATURE_EXPOSURE)
              (Mock.opened Mock.unplugged)) as (_ & H).
  assert (H1 : setMode (feature_value YARP_FEATURE_EXPOSURE) MODE_AUTO
                 (Mock.opened Mock.unplugged)
               = (Returned false,
                  snd (setMode (feature_value YARP_FEATURE_EXPOSURE) MODE_AUTO
                         (Mock.opened Mock.unplugged))))
    by (vm_compute; reflexivity).
  assert (H2 : setMode (feature_value YARP_FEATURE_EXPOSURE) MODE_MANUAL
                 (snd (setMode (feature_value YARP_FEATURE_EXPOSURE) MODE_AUTO
                         (Mock.opened Mock.unplugged)))
               = (Returned false,
                  snd (setMode (feature_value YARP_FEATURE_EXPOSURE)
                         MODE_MANUAL
                         (snd (setMode (feature_value YARP_FEATURE_EXPOSURE)
                                 MODE_AUTO (Mock.opened Mock.unplugged))))))
    by (vm_compute; reflexivity).
  destruct (H _ _ _ _ eq_refl H1 H2) as (E & _).
  rewrite E. reflexivity.
Defined.

(** X13 on a frameset without a colour frame: the colour conversion
    raises, the depth conversion succeeds. *)
Lemma conversions_hand_back_witness :
  getImage Mock.blank (0, 0) Mock.depth_only_frames (Mock.opened Mock.healthy)
    = (Raised (Mock.error "null frame"),
       log_call call_color_frame (Mock.opened Mock.healthy)) /\
  exists img,
    getImage_depth Mock.blank_depth (0, 0) Mock.depth_only_frames
      (Mock.opened Mock.healthy)
    = (Returned (true, img, (1, 100)),
       set_depth_stamp (P := Mock.platform) (1, 100)
         (log_call call_depth_frame (Mock.opened Mock.healthy))).
Proof.
  destruct (conversions_hand_back (P := Mock.platform) (0, 0)
              Mock.depth_only_frames (Mock.opened Mock.healthy)) as [H1 H2].
  split; [exact (H1 Mock.blank) |].
  pose proof (H2 Mock.blank_depth) as H.
  cbn [get_depth_frame Mock.depth_only_frames] in H.
  destruct H as [[_ E] | [E _]]; [| discriminate E].
  eexists. exact E.
Defined.

(** X14 on the simulated camera. *)
Lemma failed_resolution_change_witness :
  fst (setDepthResolution 8 6 (Mock.opened Mock.unplugged)) = Returned false /\
  m_depth_intrin (snd (setDepthResolution 8 6 (Mock.opened Mock.unplugged)))
  = m_depth_intrin (Mock.opened Mock.unplugged).
Proof.
  split; [reflexivity |].
  destruct (failed_resolution_change 8 6 (Mock.opened Mock.unplugged)
              (snd (setDepthResolution 8 6 (Mock.opened Mock.unplugged))))
    as ((H & _) & _).
  - left. vm_compute. reflexivity.
  - exact H.
Defined.

(** X15 on the simulated camera. *)
Lemma setRgbResolution_then_getters_witness :
  fst (setRgbResolution 8 6 (Mock.opened Mock.healthy)) = Returned true /\
  fst (getRgbWidth (snd (setRgbResolution 8 6 (Mock.opened Mock.healthy))))
  = Returned 8 /\
  fst (getDepthWidth (snd (setRgbResolution 8 6 (Mock.opened Mock.healthy))))
  = Returned 4.
Proof.
  split; [reflexivity |].
  destruct (setRgbResolution_then_getters 8 6 (Mock.opened Mock.healthy)
              (snd (setRgbResolution 8 6 (Mock.opened Mock.healthy)))
              mock_honours_requests) as (H1 & _ & _ & H4 & _).
  - vm_compute. reflexivity.
  - split; [exact H1 | exact H4].
Defined.

(** X16 on the simulated camera. *)
Lemma clip_planes_are_written_independently_witness :
  fst (setDepthClipPlanes float_one float_one (Mock.opened Mock.unplugged))
  = Returned false /\
  In (call_supports (P := Mock.platform) Mock.Stereo_Module
        RS2_OPTION_MAX_DISTANCE)
     (sdk_trace
        (snd (setDepthClipPlanes float_one float_one
                (Mock.opened Mock.unplugged)))).
Proof.
  split; [reflexivity |].
  destruct (clip_planes_are_written_independently float_one float_one
              (Mock.opened Mock.unplugged)) as (_ & H).
  apply (H mock_supports_returns Mock.Stereo_Module). reflexivity.
Defined.

(** X17 on the simulated camera. *)
Lemma depth_calls_without_depth_sensor_witness :
  m_depth_sensor (Bench.unopened Mock.healthy) = None /\
  getDepthAccuracy (Bench.unopened Mock.healthy)
  = (Returned float_zero, Bench.unopened Mock.healthy).
Proof.
  split; [reflexivity |].
  destruct (depth_calls_without_depth_sensor (Bench.unopened Mock.healthy)
              eq_refl) as (_ & H & _).
  exact H.
Defined.

Lemma returned_value {A W : Type} (x y : A) (u v : W) :
  (@Returned A x, u) = (Returned y, v) -> x = y.
Proof. intros H. injection H as H _. exact H. Qed.

(** X18 on the simulated camera. *)
Lemma open_sorts_the_sensors_witness :
  fst (initializeRealsenseDevice (Bench.unopened Mock.healthy))
  = Returned true /\
  m_depth_sensor (snd (initializeRealsenseDevice (Bench.unopened Mock.healthy)))
  = Some Mock.Stereo_Module /\
  m_color_sensor (snd (initializeRealsenseDevice (Bench.unopened Mock.healthy)))
  = Some Mock.RGB_Camera /\
  m_device (snd (initializeRealsenseDevice (Bench.unopened Mock.healthy)))
  = Some tt /\
  m_sensors (snd (initializeRealsenseDevice (Bench.unopened Mock.healthy)))
  = [Mock.Stereo_Module; Mock.RGB_Camera].
Proof.
  split; [vm_compute; reflexivity |].
  destruct (open_sorts_the_sensors (P := Mock.platform)
              (fun s => Mock.sensor_eqb s Mock.Stereo_Module)
              (Bench.unopened Mock.healthy)
              (snd (initializeRealsenseDevice (Bench.unopened Mock.healthy)))
              mock_is_depth)
    as ((dev & devices & w0 & w1 & w & w' & Hm & _ & _ & Hq) & H1 & H2).
  - vm_compute. reflexivity.
  - split; [| split; [| split]].
    + rewrite H1. vm_compute. reflexivity.
    + rewrite H2. vm_compute. reflexivity.
    + rewrite Hm. destruct dev. reflexivity.
    + change (@rs2_query_sensors Mock.platform dev w)
        with (@Returned (list Mock.sensor)
                [Mock.Stereo_Module; Mock.RGB_Camera], w) in Hq.
      exact (eq_sym (returned_value _ _ _ _ Hq)).
Defined.

(** X19 on the simulated camera. *)
Lemma open_fails_only_at_start_witness :
  fst (initializeRealsenseDevice (Bench.unopened Bench.jammed))
  = Returned false.
Proof.
  destruct (open_fails_only_at_start (Bench.unopened Bench.jammed)
              (set_world (P := Mock.platform) Bench.jammed
                 (log_call
                    (call_pipeline_start
                       (m_cfg (configured (Bench.unopened Bench.jammed))))
                    (configured (Bench.unopened Bench.jammed)))))
    as (_ & H).
  rewrite H; [reflexivity |].
  exists (Mock.error "start"), Bench.jammed. split; reflexivity.
Defined.

(** X20 on the simulated camera. *)
Lemma setParams_true_is_sound_witness :
  fst (setParams Bench.is_double Bench.as_double Bench.is_int Bench.as_int
         Bench.depth_only (Mock.opened Mock.healthy)) = Returned true /\
  Bench.is_int (val (param_depthRes Bench.depth_only) 0%nat) = true.
Proof.
  split; [vm_compute; reflexivity |].
  destruct (setParams_true_is_sound Bench.value Bench.is_double Bench.as_double
              Bench.is_int Bench.as_int Bench.depth_only
              (Mock.opened Mock.healthy)
              (snd (setParams Bench.is_double Bench.as_double Bench.is_int
                      Bench.as_int Bench.depth_only (Mock.opened Mock.healthy))))
    as (_ & _ & H & _).
  - vm_compute. reflexivity.
  - destruct (H eq_refl) as [E _]. exact E.
Defined.

(** X21 on the simulated camera. *)
Lemma setParams_stops_at_the_accuracy_witness :
  fst (setDepthAccuracy (Bench.as_double (Bench.int 3))
         (Mock.opened Mock.healthy)) = Returned true /\
  setParams Bench.is_double Bench.as_double Bench.is_int Bench.as_int
    Bench.wrong_accuracy (Mock.opened Mock.healthy)
  = (Returned false,
     snd (setDepthAccuracy (Bench.as_double (Bench.int 3))
            (Mock.opened Mock.healthy))).
Proof.
  split; [reflexivity |].
  destruct (setParams_stops_at_the_accuracy Bench.value Bench.is_double
              Bench.as_double Bench.is_int Bench.as_int Bench.wrong_accuracy
              (Mock.opened Mock.healthy)) as (_ & H).
  apply (H true); reflexivity.
Defined.
